(** * Browser Threat Simulator: simulation and risk-detection core

    A shallow embedding of the decision logic of the extension:
    - the progression tracker   (background/service-worker.ts),
    - the credential detector   (ai/credential-detector.ts),
    - the context analyzer      (ai/context-analyzer.ts),
    - the simulation engine     (background/simulation-engine.ts),
    - the red-team generator    (ai/phishing-generator.ts).

    Conventions.  JavaScript numbers that only ever hold integers (counters,
    the 0-100 risk score, millisecond clocks) are [Z]; numbers that hold
    fractions (confidences, probabilities, the running mean) are IEEE-754
    binary64 values, i.e. Rocq's primitive [float], so that sums such as
    0.25 + 0.35 round exactly as they do in the engine.  Strings are
    [string]s of ASCII characters.  [Date.now()] and [Math.random()] are
    inputs of the functions that read them. *)

From Stdlib Require Import ZArith List String Ascii Bool Lia Permutation.
From Stdlib Require Import Floats Uint63 DecimalString.
Import ListNotations.

Set Warnings "-inexact-float".

(* ================================================================== *)
(** * Part I: the embedding                                            *)
(* ================================================================== *)

(** ** JavaScript primitives used by the sources *)
Module JS.

(** An integer-valued number read as a double. *)
Definition ofZ (z : Z) : float :=
  if (z <? 0)%Z
  then PrimFloat.opp (PrimFloat.of_uint63 (Uint63.of_Z (- z)))
  else PrimFloat.of_uint63 (Uint63.of_Z z).

(** [a > b], [a >= b] and [Math.min] on doubles. *)
Definition gt (a b : float) : bool := PrimFloat.ltb b a.
Definition ge (a b : float) : bool := PrimFloat.leb b a.
Definition min (a b : float) : float := if PrimFloat.ltb b a then b else a.

(** Truthiness of an optional string, number and array reference. *)
Definition truthyStr (s : option string) : bool :=
  match s with
  | Some EmptyString => false
  | Some _ => true
  | None => false
  end.

Definition truthyNum (n : option Z) : bool :=
  match n with
  | Some z => negb (z =? 0)%Z
  | None => false
  end.

(** [a || b] on strings. *)
Definition orStr (s : option string) (d : string) : string :=
  match s with
  | Some EmptyString => d
  | Some v => v
  | None => d
  end.

(** [String.prototype.toLowerCase] on ASCII text. *)
Definition lowerChar (c : ascii) : ascii :=
  let n := nat_of_ascii c in
  if andb (65 <=? n) (n <=? 90) then ascii_of_nat (n + 32) else c.

Fixpoint toLowerCase (s : string) : string :=
  match s with
  | EmptyString => EmptyString
  | String c r => String (lowerChar c) (toLowerCase r)
  end.

(** [s.startsWith(p)]. *)
Fixpoint startsWith (s p : string) : bool :=
  match p, s with
  | EmptyString, _ => true
  | String _ _, EmptyString => false
  | String a p', String b s' => Ascii.eqb a b && startsWith s' p'
  end.

(** [s.includes(k)]. *)
Fixpoint includes (s k : string) : bool :=
  startsWith s k ||
  match s with
  | EmptyString => false
  | String _ r => includes r k
  end.

(** [s.endsWith(p)]. *)
Fixpoint endsWith (s p : string) : bool :=
  String.eqb s p ||
  match s with
  | EmptyString => false
  | String _ r => endsWith r p
  end.

(** The rest of [s] after the prefix [p], when [s] starts with [p]. *)
Fixpoint afterPrefix (s p : string) : option string :=
  match p, s with
  | EmptyString, _ => Some s
  | String _ _, EmptyString => None
  | String a p', String b s' =>
      if Ascii.eqb a b then afterPrefix s' p' else None
  end.

(** A regular-expression dot matches anything but a line terminator. *)
Definition lineTerminator (c : ascii) : bool :=
  let n := nat_of_ascii c in (n =? 10) || (n =? 13).

(** [/.*b/] anchored at the start of [s]. *)
Fixpoint dotStarThen (s b : string) : bool :=
  startsWith s b ||
  match s with
  | EmptyString => false
  | String c r => if lineTerminator c then false else dotStarThen r b
  end.

(** [/a.*b/.test(s)] for literal [a] and [b]. *)
Fixpoint testSeq (s a b : string) : bool :=
  match afterPrefix s a with
  | Some r => dotStarThen r b
  | None => false
  end ||
  match s with
  | EmptyString => false
  | String _ r => testSeq r a b
  end.

(** [/a.*b/i.test(s)] and [/a/i.test(s)]. *)
Definition testSeqI (s a b : string) : bool := testSeq (toLowerCase s) a b.
Definition testI (s a : string) : bool := includes (toLowerCase s) a.

(** [Array.prototype.sort] is stable; [after a b] reads "the comparator is
    positive on (a, b)", so [a] must come after [b]. *)
Section Sort.
Context {A : Type} (after : A -> A -> bool).

Fixpoint insert (x : A) (l : list A) : list A :=
  match l with
  | [] => [x]
  | y :: r => if after x y then y :: insert x r else x :: l
  end.

Definition sort (l : list A) : list A := fold_right insert [] l.
End Sort.

(** [Array.from(new Set(l))]: first occurrences, in insertion order. *)
Fixpoint uniqueInto (seen l : list string) : list string :=
  match l with
  | [] => []
  | x :: r =>
      if existsb (String.eqb x) seen then uniqueInto seen r
      else x :: uniqueInto (x :: seen) r
  end.

Definition unique (l : list string) : list string := uniqueInto [] l.

(** [Math.round(x)] for [0 <= x <= 100]: the least integer [k] with
    [x < k + 0.5] (halves go up). *)
Fixpoint roundFrom (fuel : nat) (k : Z) (x : float) : Z :=
  match fuel with
  | O => k
  | S f => if PrimFloat.ltb x (ofZ k + 0.5)%float then k else roundFrom f (k + 1)%Z x
  end.

Definition round100 (x : float) : Z := roundFrom 100 0%Z x.

End JS.

(** ** shared/types.ts *)
Module Types.

Inductive Platform := GITHUB | LINKEDIN | GMAIL | UNKNOWN.

Definition platformName (p : Platform) : string :=
  match p with
  | GITHUB => "github"
  | LINKEDIN => "linkedin"
  | GMAIL => "gmail"
  | UNKNOWN => "unknown"
  end.

Definition platform_eqb (a b : Platform) : bool :=
  match a, b with
  | GITHUB, GITHUB | LINKEDIN, LINKEDIN | GMAIL, GMAIL | UNKNOWN, UNKNOWN => true
  | _, _ => false
  end.

Record Activity := {
  act_type : string;
  act_content : string;
  act_timestamp : Z
}.

Record Connection := {
  conn_name : string;
  conn_platform : Platform;
  conn_relationship : string;
  conn_recentInteraction : option string
}.

Record UserContext := {
  platform : Platform;
  ctx_userId : option string;
  username : option string;
  email : option string;
  organization : option string;
  recentActivity : option (list Activity);
  connections : option (list Connection);
  ctx_timestamp : Z
}.

Inductive EventType :=
  | SIMULATION_SHOWN
  | LINK_CLICKED
  | FORM_FOCUSED
  | CREDENTIAL_ENTERED
  | SIMULATION_DETECTED
  | SIMULATION_IGNORED
  | REPORTED_PHISHING.

(** A [SimulationEvent] as the tracker sees it: [metadata?.shownAt] is the
    only metadata entry it reads ([None] when the metadata or the entry is
    missing), and the [context] of the event is not looked at. *)
Record SimulationEvent := {
  ev_id : string;
  ev_simulationId : string;
  ev_type : EventType;
  ev_timestamp : Z;
  ev_url : string;
  ev_shownAt : option Z
}.

Inductive Difficulty := Easy | Medium | Hard | Expert.

Record DifficultyProgression := {
  currentLevel : Difficulty;
  successRate : float;
  consecutiveSuccesses : Z;
  consecutiveFailures : Z
}.

Record UserStats := {
  userId : string;
  simulationsSeen : Z;
  simulationsClicked : Z;
  credentialsEntered : Z;
  simulationsDetected : Z;
  averageDetectionTime : float;
  difficultyProgression : DifficultyProgression;
  riskScore : Z;
  lastUpdated : Z
}.

Inductive Severity := SevLow | SevMedium | SevHigh.

Record RiskFactor := {
  rf_type : string;
  rf_severity : Severity;
  rf_description : string
}.

Record FormField := {
  ff_type : string;
  ff_name : string;
  ff_autocomplete : option string;
  isPassword : bool;
  isHidden : bool
}.

Record UserBehavior := {
  timeOnPage : Z;
  mouseMovements : Z;
  keystrokes : Z;
  formInteractions : Z
}.

Record MLPrediction := {
  isCredentialEntry : bool;
  confidence : float;
  riskFactors : list RiskFactor
}.

Inductive PhishingType :=
  | CREDENTIAL_HARVEST
  | OAUTH_GRANT
  | MFA_BYPASS
  | SESSION_HIJACK
  | CLIPBOARD_HIJACK
  | FILE_DOWNLOAD.

Inductive Urgency := UrgLow | UrgMedium | UrgHigh | UrgCritical.
Inductive Position := Modal | Banner | Inline | Notification.
Inductive Theme := Light | Dark.

Record ElementStyling := {
  position : Position;
  theme : Theme;
  brandColors : option (list string);
  logoUrl : option string
}.

Record SimulationContent := {
  title : string;
  body : string;
  sender : option string;
  senderEmail : option string;
  urgency : Urgency;
  actionText : string;
  actionUrl : option string;
  styling : ElementStyling
}.

Inductive TriggerKind := TrTime | TrAction | TrUrl | TrElement | TrMlPrediction.
Inductive TriggerValue := VString (s : string) | VNumber (n : float) | VBoolean (b : bool).
Inductive TriggerOperator := OpEquals | OpContains | OpGt | OpLt | OpRegex.

Record TriggerCondition := {
  tr_type : TriggerKind;
  tr_value : TriggerValue;
  tr_operator : TriggerOperator
}.

Record SimulationMetadata := {
  createdAt : Z;
  campaignId : string;
  difficulty : Difficulty;
  trainingObjective : string;
  redTeamControlled : bool
}.

Record PhishingSimulation := {
  sim_id : string;
  sim_type : PhishingType;
  targetPlatform : Platform;
  content : SimulationContent;
  triggerConditions : list TriggerCondition;
  metadata : SimulationMetadata
}.

End Types.

(** ** background/service-worker.ts: the progression tracker *)
Module Tracker.
Import Types.
Local Open Scope Z_scope.

(** [createDefaultStats]; the generated id and the clock are inputs. *)
Definition createDefaultStats (id : string) (now : Z) : UserStats :=
  {| userId := id;
     simulationsSeen := 0;
     simulationsClicked := 0;
     credentialsEntered := 0;
     simulationsDetected := 0;
     averageDetectionTime := 0%float;
     difficultyProgression :=
       {| currentLevel := Easy;
          successRate := 0%float;
          consecutiveSuccesses := 0;
          consecutiveFailures := 0 |};
     riskScore := 50;
     lastUpdated := now |}.

Definition withSeen (v : Z) (s : UserStats) : UserStats :=
  {| userId := userId s; simulationsSeen := v;
     simulationsClicked := simulationsClicked s;
     credentialsEntered := credentialsEntered s;
     simulationsDetected := simulationsDetected s;
     averageDetectionTime := averageDetectionTime s;
     difficultyProgression := difficultyProgression s;
     riskScore := riskScore s; lastUpdated := lastUpdated s |}.

Definition withClicked (v : Z) (s : UserStats) : UserStats :=
  {| userId := userId s; simulationsSeen := simulationsSeen s;
     simulationsClicked := v;
     credentialsEntered := credentialsEntered s;
     simulationsDetected := simulationsDetected s;
     averageDetectionTime := averageDetectionTime s;
     difficultyProgression := difficultyProgression s;
     riskScore := riskScore s; lastUpdated := lastUpdated s |}.

Definition withEntered (v : Z) (s : UserStats) : UserStats :=
  {| userId := userId s; simulationsSeen := simulationsSeen s;
     simulationsClicked := simulationsClicked s;
     credentialsEntered := v;
     simulationsDetected := simulationsDetected s;
     averageDetectionTime := averageDetectionTime s;
     difficultyProgression := difficultyProgression s;
     riskScore := riskScore s; lastUpdated := lastUpdated s |}.

Definition withDetected (v : Z) (s : UserStats) : UserStats :=
  {| userId := userId s; simulationsSeen := simulationsSeen s;
     simulationsClicked := simulationsClicked s;
     credentialsEntered := credentialsEntered s;
     simulationsDetected := v;
     averageDetectionTime := averageDetectionTime s;
     difficultyProgression := difficultyProgression s;
     riskScore := riskScore s; lastUpdated := lastUpdated s |}.

Definition withAverage (v : float) (s : UserStats) : UserStats :=
  {| userId := userId s; simulationsSeen := simulationsSeen s;
     simulationsClicked := simulationsClicked s;
     credentialsEntered := credentialsEntered s;
     simulationsDetected := simulationsDetected s;
     averageDetectionTime := v;
     difficultyProgression := difficultyProgression s;
     riskScore := riskScore s; lastUpdated := lastUpdated s |}.

Definition withRisk (v : Z) (s : UserStats) : UserStats :=
  {| userId := userId s; simulationsSeen := simulationsSeen s;
     simulationsClicked := simulationsClicked s;
     credentialsEntered := credentialsEntered s;
     simulationsDetected := simulationsDetected s;
     averageDetectionTime := averageDetectionTime s;
     difficultyProgression := difficultyProgression s;
     riskScore := v; lastUpdated := lastUpdated s |}.

Definition withUpdated (v : Z) (s : UserStats) : UserStats :=
  {| userId := userId s; simulationsSeen := simulationsSeen s;
     simulationsClicked := simulationsClicked s;
     credentialsEntered := credentialsEntered s;
     simulationsDetected := simulationsDetected s;
     averageDetectionTime := averageDetectionTime s;
     difficultyProgression := difficultyProgression s;
     riskScore := riskScore s; lastUpdated := v |}.

(** [updateAverageDetectionTime]: reads the detected-count as it stands when
    it is called. *)
Definition updateAverageDetectionTime (newTime : Z) (stats : UserStats) : UserStats :=
  let current := averageDetectionTime stats in
  let count := JS.ofZ (simulationsDetected stats) in
  withAverage ((current * (count - 1) + JS.ofZ newTime) / count)%float stats.

(** The [switch] of [handleSimulationEvent]. *)
Definition applyEventType (t : EventType) (stats : UserStats) : UserStats :=
  match t with
  | LINK_CLICKED =>
      withRisk (riskScore stats + 25)
        (withClicked (simulationsClicked stats + 1) stats)
  | CREDENTIAL_ENTERED =>
      withRisk (riskScore stats + 50)
        (withEntered (credentialsEntered stats + 1) stats)
  | SIMULATION_DETECTED =>
      withRisk (Z.max 0 (riskScore stats - 20))
        (withDetected (simulationsDetected stats + 1) stats)
  | REPORTED_PHISHING =>
      withRisk (Z.max 0 (riskScore stats - 30))
        (withDetected (simulationsDetected stats + 1) stats)
  | SIMULATION_SHOWN | FORM_FOCUSED | SIMULATION_IGNORED => stats
  end.

Definition isDetected (t : EventType) : bool :=
  match t with SIMULATION_DETECTED => true | _ => false end.

(** [handleSimulationEvent]: the update of [extensionState.userStats].  The
    save to storage, the dashboard call and the training example that follow
    do not touch the record. *)
Definition handleSimulationEvent (now : Z) (stats : UserStats)
    (event : SimulationEvent) : UserStats :=
  let s1 := withSeen (simulationsSeen stats + 1) stats in
  let s2 := applyEventType (ev_type event) s1 in
  let s3 :=
    if isDetected (ev_type event) && JS.truthyNum (ev_shownAt event)
    then match ev_shownAt event with
         | Some shown => updateAverageDetectionTime (ev_timestamp event - shown) s2
         | None => s2
         end
    else s2 in
  withUpdated now s3.

(** A run of the tracker over events, each with the clock it was handled at. *)
Definition processEvents (stats : UserStats)
    (events : list (Z * SimulationEvent)) : UserStats :=
  fold_left (fun s ne => handleSimulationEvent (fst ne) s (snd ne)) events stats.

(** An event of kind [t] with no metadata. *)
Definition plainEvent (t : EventType) : SimulationEvent :=
  {| ev_id := "e"; ev_simulationId := "sim"; ev_type := t;
     ev_timestamp := 0; ev_url := "https://github.com/"; ev_shownAt := None |}.

(** A detection event, reported [elapsed] ms after the simulation was shown
    at time [shown]. *)
Definition detectionEvent (shown elapsed : Z) : SimulationEvent :=
  {| ev_id := "e"; ev_simulationId := "sim"; ev_type := SIMULATION_DETECTED;
     ev_timestamp := shown + elapsed; ev_url := "https://github.com/";
     ev_shownAt := Some shown |}.

(** The table of section 4.4 of the specification: the signed delta of each
    event kind, and the clamp to the 0-100 scale. *)
Definition specDelta (t : EventType) : Z :=
  match t with
  | CREDENTIAL_ENTERED => 50
  | LINK_CLICKED => 25
  | SIMULATION_DETECTED => -20
  | REPORTED_PHISHING => -30
  | SIMULATION_SHOWN | FORM_FOCUSED | SIMULATION_IGNORED => 0
  end.

Definition clamp100 (x : Z) : Z := Z.max 0 (Z.min 100 x).

Definition bump (b : bool) : Z := if b then 1 else 0.

Definition isClicked (t : EventType) : bool :=
  match t with LINK_CLICKED => true | _ => false end.
Definition isEntered (t : EventType) : bool :=
  match t with CREDENTIAL_ENTERED => true | _ => false end.
Definition countsAsDetected (t : EventType) : bool :=
  match t with SIMULATION_DETECTED | REPORTED_PHISHING => true | _ => false end.

End Tracker.

(** ** ai/credential-detector.ts: the rule-based risk detector *)
Module Detector.
Import Types.
Local Open Scope string_scope.

Record DetectionInput := {
  formFields : list FormField;
  url : string;
  pageTitle : string;
  pageContent : string;
  userBehavior : UserBehavior;
  timestamp : Z
}.

(** The two properties of a parsed [URL] object that the detector reads. *)
Record URL := {
  protocol : string;
  hostname : string
}.

Definition factor (t : string) (sev : Severity) (d : string) : RiskFactor :=
  {| rf_type := t; rf_severity := sev; rf_description := d |}.

(** A running [score] with the [factors] pushed so far. *)
Definition Risk : Type := float * list RiskFactor.

Definition start : Risk := (0%float, []).

(** [score += w; factors.push(f)]. *)
Definition push (w : float) (f : RiskFactor) (r : Risk) : Risk :=
  ((fst r + w)%float, (snd r ++ [f])%list).

(** [score += w]. *)
Definition raise (w : float) (r : Risk) : Risk := ((fst r + w)%float, snd r).

(** [if (c) { ... }]. *)
Definition when (c : bool) (step : Risk -> Risk) (r : Risk) : Risk :=
  if c then step r else r.

Definition usernamePatterns : list string :=
  ["username"; "user"; "email"; "login"; "account"].

Definition knownLegitimateDomains : list string :=
  ["github.com"; "linkedin.com"; "google.com"; "accounts.google.com";
   "login.microsoftonline.com"; "appleid.apple.com"; "amazon.com"].

Definition suspiciousPatterns : list (string * string) :=
  [("signin", "verify"); ("secure", "login"); ("account", "update");
   ("confirm", "identity"); ("auth", "verify")].

Definition shorteners : list string :=
  ["bit.ly"; "tinyurl.com"; "t.co"; "goo.gl"; "ow.ly"].

Definition urgencyKeywords : list string :=
  ["immediately"; "urgent"; "asap"; "right now"; "limited time";
   "account will be"; "suspended"; "terminated"; "24 hours"].

Definition securityKeywords : list string :=
  ["verify"; "confirm"; "update"; "security"; "unauthorized";
   "suspicious"; "breach"; "compromised"].

Definition commonTypos : list string :=
  ["acount"; "verfy"; "securty"; "login"; "signin"].

(** [domain === d || domain.endsWith('.' + d)] for some allow-listed [d]. *)
Definition isLegitimate (domain : string) : bool :=
  existsb (fun d => String.eqb domain d || JS.endsWith domain ("." ++ d))
          knownLegitimateDomains.

(** [/^\d{1,3}\.\d{1,3}\.\d{1,3}\.\d{1,3}$/.test(domain)]. *)
Definition isDigit (c : ascii) : bool :=
  let n := nat_of_ascii c in ((48 <=? n) && (n <=? 57))%nat.

Fixpoint spanDigits (s : string) : nat * string :=
  match s with
  | EmptyString => (0, EmptyString)
  | String c r =>
      if isDigit c then let (n, t) := spanDigits r in (S n, t) else (0, s)
  end.

Definition octet (s : string) : option string :=
  let (n, r) := spanDigits s in
  if ((1 <=? n) && (n <=? 3))%nat then Some r else None.

Definition octetDot (s : string) : option string :=
  match octet s with
  | Some (String c r) => if Ascii.eqb c "."%char then Some r else None
  | _ => None
  end.

Definition isIPv4 (domain : string) : bool :=
  match octetDot domain with
  | Some r1 =>
      match octetDot r1 with
      | Some r2 =>
          match octetDot r2 with
          | Some r3 =>
              match octet r3 with
              | Some EmptyString => true
              | _ => false
              end
          | None => false
          end
      | None => false
      end
  | None => false
  end.

(** [keywords.filter(k => text.includes(k)).length]. *)
Definition hits (text : string) (keywords : list string) : nat :=
  List.length (filter (JS.includes text) keywords).

Definition ofNat (n : nat) : float := JS.ofZ (Z.of_nat n).

Section WithURL.

(** [new URL(url)], a service of the browser: [None] when it throws. *)
Variable parseURL : string -> option URL.

(** [analyzeUrl]. *)
Definition analyzeUrl (u : string) : Risk :=
  match parseURL u with
  | Some urlObj =>
      let domain := JS.toLowerCase (hostname urlObj) in
      let r1 := when (negb (String.eqb (protocol urlObj) "https:"))
                  (push 0.2 (factor "insecure_protocol" SevHigh
                               "Page does not use HTTPS encryption")) start in
      let r2 := when (negb (isLegitimate domain))
                  (push 0.15 (factor "unknown_domain" SevMedium
                                "Domain is not in known legitimate list")) r1 in
      let r3 := when (existsb (fun p => JS.testSeqI u (fst p) (snd p))
                              suspiciousPatterns)
                  (push 0.1 (factor "suspicious_url_pattern" SevMedium
                               "URL contains suspicious keywords")) r2 in
      let r4 := when (isIPv4 domain)
                  (push 0.2 (factor "ip_address" SevHigh
                               "URL uses IP address instead of domain name")) r3 in
      when (existsb (JS.includes domain) shorteners)
        (push 0.15 (factor "url_shortener" SevMedium
                      "URL uses a link shortener")) r4
  | None =>
      push 0.3 (factor "invalid_url" SevHigh "Could not parse URL") start
  end.

(** [analyzeContent]. *)
Definition analyzeContent (content : string) : Risk :=
  let lowerContent := JS.toLowerCase content in
  let urgencyCount := hits lowerContent urgencyKeywords in
  let r1 := when (0 <? urgencyCount)%nat
              (push (JS.min (ofNat urgencyCount * 0.05) 0.15)
                    (factor "urgency_language" SevMedium
                       "Page uses urgent or threatening language")) start in
  let securityCount := hits lowerContent securityKeywords in
  let r2 := when (2 <? securityCount)%nat
              (raise (JS.min ((ofNat securityCount - 2) * 0.03) 0.1)) r1 in
  when (existsb (JS.includes lowerContent) commonTypos)
    (push 0.05 (factor "suspicious_spelling" SevLow
                  "Possible spelling errors detected")) r2.

(** [analyzeBehavior]. *)
Definition analyzeBehavior (b : UserBehavior) : Risk :=
  let r1 := when ((timeOnPage b <? 3000)%Z && (10 <? keystrokes b)%Z)
              (push 0.05 (factor "rushed_behavior" SevLow
                            "Quick form entry detected")) start in
  when ((mouseMovements b <? 5)%Z && (20 <? keystrokes b)%Z)
    (push 0.05 (factor "low_interaction" SevLow
                  "Unusually low mouse interaction")) r1.

Definition hasPasswordField (input : DetectionInput) : bool :=
  existsb isPassword (formFields input).

Definition hasUsernameField (input : DetectionInput) : bool :=
  existsb (fun f => String.eqb (ff_type f) "email" ||
                    existsb (JS.testI (ff_name f)) usernamePatterns)
          (formFields input).

(** [riskScore += part.score; riskFactors.push(...part.factors)]. *)
Definition merge (part : Risk) (r : Risk) : Risk :=
  ((fst r + fst part)%float, (snd r ++ snd part)%list).

(** The body of [analyze] up to the normalisation: the raw score and every
    factor, in the order they are discovered. *)
Definition assess (input : DetectionInput) : Risk :=
  let r1 := when (hasPasswordField input)
              (push 0.25 (factor "password_field" SevHigh
                            "Password field detected")) start in
  let r2 := when (hasUsernameField input) (raise 0.1) r1 in
  let r3 := merge (analyzeUrl (url input)) r2 in
  let r4 := merge (analyzeContent (pageTitle input ++ " " ++ pageContent input)) r3 in
  merge (analyzeBehavior (userBehavior input)) r4.

(** [analyze]. *)
Definition analyze (input : DetectionInput) : MLPrediction :=
  let r := assess input in
  let riskScore := JS.min (fst r) 1.0 in
  {| isCredentialEntry := hasPasswordField input && JS.gt riskScore 0.6;
     confidence := riskScore;
     riskFactors := firstn 5 (snd r) |}.

End WithURL.

(** A reading of [new URL] for absolute URLs of the plain shape
    [scheme://host], optionally followed by a port, a path, a query or a
    fragment; it serves to run the detector on written-out inputs. *)
Definition isLetter (c : ascii) : bool :=
  let n := nat_of_ascii (JS.lowerChar c) in ((97 <=? n) && (n <=? 122))%nat.

Fixpoint schemeOf (s : string) : option (string * string) :=
  match s with
  | EmptyString => None
  | String c r =>
      if Ascii.eqb c ":"%char
      then match JS.afterPrefix r "//" with
           | Some rest => Some (EmptyString, rest)
           | None => None
           end
      else if isLetter c
      then match schemeOf r with
           | Some (sch, rest) => Some (String c sch, rest)
           | None => None
           end
      else None
  end.

Definition hostChar (c : ascii) : bool :=
  isLetter c || isDigit c || Ascii.eqb c "."%char || Ascii.eqb c "-"%char.

Fixpoint hostOf (s : string) : string :=
  match s with
  | EmptyString => EmptyString
  | String c r => if hostChar c then String c (hostOf r) else EmptyString
  end.

Definition plainURL (s : string) : option URL :=
  match schemeOf s with
  | Some (String c sch, rest) =>
      match hostOf rest with
      | EmptyString => None
      | h => Some {| protocol := JS.toLowerCase (String c sch) ++ ":";
                     hostname := JS.toLowerCase h |}
      end
  | _ => None
  end.

(** The ranking the specification describes: by severity, high first, ties
    in discovery order. *)
Definition rank (s : Severity) : nat :=
  match s with SevHigh => 0 | SevMedium => 1 | SevLow => 2 end.

Definition sortBySeverity (l : list RiskFactor) : list RiskFactor :=
  JS.sort (fun a b => (rank (rf_severity b) <? rank (rf_severity a))%nat) l.

Definition severity_eqb (a b : Severity) : bool := (rank a =? rank b)%nat.

Definition factor_eqb (a b : RiskFactor) : bool :=
  String.eqb (rf_type a) (rf_type b) &&
  severity_eqb (rf_severity a) (rf_severity b) &&
  String.eqb (rf_description a) (rf_description b).

Fixpoint factors_eqb (a b : list RiskFactor) : bool :=
  match a, b with
  | [], [] => true
  | x :: a', y :: b' => factor_eqb x y && factors_eqb a' b'
  | _, _ => false
  end.

Definition hasFactor (t : string) (l : list RiskFactor) : bool :=
  existsb (fun f => String.eqb (rf_type f) t) l.

End Detector.

(** ** ai/context-analyzer.ts: the context aggregator *)
Module Context.
Import Types.
Local Open Scope string_scope.

Inductive RiskProfile := RiskLow | RiskMedium | RiskHigh.

Record ContextAnalysis := {
  riskProfile : RiskProfile;
  primaryPlatform : Platform;
  keyContacts : list string;
  topics : list string;
  organizations : list string;
  suggestedAttackVectors : list string;
  personalizationScore : Z
}.

(** [Partial<Record<Platform, UserContext>>]: the own properties of the
    object in property order, each holding a context or [undefined]. *)
Definition UserContexts : Type := list (Platform * option UserContext).

(** [Object.values(userContexts).filter(Boolean)]. *)
Definition values (m : UserContexts) : list UserContext :=
  flat_map (fun kv => match snd kv with Some c => [c] | None => [] end) m.

(** [a && a.length > n] for an optional array. *)
Definition longerThan {A : Type} (n : nat) (a : option (list A)) : bool :=
  match a with
  | Some l => (n <? List.length l)%nat
  | None => false
  end.

(** One turn of the loop of [calculateRiskProfile]. *)
Definition riskStep (riskScore : Z) (context : UserContext) : Z :=
  let s1 := if longerThan 10 (recentActivity context)
            then (riskScore + 10)%Z else riskScore in
  let s2 := if longerThan 50 (connections context)
            then (s1 + 10)%Z else s1 in
  if platform_eqb (platform context) LINKEDIN then (s2 + 5)%Z else s2.

Definition profileOf (riskScore : Z) : RiskProfile :=
  if (70 <=? riskScore)%Z then RiskHigh
  else if (40 <=? riskScore)%Z then RiskMedium
  else RiskLow.

(** [calculateRiskProfile]. *)
Definition calculateRiskProfile (contexts : list UserContext) : RiskProfile :=
  profileOf (fold_left riskStep contexts 50%Z).

(** [activityCounts[p] += n]. *)
Definition addCount (p : Platform) (n : Z) (counts : list (Platform * Z))
    : list (Platform * Z) :=
  map (fun e => if platform_eqb (fst e) p then (fst e, (snd e + n)%Z) else e) counts.

(** [context.recentActivity?.length || 0]. *)
Definition activityCount (context : UserContext) : Z :=
  match recentActivity context with
  | Some l => Z.of_nat (List.length l)
  | None => 0%Z
  end.

(** [determinePrimaryPlatform]. *)
Definition determinePrimaryPlatform (contexts : list UserContext) : Platform :=
  let activityCounts :=
    fold_left (fun counts c => addCount (platform c) (activityCount c) counts)
      contexts [(GITHUB, 0%Z); (LINKEDIN, 0%Z); (GMAIL, 0%Z); (UNKNOWN, 0%Z)] in
  match JS.sort (fun a b => (snd a <? snd b)%Z) activityCounts with
  | e :: _ => fst e
  | [] => UNKNOWN
  end.

(** [extractKeyContacts]. *)
Definition extractKeyContacts (contexts : list UserContext) : list string :=
  JS.unique
    (flat_map (fun c => match connections c with
                        | Some l => map conn_name (firstn 5 l)
                        | None => []
                        end) contexts).

Definition topicKeywords : list (string * list string) :=
  [("security", ["security"; "phishing"; "password"; "auth"; "2fa"; "mfa"]);
   ("development", ["code"; "repo"; "commit"; "pull request"; "merge"; "bug"; "feature"]);
   ("business", ["meeting"; "project"; "deadline"; "client"; "revenue"; "sales"]);
   ("cloud", ["aws"; "azure"; "gcp"; "cloud"; "serverless"; "deployment"]);
   ("data", ["database"; "analytics"; "metrics"; "dashboard"; "report"])].

(** [topicScores[topic] = (topicScores[topic] || 0) + 1]: a new key goes
    last, an old one keeps its place. *)
Fixpoint bumpTopic (topic : string) (scores : list (string * Z)) : list (string * Z) :=
  match scores with
  | [] => [(topic, 1%Z)]
  | e :: r =>
      if String.eqb (fst e) topic then (fst e, (snd e + 1)%Z) :: r
      else e :: bumpTopic topic r
  end.

Definition scoreActivity (scores : list (string * Z)) (activity : Activity)
    : list (string * Z) :=
  let content := JS.toLowerCase (act_content activity) in
  fold_left
    (fun sc tk =>
       fold_left (fun sc' keyword =>
                    if JS.includes content keyword then bumpTopic (fst tk) sc' else sc')
                 (snd tk) sc)
    topicKeywords scores.

(** [extractTopics]. *)
Definition extractTopics (contexts : list UserContext) : list string :=
  let topicScores :=
    fold_left
      (fun sc c => match recentActivity c with
                   | Some acts => fold_left scoreActivity acts sc
                   | None => sc
                   end)
      contexts [] in
  map fst (firstn 3 (JS.sort (fun a b => (snd a <? snd b)%Z) topicScores)).

(** [extractOrganizations]. *)
Definition extractOrganizations (contexts : list UserContext) : list string :=
  JS.unique
    (flat_map (fun c => if JS.truthyStr (organization c)
                        then [JS.orStr (organization c) ""] else []) contexts).

(** [suggestAttackVectors]. *)
Definition suggestAttackVectors (contexts : list UserContext) : list string :=
  let platforms := map platform contexts in
  let has p := existsb (platform_eqb p) platforms in
  JS.unique
    ((if has GITHUB then ["oauth_grant"; "credential_harvest"; "session_hijack"] else []) ++
     (if has LINKEDIN then ["credential_harvest"; "connection_impersonation"] else []) ++
     (if has GMAIL then ["credential_harvest"; "oauth_grant"; "mfa_bypass"] else []))%list.

Definition bit (b : bool) : nat := if b then 1 else 0.

(** [calculatePersonalizationScore]. *)
Definition calculatePersonalizationScore (contexts : list UserContext) : Z :=
  let maxScore := (List.length contexts * 4)%nat in
  let score :=
    fold_left
      (fun sc c => (sc + bit (JS.truthyStr (username c))
                       + bit (JS.truthyStr (email c))
                       + bit (JS.truthyStr (organization c))
                       + bit (longerThan 0 (connections c)))%nat)
      contexts 0%nat in
  JS.round100 (JS.ofZ (Z.of_nat score) / JS.ofZ (Z.of_nat maxScore) * 100)%float.

(** [getDefaultAnalysis]. *)
Definition getDefaultAnalysis : ContextAnalysis :=
  {| riskProfile := RiskMedium;
     primaryPlatform := UNKNOWN;
     keyContacts := [];
     topics := [];
     organizations := [];
     suggestedAttackVectors := ["credential_harvest"];
     personalizationScore := 0 |}.

(** [analyze]. *)
Definition analyze (userContexts : UserContexts) : ContextAnalysis :=
  let contexts := values userContexts in
  match contexts with
  | [] => getDefaultAnalysis
  | _ :: _ =>
      {| riskProfile := calculateRiskProfile contexts;
         primaryPlatform := determinePrimaryPlatform contexts;
         keyContacts := extractKeyContacts contexts;
         topics := extractTopics contexts;
         organizations := extractOrganizations contexts;
         suggestedAttackVectors := suggestAttackVectors contexts;
         personalizationScore := calculatePersonalizationScore contexts |}
  end.

End Context.

(** ** background/simulation-engine.ts: the cadence of simulations *)
Module Engine.
Import Types.
Local Open Scope Z_scope.

(** The mutable fields of a [SimulationEngine]. *)
Record SimulationEngine := {
  lastSimulationTime : Z;
  simulationCount : Z
}.

Definition MIN_INTERVAL_MS : Z := 300000.

(** A freshly constructed engine. *)
Definition newEngine : SimulationEngine :=
  {| lastSimulationTime := 0; simulationCount := 0 |}.

(** [calculateContextFactor]. *)
Definition calculateContextFactor (context : UserContext) : float :=
  let f0 := 0%float in
  let f1 := if JS.truthyStr (username context) then (f0 + 0.1)%float else f0 in
  let f2 := if JS.truthyStr (email context) then (f1 + 0.1)%float else f1 in
  let f3 := if JS.truthyStr (organization context) then (f2 + 0.1)%float else f2 in
  let f4 := if Context.longerThan 0 (connections context) then (f3 + 0.1)%float else f3 in
  if Context.longerThan 0 (recentActivity context) then (f4 + 0.1)%float else f4.

(** [shouldTriggerSimulation]; [now] is the reading of [Date.now()] and
    [random] the draw of [Math.random()]. *)
Definition shouldTriggerSimulation (engine : SimulationEngine) (now : Z)
    (random : float) (p : Platform) (context : UserContext) : bool :=
  if now - lastSimulationTime engine <? MIN_INTERVAL_MS then false
  else if 5 <=? simulationCount engine then false
  else
    let baseChance := 0.2%float in
    let contextFactor := calculateContextFactor context in
    let probability := JS.min (baseChance + contextFactor)%float 0.6%float in
    PrimFloat.ltb random probability.

(** The effect of [generateSimulation] on the engine; [now] is the clock
    read by its last statements.  The simulation it returns is assembled
    from random template choices and leaves the two fields alone. *)
Definition generateSimulation (engine : SimulationEngine) (now : Z)
    : SimulationEngine :=
  {| lastSimulationTime := now;
     simulationCount := simulationCount engine + 1 |}.

(** A context with nothing filled in. *)
Definition bareContext (p : Platform) : UserContext :=
  {| platform := p; ctx_userId := None; username := None; email := None;
     organization := None; recentActivity := None; connections := None;
     ctx_timestamp := 0 |}.

End Engine.

(** ** ai/phishing-generator.ts: the red-team path *)
Module Generator.
Import Types.
Local Open Scope string_scope.

(** What a call reads from its surroundings: [Date.now()] inside
    [generateId], the text of [Math.random().toString(36)], and
    [Date.now()] for [createdAt]. *)
Record Ambient := {
  idClock : Z;
  randomText : string;
  createdClock : Z
}.

Definition decimal (z : Z) : string := NilEmpty.string_of_int (Z.to_int z).

(** [generateId]. *)
Definition generateId (a : Ambient) : string :=
  "gen-" ++ decimal (idClock a) ++ "-" ++ String.substring 2 9 (randomText a).

Definition newline : string := String (ascii_of_nat 10) EmptyString.

(** [generateRedTeamScenario]. *)
Definition generateRedTeamScenario (a : Ambient) (targetUser attackVector : string)
    (customPayload : option string) : PhishingSimulation :=
  {| sim_id := generateId a;
     sim_type := CREDENTIAL_HARVEST;
     targetPlatform := GMAIL;
     content :=
       {| title := "Internal: " ++ JS.orStr customPayload "Action Required";
          body := "Hi " ++ targetUser ++ "," ++ newline ++ newline ++
                  JS.orStr customPayload
                    "Please review the attached document and provide your feedback by EOD.";
          sender := Some "IT Security Team";
          senderEmail := Some "security@company.local";
          urgency := UrgHigh;
          actionText := "View Document";
          actionUrl := Some "https://docs.company-secure.local";
          styling := {| position := Notification; theme := Light;
                        brandColors := None; logoUrl := None |} |};
     triggerConditions := [];
     metadata :=
       {| createdAt := createdClock a;
          campaignId := "red-team";
          difficulty := Expert;
          trainingObjective := "Red team exercise";
          redTeamControlled := true |} |}.

(** A scenario with its generated id and creation time blanked. *)
Definition anonymous (s : PhishingSimulation) : PhishingSimulation :=
  {| sim_id := EmptyString;
     sim_type := sim_type s;
     targetPlatform := targetPlatform s;
     content := content s;
     triggerConditions := triggerConditions s;
     metadata :=
       {| createdAt := 0%Z;
          campaignId := campaignId (metadata s);
          difficulty := difficulty (metadata s);
          trainingObjective := trainingObjective (metadata s);
          redTeamControlled := redTeamControlled (metadata s) |} |}.

End Generator.

(** ** The detector as a function of finitely many signals

    Everything [analyze] computes is decided by a handful of yes/no tests
    and two keyword counts.  This module names them, restates the scoring
    over them, and enumerates them. *)
Module DetectorSignals.
Import Types Detector.
Local Open Scope string_scope.

(** The five tests of [analyzeUrl] on a URL that parses. *)
Record UrlSignals := {
  insecure : bool;
  unknownDomain : bool;
  suspiciousPattern : bool;
  ipAddress : bool;
  shortener : bool
}.

(** All that [analyze] looks at; [sUrl] is [None] when the URL does not
    parse, and the two counts are the numbers of urgency and security
    keywords found. *)
Record Signals := {
  sPassword : bool;
  sUsername : bool;
  sUrl : option UrlSignals;
  sUrgency : nat;
  sSecurity : nat;
  sTypo : bool;
  sRushed : bool;
  sLowInteraction : bool
}.

(** [analyzeUrl], [analyzeContent], [analyzeBehavior], the body of
    [analyze] and [analyze] itself, over the signals. *)
Definition urlRisk (u : option UrlSignals) : Risk :=
  match u with
  | Some f =>
      when (shortener f)
        (push 0.15 (factor "url_shortener" SevMedium "URL uses a link shortener"))
        (when (ipAddress f)
           (push 0.2 (factor "ip_address" SevHigh
                        "URL uses IP address instead of domain name"))
           (when (suspiciousPattern f)
              (push 0.1 (factor "suspicious_url_pattern" SevMedium
                           "URL contains suspicious keywords"))
              (when (unknownDomain f)
                 (push 0.15 (factor "unknown_domain" SevMedium
                               "Domain is not in known legitimate list"))
                 (when (insecure f)
                    (push 0.2 (factor "insecure_protocol" SevHigh
                                 "Page does not use HTTPS encryption"))
                    start))))
  | None => push 0.3 (factor "invalid_url" SevHigh "Could not parse URL") start
  end.

Definition contentRisk (urgencyCount securityCount : nat) (typo : bool) : Risk :=
  when typo
    (push 0.05 (factor "suspicious_spelling" SevLow "Possible spelling errors detected"))
    (when (2 <? securityCount)%nat
       (raise (JS.min ((ofNat securityCount - 2) * 0.03) 0.1))
       (when (0 <? urgencyCount)%nat
          (push (JS.min (ofNat urgencyCount * 0.05) 0.15)
                (factor "urgency_language" SevMedium
                   "Page uses urgent or threatening language"))
          start)).

Definition behaviorRisk (rushed lowInteraction : bool) : Risk :=
  when lowInteraction
    (push 0.05 (factor "low_interaction" SevLow "Unusually low mouse interaction"))
    (when rushed
       (push 0.05 (factor "rushed_behavior" SevLow "Quick form entry detected"))
       start).

Definition assessSignals (s : Signals) : Risk :=
  merge (behaviorRisk (sRushed s) (sLowInteraction s))
    (merge (contentRisk (sUrgency s) (sSecurity s) (sTypo s))
       (merge (urlRisk (sUrl s))
          (when (sUsername s) (raise 0.1)
             (when (sPassword s)
                (push 0.25 (factor "password_field" SevHigh "Password field detected"))
                start)))).

Definition predict (s : Signals) : MLPrediction :=
  let riskScore := JS.min (fst (assessSignals s)) 1.0 in
  {| isCredentialEntry := sPassword s && JS.gt riskScore 0.6;
     confidence := riskScore;
     riskFactors := firstn 5 (snd (assessSignals s)) |}.

Section FromInput.
Variable parseURL : string -> option URL.

(** The signals of an input. *)
Definition urlSignals (u : string) : option UrlSignals :=
  match parseURL u with
  | Some urlObj =>
      let domain := JS.toLowerCase (hostname urlObj) in
      Some {| insecure := negb (String.eqb (protocol urlObj) "https:");
              unknownDomain := negb (isLegitimate domain);
              suspiciousPattern :=
                existsb (fun p => JS.testSeqI u (fst p) (snd p)) suspiciousPatterns;
              ipAddress := isIPv4 domain;
              shortener := existsb (JS.includes domain) shorteners |}
  | None => None
  end.

Definition pageText (input : DetectionInput) : string :=
  JS.toLowerCase (pageTitle input ++ " " ++ pageContent input).

Definition signalsOf (input : DetectionInput) : Signals :=
  let b := userBehavior input in
  {| sPassword := hasPasswordField input;
     sUsername := hasUsernameField input;
     sUrl := urlSignals (url input);
     sUrgency := hits (pageText input) urgencyKeywords;
     sSecurity := hits (pageText input) securityKeywords;
     sTypo := existsb (JS.includes (pageText input)) commonTypos;
     sRushed := (timeOnPage b <? 3000)%Z && (10 <? keystrokes b)%Z;
     sLowInteraction := (mouseMovements b <? 5)%Z && (20 <? keystrokes b)%Z |}.

End FromInput.

(** *** Exhausting the signals

    [allSignals P] runs the check [P] on every combination of the tests
    with at most 9 urgency and 8 security keywords, the sizes of the two
    keyword lists. *)

Definition allBool (P : bool -> bool) : bool := P true && P false.

Definition allUpTo (n : nat) (P : nat -> bool) : bool := forallb P (seq 0 (S n)).

Definition allUrl (P : option UrlSignals -> bool) : bool :=
  P None &&
  allBool (fun a => allBool (fun b => allBool (fun c => allBool (fun d => allBool (fun e =>
    P (Some {| insecure := a; unknownDomain := b; suspiciousPattern := c;
               ipAddress := d; shortener := e |})))))).

Definition allSignals (P : Signals -> bool) : bool :=
  allBool (fun pw => allBool (fun us => allUrl (fun u =>
  allUpTo 9 (fun ug => allUpTo 8 (fun sc =>
  allBool (fun ty => allBool (fun ru => allBool (fun lo =>
    P {| sPassword := pw; sUsername := us; sUrl := u; sUrgency := ug;
         sSecurity := sc; sTypo := ty; sRushed := ru;
         sLowInteraction := lo |})))))))).

(** *** Inputs written out

    A page with a single password box, an unhurried user, the title
    "Notice" and the text "This is urgent", at the address [u]. *)

Definition passwordBox : FormField :=
  {| ff_type := "password"; ff_name := "pw"; ff_autocomplete := None;
     isPassword := true; isHidden := false |}.

Definition calm : UserBehavior :=
  {| timeOnPage := 60000; mouseMovements := 40; keystrokes := 12;
     formInteractions := 2 |}.

Definition page (u : string) : DetectionInput :=
  {| formFields := [passwordBox]; url := u; pageTitle := "Notice";
     pageContent := "This is urgent"; userBehavior := calm; timestamp := 0 |}.

(** *** The checks run over every combination of signals *)

Definition urlInsecure (s : Signals) : bool :=
  match sUrl s with Some f => insecure f | None => false end.

Definition urlUnknown (s : Signals) : bool :=
  match sUrl s with Some f => unknownDomain f | None => false end.

Definition checkBounded (s : Signals) : bool :=
  JS.ge (confidence (predict s)) 0 && JS.ge 1 (confidence (predict s)).

Definition checkInsecure (s : Signals) : bool :=
  implb (sPassword s && urlInsecure s && (1 <=? sUrgency s)%nat)
    (JS.ge (confidence (predict s)) 0.5 &&
     implb (urlUnknown s) (JS.gt (confidence (predict s)) 0.6) &&
     hasFactor "password_field" (riskFactors (predict s)) &&
     hasFactor "insecure_protocol" (riskFactors (predict s))).

Definition checkRanking (s : Signals) : bool :=
  factors_eqb (sortBySeverity (riskFactors (predict s)))
              (firstn 5 (sortBySeverity (snd (assessSignals s)))).

End DetectorSignals.

(** ** background/service-worker.ts: the two direct handlers *)
Module TrackerHandlers.
Import Types Tracker.
Local Open Scope Z_scope.

(** [handleCredentialEntry]: the update of [extensionState.userStats]; the
    event it then sends to the dashboard does not touch the record. *)
Definition handleCredentialEntry (stats : UserStats) : UserStats :=
  withRisk (riskScore stats + 50)
    (withEntered (credentialsEntered stats + 1) stats).

(** [handleSuspiciousSiteReport]: the update of [extensionState.userStats]. *)
Definition handleSuspiciousSiteReport (stats : UserStats) : UserStats :=
  withRisk (Z.max 0 (riskScore stats - 30))
    (withDetected (simulationsDetected stats + 1) stats).

(** [n] events of kind [t], handled at clocks [1 .. n]. *)
Fixpoint burst (t : EventType) (n : nat) : list (Z * SimulationEvent) :=
  match n with
  | O => []
  | S k => (burst t k ++ [(Z.of_nat n, plainEvent t)])%list
  end.

End TrackerHandlers.

(** ** popup/Stats.tsx: how the popup words the risk score *)
Module Popup.
Local Open Scope Z_scope.
Local Open Scope string_scope.

(** [getRiskClass]. *)
Definition getRiskClass (score : Z) : string :=
  if (score <? 30)%Z then "good"
  else if (score <? 70)%Z then "warning"
  else "danger".

(** [getRiskLabel]. *)
Definition getRiskLabel (score : Z) : string :=
  if (score <? 30)%Z then "Low Risk"
  else if (score <? 70)%Z then "Medium Risk"
  else "High Risk".

(** [getDetectionRate]; [Math.round] is taken on a value between 0 and 100,
    which the ratio is whenever the detections do not outnumber the
    simulations seen. *)
Definition getDetectionRate (stats : Types.UserStats) : Z :=
  if (Types.simulationsSeen stats =? 0)%Z then 0%Z
  else JS.round100
         ((JS.ofZ (Types.simulationsDetected stats)
           / JS.ofZ (Types.simulationsSeen stats)) * 100)%float.

End Popup.

(** ** Measures used to state what the context aggregator computes *)
Module ContextMeasures.
Import Types Context.
Local Open Scope Z_scope.

(** What one context adds to the risk score: 10 for more than 10 recent
    activities, 10 for more than 50 connections, 5 for LinkedIn. *)
Definition exposure (c : UserContext) : Z :=
  (if longerThan 10 (recentActivity c) then 10 else 0) +
  (if longerThan 50 (connections c) then 10 else 0) +
  (if platform_eqb (platform c) LINKEDIN then 5 else 0).

Definition totalExposure (contexts : list UserContext) : Z :=
  fold_right (fun c acc => exposure c + acc) 0 contexts.

(** The number of recent activities recorded by the contexts of site [p]. *)
Definition activityOn (p : Platform) (contexts : list UserContext) : Z :=
  fold_right
    (fun c acc => (if platform_eqb (platform c) p then activityCount c else 0) + acc)
    0 contexts.

(** The place of a site in the declaration of [activityCounts]. *)
Definition declared (p : Platform) : Z :=
  match p with GITHUB => 0 | LINKEDIN => 1 | GMAIL => 2 | UNKNOWN => 3 end.

(** The names a contact may come from: the first five connections of a
    context. *)
Definition leadingNames (c : UserContext) : list string :=
  match connections c with
  | Some l => map conn_name (firstn 5 l)
  | None => []
  end.

(** The category names, and the shape [topicScores] keeps: one entry per
    name, names of categories only. *)
Definition topicNames : list string := map fst topicKeywords.

Definition tidy (scores : list (string * Z)) : Prop :=
  NoDup (map fst scores) /\ incl (map fst scores) topicNames.

(** A context of site [p] with nothing else filled in. *)
Definition siteOnly (p : Platform) : UserContext :=
  {| platform := p; ctx_userId := None; username := None; email := None;
     organization := None; recentActivity := None; connections := None;
     ctx_timestamp := 0 |}.

End ContextMeasures.

(** ** ai/credential-detector.ts: login forms and recommendations *)
Module Guidance.
Import Types Detector.
Local Open Scope string_scope.

(** [isLoginForm]. *)
Definition isLoginForm (fields : list FormField) : bool :=
  let hasPassword := existsb isPassword fields in
  let hasUsername :=
    existsb (fun f => String.eqb (ff_type f) "email" ||
                      (String.eqb (ff_type f) "text" &&
                       existsb (JS.testI (ff_name f)) usernamePatterns))
            fields in
  hasPassword && hasUsername.

(** The [switch] in the loop of [getRecommendations]. *)
Definition adviceFor (f : RiskFactor) : list string :=
  if String.eqb (rf_type f) "insecure_protocol"
  then ["Never enter passwords on non-HTTPS sites."]
  else if String.eqb (rf_type f) "unknown_domain"
  then ["Double-check you are on the legitimate website."]
  else if String.eqb (rf_type f) "urgency_language"
  then ["Be suspicious of urgent requests."]
  else [].

(** [getRecommendations]. *)
Definition getRecommendations (prediction : MLPrediction) : list string :=
  ((if JS.gt (confidence prediction) 0.8
    then ["This page shows strong signs of a phishing attempt.";
          "Do not enter any credentials."]
    else if JS.gt (confidence prediction) 0.5
    then ["Exercise caution on this page.";
          "Verify the URL is correct before entering credentials."]
    else [])
   ++ flat_map adviceFor (riskFactors prediction))%list.

(** The input [input] with the field [f] put in front of its form fields. *)
Definition withField (f : FormField) (input : DetectionInput) : DetectionInput :=
  {| formFields := f :: formFields input;
     url := url input;
     pageTitle := pageTitle input;
     pageContent := pageContent input;
     userBehavior := userBehavior input;
     timestamp := timestamp input |}.

End Guidance.

(** ** Further checks run over every combination of signals *)
Module DetectorChecks.
Import Types Detector DetectorSignals Guidance.
Local Open Scope string_scope.

Fixpoint distinct (l : list string) : bool :=
  match l with
  | [] => true
  | x :: r => negb (existsb (String.eqb x) r) && distinct r
  end.

Definition headIs (t : string) (l : list RiskFactor) : bool :=
  match l with
  | f :: _ => String.eqb (rf_type f) t
  | [] => false
  end.

Definition checkShape (s : Signals) : bool :=
  let r := predict s in
  JS.ge (confidence r) 0 && JS.ge 1 (confidence r) &&
  (List.length (riskFactors r) <=? 5)%nat &&
  distinct (map rf_type (riskFactors r)) &&
  (if sPassword s then headIs "password_field" (riskFactors r)
   else negb (hasFactor "password_field" (riskFactors r))).

Definition urlFailed (s : Signals) : bool :=
  match sUrl s with Some _ => false | None => true end.

Definition highFactor (t : string) (l : list RiskFactor) : bool :=
  existsb (fun f => String.eqb (rf_type f) t && severity_eqb (rf_severity f) SevHigh) l.

Definition checkInvalid (s : Signals) : bool :=
  let r := predict s in
  implb (urlFailed s)
    (highFactor "invalid_url" (riskFactors r) &&
     JS.ge (confidence r) 0.3 &&
     negb (hasFactor "insecure_protocol" (riskFactors r)) &&
     negb (hasFactor "unknown_domain" (riskFactors r)) &&
     negb (hasFactor "suspicious_url_pattern" (riskFactors r)) &&
     negb (hasFactor "ip_address" (riskFactors r)) &&
     negb (hasFactor "url_shortener" (riskFactors r))).

(** The signals [s] with the two field tests replaced. *)
Definition withFieldTests (pw us : bool) (s : Signals) : Signals :=
  {| sPassword := pw; sUsername := us; sUrl := sUrl s; sUrgency := sUrgency s;
     sSecurity := sSecurity s; sTypo := sTypo s; sRushed := sRushed s;
     sLowInteraction := sLowInteraction s |}.

Definition checkMoreFields (s : Signals) : bool :=
  allBool (fun pw => allBool (fun us =>
    let s' := withFieldTests (pw || sPassword s) (us || sUsername s) s in
    JS.ge (confidence (predict s')) (confidence (predict s)) &&
    implb (isCredentialEntry (predict s)) (isCredentialEntry (predict s')))).

Definition checkLogin (s : Signals) : bool :=
  implb (sPassword s && sUsername s)
    (JS.ge (confidence (predict s)) 0.35 &&
     headIs "password_field" (riskFactors (predict s))).

Definition checkAdvice (s : Signals) : bool :=
  let r := predict s in
  (List.length (getRecommendations r) <=? 5)%nat &&
  implb (isCredentialEntry r)
    (match getRecommendations r with
     | a :: b :: _ =>
         (String.eqb a "This page shows strong signs of a phishing attempt." &&
          String.eqb b "Do not enter any credentials.") ||
         (String.eqb a "Exercise caution on this page." &&
          String.eqb b "Verify the URL is correct before entering credentials.")
     | _ => false
     end).

(** A parser that rejects every address. *)
Definition rejectURL (u : string) : option URL := None.

Definition emailBox : FormField :=
  {| ff_type := "email"; ff_name := "address"; ff_autocomplete := None;
     isPassword := false; isHidden := false |}.

End DetectorChecks.

(** ** background/simulation-engine.ts: generating a simulation *)
Module EngineGeneration.
Import Types Engine.
Local Open Scope string_scope.

(** [array[Math.floor(Math.random() * array.length)]]: [i] stands for the
    random draw, any element of a non-empty array can come out, and an empty
    array gives [undefined], here [None]. *)
Definition choose {A : Type} (i : nat) (array : list A) : option A :=
  nth_error array (i mod List.length array).

(** [PHISHING_TEMPLATES] of shared/constants.ts: subjects, and senders as
    name and e-mail; there is no entry for the site "unknown". *)
Definition PHISHING_TEMPLATES (p : Platform)
    : option (list string * list (string * string)) :=
  match p with
  | GITHUB =>
      Some (["Critical: Repository access suspended";
             "Security alert: Unusual sign-in detected";
             "Action required: 2FA verification needed";
             "Your GitHub Copilot subscription expires today";
             "Repository transfer request from {organization}"],
            [("GitHub Security", "security@github.com");
             ("GitHub Support", "support@github.com");
             ("GitHub Actions", "actions@github.com")])
  | LINKEDIN =>
      Some (["{connection} shared a post with you";
             "You appeared in {count} searches this week";
             "Your LinkedIn Premium trial expires today";
             "Action required: Verify your identity";
             "{connection} endorsed you for a skill"],
            [("LinkedIn", "messages-noreply@linkedin.com");
             ("LinkedIn Security", "security@linkedin.com")])
  | GMAIL =>
      Some (["Google Workspace: Security alert";
             "Your Gmail storage is 99% full";
             "Sign-in attempt blocked";
             "Verify your recovery email";
             "Google Drive: File shared with you"],
            [("Google", "no-reply@accounts.google.com");
             ("Gmail Team", "mail-noreply@google.com")])
  | UNKNOWN => None
  end.

(** The table [weights] of [selectPhishingType]. *)
Definition platformTypes (p : Platform) : list PhishingType :=
  match p with
  | GITHUB => [CREDENTIAL_HARVEST; OAUTH_GRANT; CREDENTIAL_HARVEST; MFA_BYPASS]
  | LINKEDIN => [CREDENTIAL_HARVEST; OAUTH_GRANT; CREDENTIAL_HARVEST]
  | GMAIL => [CREDENTIAL_HARVEST; MFA_BYPASS; CREDENTIAL_HARVEST; SESSION_HIJACK]
  | UNKNOWN => [CREDENTIAL_HARVEST; OAUTH_GRANT; MFA_BYPASS]
  end.

(** [selectPhishingType]. *)
Definition selectPhishingType (draw : nat) (p : Platform) : option PhishingType :=
  choose draw (platformTypes p).

(** The table [bodies] of [generateBody]. *)
Definition bodies (t : PhishingType) (p : Platform) : list string :=
  let site := platformName p in
  match t with
  | CREDENTIAL_HARVEST =>
      ["We noticed unusual activity on your " ++ site ++
         " account. Please verify your identity to prevent account suspension.";
       "Your " ++ site ++ " session has expired. Please log in again to continue.";
       "A suspicious login attempt was detected from a new device. Confirm your identity immediately.";
       "Your " ++ site ++ " account requires verification due to security policy updates."]
  | OAUTH_GRANT =>
      ["A third-party application is requesting access to your " ++ site ++
         " account. Review and approve the permissions.";
       "Grant access to continue using " ++ site ++
         " integration with your productivity tools.";
       "Authorization required: A new device is attempting to sync with your account."]
  | MFA_BYPASS =>
      ["Your two-factor authentication needs to be reconfigured. Click below to update your security settings.";
       "We've upgraded our security system. Please verify your backup codes to maintain account access.";
       "MFA sync required: Your authenticator app needs to be reconnected."]
  | SESSION_HIJACK =>
      ["Your session has been terminated due to inactivity. Please sign in again to continue.";
       "Multiple concurrent sessions detected. Verify your current session to continue."]
  | CLIPBOARD_HIJACK =>
      ["Copy this verification code to complete your action: [suspicious code will be injected]";
       "Use this one-time password for verification."]
  | FILE_DOWNLOAD =>
      ["A secure document has been shared with you. Download and review immediately.";
       "Your invoice is ready for download. Click to access your files."]
  end.

(** [getActionText]. *)
Definition getActionText (t : PhishingType) : string :=
  match t with
  | CREDENTIAL_HARVEST => "Verify Account"
  | OAUTH_GRANT => "Grant Access"
  | MFA_BYPASS => "Update Security"
  | SESSION_HIJACK => "Sign In"
  | CLIPBOARD_HIJACK => "Copy Code"
  | FILE_DOWNLOAD => "Download Now"
  end.

(** [getActionUrl]. *)
Definition getActionUrl (t : PhishingType) (p : Platform) : string :=
  "https://" ++
  match p with
  | GITHUB => "github.com"
  | LINKEDIN => "linkedin.com"
  | GMAIL => "google.com"
  | UNKNOWN => "example.com"
  end ++ "/security/verify".

(** The table [positions] of [selectPosition], and [selectPosition]. *)
Definition positions (t : PhishingType) : list Position :=
  match t with
  | CREDENTIAL_HARVEST => [Modal; Modal; Notification]
  | OAUTH_GRANT => [Modal; Banner]
  | MFA_BYPASS => [Modal; Notification]
  | SESSION_HIJACK => [Banner; Notification]
  | CLIPBOARD_HIJACK => [Notification; Inline]
  | FILE_DOWNLOAD => [Notification; Modal]
  end.

Definition selectPosition (draw : nat) (t : PhishingType) : option Position :=
  choose draw (positions t).

(** [selectUrgency]. *)
Definition selectUrgency (draw : nat) : option Urgency :=
  choose draw [UrgMedium; UrgMedium; UrgHigh; UrgHigh; UrgCritical].

(** [getBrandColors]. *)
Definition getBrandColors (p : Platform) : list string :=
  match p with
  | GITHUB => ["#24292e"; "#0366d6"]
  | LINKEDIN => ["#0077b5"; "#000000"]
  | GMAIL => ["#ea4335"; "#4285f4"; "#34a853"; "#fbbc05"]
  | UNKNOWN => ["#333333"]
  end.

(** [calculateDifficulty]. *)
Definition calculateDifficulty (draw : nat) : option Difficulty :=
  choose draw [Easy; Easy; Medium; Medium; Hard].

(** [getTrainingObjective]. *)
Definition getTrainingObjective (t : PhishingType) : string :=
  match t with
  | CREDENTIAL_HARVEST => "Recognize credential harvesting attempts"
  | OAUTH_GRANT => "Identify malicious OAuth requests"
  | MFA_BYPASS => "Detect MFA bypass attempts"
  | SESSION_HIJACK => "Recognize session hijacking indicators"
  | CLIPBOARD_HIJACK => "Identify clipboard manipulation"
  | FILE_DOWNLOAD => "Recognize malicious download prompts"
  end.

(** What one call of [generateSimulation] reads from its surroundings: the
    random draws behind each choice, and the clock at the four places where
    [Date.now()] is read. *)
Record Draws := {
  typeDraw : nat;
  subjectDraw : nat;
  countDraw : nat;
  senderDraw : nat;
  bodyDraw : nat;
  urgencyDraw : nat;
  positionDraw : nat;
  difficultyDraw : nat;
  delayDraw : float;
  idText : string;
  idClock : Z;
  triggerClock : Z;
  createdClock : Z;
  doneClock : Z
}.

(** [generateTriggerConditions]. *)
Definition generateTriggerConditions (d : Draws) : list TriggerCondition :=
  [{| tr_type := TrTime;
      tr_value := VNumber (JS.ofZ (triggerClock d) + delayDraw d * 60000)%float;
      tr_operator := OpGt |};
   {| tr_type := TrAction;
      tr_value := VString "page_focus";
      tr_operator := OpEquals |}].

(** [generateId]. *)
Definition generateId (d : Draws) : string :=
  "sim-" ++ Generator.decimal (idClock d) ++ "-" ++ String.substring 2 9 (idText d).

Section WithReplace.

(** [String.prototype.replace], a service of the language:
    [replaceAll s k r] is [s.replace(/k/g, r)] for a literal [k], and
    [replaceFirst s k r] is [s.replace(k, r)] for a string [k]. *)
Variable replaceAll : string -> string -> string -> string.
Variable replaceFirst : string -> string -> string -> string.

(** [context.connections?.[0]?.name]. *)
Definition firstConnection (context : UserContext) : option string :=
  match connections context with
  | Some (c :: _) => Some (conn_name c)
  | _ => None
  end.

(** [personalizeTemplate]. *)
Definition personalizeTemplate (d : Draws) (template : string)
    (context : UserContext) : string :=
  replaceAll
    (replaceAll
       (replaceAll
          (replaceAll template "{username}" (JS.orStr (username context) "there"))
          "{organization}" (JS.orStr (organization context) "your organization"))
       "{connection}" (JS.orStr (firstConnection context) "A connection"))
    "{count}" (Generator.decimal (Z.of_nat (countDraw d mod 50) + 10)).

(** [generateBody]; [None] when the choice among the bodies is
    [undefined], which the non-empty table rules out. *)
Definition generateBody (d : Draws) (t : PhishingType) (p : Platform)
    (context : UserContext) : option string :=
  match choose (bodyDraw d) (bodies t p) with
  | Some chosen =>
      let b1 := if JS.truthyStr (username context)
                then replaceFirst chosen "your"
                       (JS.orStr (username context) "" ++ "'s")
                else chosen in
      Some (if JS.truthyStr (organization context)
            then b1 ++ " This affects your access to " ++
                 JS.orStr (organization context) "" ++ " resources."
            else b1)
  | None => None
  end.

(** [generateContent]; [None] when it throws, as it does on reading
    [templates.subjects] when there are no templates. *)
Definition generateContent (d : Draws) (t : PhishingType) (p : Platform)
    (context : UserContext)
    (templates : option (list string * list (string * string)))
    : option SimulationContent :=
  match templates with
  | None => None
  | Some (subjects, senders) =>
      match choose (subjectDraw d) subjects, choose (senderDraw d) senders,
            generateBody d t p context, selectUrgency (urgencyDraw d),
            selectPosition (positionDraw d) t with
      | Some subject, Some s, Some b, Some u, Some pos =>
          Some {| title := personalizeTemplate d subject context;
                  body := b;
                  sender := Some (fst s);
                  senderEmail := Some (snd s);
                  urgency := u;
                  actionText := getActionText t;
                  actionUrl := Some (getActionUrl t p);
                  styling := {| position := pos; theme := Light;
                                brandColors := Some (getBrandColors p);
                                logoUrl := None |} |}
      | _, _, _, _, _ => None
      end
  end.

(** [generateSimulation]: the simulation and the engine after the call, or
    [None] when the call throws, which leaves the engine as it was. *)
Definition generateSimulation (engine : SimulationEngine) (d : Draws)
    (p : Platform) (context : UserContext)
    : option (PhishingSimulation * SimulationEngine) :=
  match selectPhishingType (typeDraw d) p with
  | Some t =>
      match generateContent d t p context (PHISHING_TEMPLATES p),
            calculateDifficulty (difficultyDraw d) with
      | Some c, Some level =>
          Some ({| sim_id := generateId d;
                   sim_type := t;
                   targetPlatform := p;
                   content := c;
                   triggerConditions := generateTriggerConditions d;
                   metadata :=
                     {| createdAt := createdClock d;
                        campaignId := "default-campaign";
                        difficulty := level;
                        trainingObjective := getTrainingObjective t;
                        redTeamControlled := false |} |},
                {| lastSimulationTime := doneClock d;
                   simulationCount := (simulationCount engine + 1)%Z |})
      | _, _ => None
      end
  | None => None
  end.

(** *** The service worker's handling of context updates

    The message listener starts [handleMessage] without awaiting it, so
    several calls of [handleContextUpdate] can be in progress at once.  A
    call touches the state they share in three places, each of which runs
    without interruption: on arrival it stores the context in
    [this.userContext]; once [await storage.set(...)] has returned it reads
    the two switches of the extension state and asks
    [shouldTriggerSimulation]; and, on a yes, once
    [await chrome.tabs.query(...)] has returned inside [injectSimulation],
    it calls [generateSimulation] if there is an active tab, an error of the
    generation being caught and logged.  Between these places the steps of
    other calls may run. *)

(** Where a call that has not finished is waiting: at the [await] of the
    storage, or at the [await] of the tab query. *)
Inductive Stage := AwaitStorage | AwaitTab.

(** The shared state: the engine, the stored contexts, the calls started so
    far (numbered from 0 in the order of their arrival) with the place
    where each unfinished one waits, and the simulations generated so far,
    in the order of their generation. *)
Record Service := {
  simulationEngine : SimulationEngine;
  userContext : Platform -> option UserContext;
  started : nat;
  suspended : nat -> option (Platform * Stage);
  generated : list PhishingSimulation
}.

Definition newService : Service :=
  {| simulationEngine := newEngine;
     userContext := fun _ => None;
     started := 0;
     suspended := fun _ => None;
     generated := [] |}.

(** [{ ...context, platform, timestamp: Date.now() }]. *)
Definition storedContext (p : Platform) (incoming : UserContext) (now : Z)
    : UserContext :=
  {| platform := p;
     ctx_userId := ctx_userId incoming;
     username := username incoming;
     email := email incoming;
     organization := organization incoming;
     recentActivity := recentActivity incoming;
     connections := connections incoming;
     ctx_timestamp := now |}.

Definition setStage (k : nat) (h : option (Platform * Stage)) (s : Service) : Service :=
  {| simulationEngine := simulationEngine s;
     userContext := userContext s;
     started := started s;
     suspended := fun j => if (j =? k)%nat then h else suspended s j;
     generated := generated s |}.

(** A [CONTEXT_UPDATE] message arrives: a new call stores the context and
    waits for the storage. *)
Definition arrive (p : Platform) (incoming : UserContext) (now : Z) (s : Service)
    : Service :=
  {| simulationEngine := simulationEngine s;
     userContext := fun q => if platform_eqb q p
                             then Some (storedContext p incoming now)
                             else userContext s q;
     started := S (started s);
     suspended := fun j => if (j =? started s)%nat then Some (p, AwaitStorage)
                           else suspended s j;
     generated := generated s |}.

(** Call [k] comes back from the storage: it reads the switches and asks
    the engine about the context stored for its site at that moment.  A
    missing context makes the question throw, which ends the call. *)
Definition resumeCheck (k : nat) (enabled hasCampaign : bool) (now : Z)
    (random : float) (s : Service) : Service :=
  match suspended s k with
  | Some (p, AwaitStorage) =>
      if enabled && hasCampaign
      then match userContext s p with
           | Some c =>
               if shouldTriggerSimulation (simulationEngine s) now random p c
               then setStage k (Some (p, AwaitTab)) s
               else setStage k None s
           | None => setStage k None s
           end
      else setStage k None s
  | _ => s
  end.

(** Call [k] comes back from the tab query inside [injectSimulation]: with
    an active tab it generates a simulation for the context stored for its
    site at that moment. *)
Definition resumeInject (k : nat) (hasTab : bool) (d : Draws) (s : Service)
    : Service :=
  match suspended s k with
  | Some (p, AwaitTab) =>
      if hasTab
      then match userContext s p with
           | Some c =>
               match generateSimulation (simulationEngine s) d p c with
               | Some (sim, engine') =>
                   {| simulationEngine := engine';
                      userContext := userContext s;
                      started := started s;
                      suspended := fun j => if (j =? k)%nat then None
                                            else suspended s j;
                      generated := (generated s ++ [sim])%list |}
               | None => setStage k None s
               end
           | None => setStage k None s
           end
      else setStage k None s
  | _ => s
  end.

(** The steps of a run of the service worker, each with what it reads from
    its surroundings. *)
Inductive Step :=
  | Arrive (p : Platform) (incoming : UserContext) (now : Z)
  | ResumeCheck (k : nat) (enabled hasCampaign : bool) (now : Z) (random : float)
  | ResumeInject (k : nat) (hasTab : bool) (d : Draws).

Definition step (s : Service) (st : Step) : Service :=
  match st with
  | Arrive p incoming now => arrive p incoming now s
  | ResumeCheck k enabled hasCampaign now random =>
      resumeCheck k enabled hasCampaign now random s
  | ResumeInject k hasTab d => resumeInject k hasTab d s
  end.

Definition run (s : Service) (steps : list Step) : Service :=
  fold_left step steps s.

(** A context update together with what its call reads on the way. *)
Record Update := {
  site : Platform;
  incoming : UserContext;
  storeClock : Z;
  enabled : bool;
  hasCampaign : bool;
  checkClock : Z;
  random : float;
  hasTab : bool;
  draws : Draws
}.

Definition arrival (u : Update) : Step :=
  Arrive (site u) (incoming u) (storeClock u).
Definition check (k : nat) (u : Update) : Step :=
  ResumeCheck k (enabled u) (hasCampaign u) (checkClock u) (random u).
Definition injection (k : nat) (hasTab : bool) (d : Draws) : Step :=
  ResumeInject k hasTab d.

(** One call of [handleContextUpdate] from its arrival to its end, with no
    step of another call in between. *)
Definition handleContextUpdate (s : Service) (u : Update) : Service :=
  run s [arrival u; check (started s) u; injection (started s) (hasTab u) (draws u)].

(** Updates whose calls do not overlap: each is handled to its end before
    the next arrives. *)
Definition session (s : Service) (updates : list Update) : Service :=
  fold_left handleContextUpdate updates s.

(** Calls that overlap: the same update arrives once for each entry of
    [ds], as when a page changes several times in a row; then each call
    comes back from the storage and asks the engine; then each comes back
    from the tab query and generates, with its own draws. *)
Definition overlapping (first : nat) (u : Update) (ds : list Draws) : list Step :=
  (repeat (arrival u) (List.length ds) ++
   map (fun k => check k u) (seq first (List.length ds)) ++
   map (fun kd => injection (fst kd) (hasTab u) (snd kd))
       (combine (seq first (List.length ds)) ds))%list.

End WithReplace.

(** [calculateContextFactor] turned into the probability that
    [shouldTriggerSimulation] draws against. *)
Definition triggerProbability (context : UserContext) : float :=
  JS.min (0.2 + calculateContextFactor context)%float 0.6%float.

(** A context with every field filled in. *)
Definition fullContext (p : Platform) : UserContext :=
  {| platform := p; ctx_userId := Some "42"; username := Some "bob";
     email := Some "bob@example.com"; organization := Some "acme";
     recentActivity := Some [{| act_type := "push"; act_content := "code";
                                act_timestamp := 0 |}];
     connections := Some [{| conn_name := "eve"; conn_platform := p;
                             conn_relationship := "peer";
                             conn_recentInteraction := None |}];
     ctx_timestamp := 0 |}.

(** A reading of the two forms of [replace] for a non-empty search text
    and a replacement without dollar signs, to run the generation on
    written-out inputs. *)
Fixpoint plainReplaceFirst (s k r : string) : string :=
  match JS.afterPrefix s k with
  | Some rest => r ++ rest
  | None =>
      match s with
      | EmptyString => EmptyString
      | String c t => String c (plainReplaceFirst t k r)
      end
  end.

Fixpoint replaceWithin (fuel : nat) (s k r : string) : string :=
  match fuel with
  | O => s
  | S f =>
      match JS.afterPrefix s k with
      | Some rest => r ++ replaceWithin f rest k r
      | None =>
          match s with
          | EmptyString => EmptyString
          | String c t => String c (replaceWithin f t k r)
          end
      end
  end.

Definition plainReplaceAll (s k r : string) : string :=
  replaceWithin (S (String.length s)) s k r.

Definition someDraws : Draws :=
  {| typeDraw := 1; subjectDraw := 2; countDraw := 3; senderDraw := 4;
     bodyDraw := 5; urgencyDraw := 6; positionDraw := 7; difficultyDraw := 8;
     delayDraw := 0.5; idText := "0.4fzyo82mvyr"; idClock := 1700000000000;
     triggerClock := 1700000000000; createdClock := 1700000000000;
     doneClock := 1700000000001 |}.

(** An update that reaches an enabled extension with a campaign and an
    active tab, and a second set of draws, read one millisecond later. *)
Definition sampleUpdate : Update :=
  {| site := GITHUB; incoming := bareContext GITHUB; storeClock := 1700000000000;
     enabled := true; hasCampaign := true; checkClock := 1700000000000;
     random := 0.1; hasTab := true; draws := someDraws |}.

Definition laterDraws : Draws :=
  {| typeDraw := 0; subjectDraw := 1; countDraw := 2; senderDraw := 3;
     bodyDraw := 4; urgencyDraw := 5; positionDraw := 6; difficultyDraw := 7;
     delayDraw := 0.25; idText := "0.9k2j4h6g8f1"; idClock := 1700000000002;
     triggerClock := 1700000000002; createdClock := 1700000000002;
     doneClock := 1700000000002 |}.

End EngineGeneration.

(** ** ai/phishing-generator.ts: the randomized path *)
Module GeneratorPlan.
Import Types Context EngineGeneration.
Local Open Scope string_scope.

Record GenerationOptions := {
  opt_difficulty : Difficulty;
  opt_urgency : option Urgency;
  customPayload : option string;
  redTeamMode : option bool
}.

(** [vectorMap[v]] for a vector name that is not also the name of a
    property every object inherits. *)
Definition vectorMap (v : string) : option PhishingType :=
  if String.eqb v "credential_harvest" then Some CREDENTIAL_HARVEST
  else if String.eqb v "oauth_grant" then Some OAUTH_GRANT
  else if String.eqb v "mfa_bypass" then Some MFA_BYPASS
  else if String.eqb v "session_hijack" then Some SESSION_HIJACK
  else if String.eqb v "connection_impersonation" then Some CREDENTIAL_HARVEST
  else None.

Definition type_eqb (a b : PhishingType) : bool :=
  match a, b with
  | CREDENTIAL_HARVEST, CREDENTIAL_HARVEST | OAUTH_GRANT, OAUTH_GRANT
  | MFA_BYPASS, MFA_BYPASS | SESSION_HIJACK, SESSION_HIJACK
  | CLIPBOARD_HIJACK, CLIPBOARD_HIJACK | FILE_DOWNLOAD, FILE_DOWNLOAD => true
  | _, _ => false
  end.

Definition isExpert (d : Difficulty) : bool :=
  match d with Expert => true | _ => false end.

(** [candidates.map(v => vectorMap[v]).filter(Boolean)]. *)
Definition validTypes (candidates : list string) : list PhishingType :=
  flat_map (fun v => match vectorMap v with Some t => [t] | None => [] end) candidates.

(** [selectAttackVector]; the candidates are an array, which is never
    falsy, so the [||] default of the source is not taken.  [None] stands
    for [undefined], which the choice from a non-empty array rules out. *)
Definition selectAttackVector (draw : nat) (p : Platform)
    (analysis : ContextAnalysis) (options : GenerationOptions) : option PhishingType :=
  let valid := validTypes (suggestedAttackVectors analysis) in
  match valid with
  | [] => Some CREDENTIAL_HARVEST
  | first :: _ =>
      if isExpert (opt_difficulty options)
      then if existsb (type_eqb OAUTH_GRANT) valid
           then Some OAUTH_GRANT else Some first
      else choose draw valid
  end.

Record Template := {
  t_title : string;
  t_body : string;
  t_actionText : string;
  t_position : Position
}.

Definition template (t b a : string) (pos : Position) : Template :=
  {| t_title := t; t_body := b; t_actionText := a; t_position := pos |}.

Definition quote : string := String (ascii_of_nat 34) EmptyString.

(** The table [templateSets] of [getTemplates]. *)
Definition templateSets (p : Platform) (t : PhishingType) : list Template :=
  match p, t with
  | GITHUB, CREDENTIAL_HARVEST =>
      [template "Critical: Repository access suspended"
         "We detected suspicious activity on your account. Your repository access has been temporarily suspended. Verify your identity to restore access."
         "Verify Identity" Modal;
       template "Security alert: New sign-in from unknown device"
         "A new device signed in to your GitHub account from an unrecognized location. If this wasn't you, secure your account immediately."
         "Review Activity" Modal]
  | GITHUB, OAUTH_GRANT =>
      [template "GitHub App Authorization Required"
         ("The GitHub App " ++ quote ++ "DevOps Toolkit" ++ quote ++
          " is requesting access to your repositories. Grant access to continue using automated workflows.")
         "Authorize App" Banner]
  | GITHUB, MFA_BYPASS =>
      [template "Two-Factor Authentication Update Required"
         "We're updating our 2FA system. Please verify your backup codes to ensure continued access to your account."
         "Update 2FA" Modal]
  | GITHUB, SESSION_HIJACK =>
      [template "Session Expired"
         "Your session has expired due to inactivity. Please sign in again to continue."
         "Sign In" Notification]
  | GITHUB, CLIPBOARD_HIJACK =>
      [template "Verification Code"
         "Your one-time verification code is ready. Click to copy to clipboard."
         "Copy Code" Notification]
  | GITHUB, FILE_DOWNLOAD =>
      [template "Security Report Available"
         "Your repository security scan has completed. Download the detailed report."
         "Download Report" Notification]
  | LINKEDIN, CREDENTIAL_HARVEST =>
      [template "{connection} shared a post with you"
         "{connection} thought you'd be interested in this article. View it now to see what they shared."
         "View Post" Notification;
       template "Your LinkedIn Premium trial expires today"
         "Don't lose access to Premium features. Update your payment information to continue enjoying LinkedIn Premium."
         "Update Payment" Modal]
  | LINKEDIN, OAUTH_GRANT =>
      [template "New App Connection Request"
         (quote ++ "Resume Builder Pro" ++ quote ++
          " wants to access your LinkedIn profile. This will help optimize your job search.")
         "Connect App" Banner]
  | LINKEDIN, MFA_BYPASS =>
      [template "Account Verification Required"
         "To continue using LinkedIn securely, please verify your account with your phone number."
         "Verify Now" Modal]
  | LINKEDIN, SESSION_HIJACK =>
      [template "Login Required"
         "Please sign in again to view this content from your network."
         "Sign In" Modal]
  | LINKEDIN, CLIPBOARD_HIJACK => []
  | LINKEDIN, FILE_DOWNLOAD => []
  | GMAIL, CREDENTIAL_HARVEST =>
      [template "Google: Sign-in attempt was blocked"
         "Someone just used your password to try to sign in to your Google Account. We blocked them, but you should check what happened."
         "Check Activity" Modal;
       template "Your Gmail storage is 99% full"
         "You are running out of storage space. Upgrade now to avoid losing emails or upgrade to Google One for more storage."
         "Free Up Space" Banner]
  | GMAIL, OAUTH_GRANT =>
      [template "Security Checkup: Third-party access"
         "An app you haven't used in 30 days still has access to your Google Account. Review and revoke if unnecessary."
         "Review Access" Notification]
  | GMAIL, MFA_BYPASS =>
      [template "2-Step Verification Update"
         "We're making 2-Step Verification more secure. Update your settings to continue protecting your account."
         "Update Settings" Modal]
  | GMAIL, SESSION_HIJACK =>
      [template "Session Timeout"
         "For your security, your session has expired. Please sign in again."
         "Sign In" Modal]
  | GMAIL, CLIPBOARD_HIJACK => []
  | GMAIL, FILE_DOWNLOAD =>
      [template "Secure file shared with you"
         "Someone shared a confidential document with you via Google Drive. Download requires verification."
         "Download File" Notification]
  | UNKNOWN, _ => []
  end.

(** [getTemplates]: every entry of the table is an array, and an array, empty
    or not, is never falsy, so the entry itself is returned and the [||]
    alternative (the github credential-harvest family) is not. *)
Definition getTemplates (p : Platform) (t : PhishingType) : list Template :=
  templateSets p t.

(** What one call of [generate] reads from its surroundings. *)
Record PlanDraws := {
  vectorDraw : nat;
  countDraw : nat;
  templateDraw : nat;
  senderDraw : nat;
  emailDraw : nat;
  urgencyDraw : nat;
  delayDraw : float;
  idText : string;
  idClock : Z;
  triggerClock : Z;
  createdClock : Z
}.

(** [buildPersonalization]: the entries of the record it returns. *)
Definition buildPersonalization (d : PlanDraws) (context : UserContext)
    (analysis : ContextAnalysis) (key : string) : option string :=
  if String.eqb key "username" then Some (JS.orStr (username context) "there")
  else if String.eqb key "email" then Some (JS.orStr (email context) "your email")
  else if String.eqb key "organization"
  then Some (JS.orStr (organization context) "your organization")
  else if String.eqb key "connection"
  then Some (JS.orStr (hd_error (keyContacts analysis)) "Someone")
  else if String.eqb key "count"
  then Some (Generator.decimal (Z.of_nat (countDraw d mod 40) + 10))
  else None.

(** The lists of [generateSender] and [generateSenderEmail]. *)
Definition senders (p : Platform) : list string :=
  match p with
  | GITHUB => ["GitHub Security"; "GitHub Support"; "GitHub Actions"; "GitHub Team"]
  | LINKEDIN => ["LinkedIn"; "LinkedIn Security"; "LinkedIn Notifications"]
  | GMAIL => ["Google"; "Gmail Team"; "Google Security"]
  | UNKNOWN => ["Security Team"]
  end.

Definition senderEmails (p : Platform) : list string :=
  match p with
  | GITHUB => ["noreply@github.com"; "security@github.com"; "support@github.com"]
  | LINKEDIN => ["messages-noreply@linkedin.com"; "security@linkedin.com"]
  | GMAIL => ["no-reply@accounts.google.com"; "noreply@google.com"]
  | UNKNOWN => ["security@notification.local"]
  end.

(** [generateActionUrl]. *)
Definition generateActionUrl (p : Platform) (t : PhishingType) : string :=
  "https://" ++
  match p with
  | GITHUB => "github.com"
  | LINKEDIN => "linkedin.com"
  | GMAIL => "google.com"
  | UNKNOWN => "example.com"
  end ++ "/security-check".

(** The table [levels] of [selectUrgency], and [selectUrgency]. *)
Definition urgencyLevels (d : Difficulty) : list Urgency :=
  match d with
  | Easy => [UrgLow; UrgLow; UrgMedium]
  | Medium => [UrgMedium; UrgHigh]
  | Hard => [UrgHigh; UrgCritical]
  | Expert => [UrgCritical; UrgHigh; UrgCritical]
  end.

Definition selectUrgency (draw : nat) (d : Difficulty) : option Urgency :=
  choose draw (urgencyLevels d).

(** [getBrandColors] and [getTrainingObjective] of the generator. *)
Definition getBrandColors (p : Platform) : list string :=
  match p with
  | GITHUB => ["#24292e"; "#0366d6"]
  | LINKEDIN => ["#0077b5"; "#000000"]
  | GMAIL => ["#4285f4"; "#ea4335"; "#fbbc05"; "#34a853"]
  | UNKNOWN => ["#333333"]
  end.

Definition getTrainingObjective (t : PhishingType) : string :=
  match t with
  | CREDENTIAL_HARVEST => "Recognize credential harvesting attempts"
  | OAUTH_GRANT => "Identify malicious OAuth requests"
  | MFA_BYPASS => "Detect MFA bypass attempts"
  | SESSION_HIJACK => "Recognize session hijacking"
  | CLIPBOARD_HIJACK => "Identify clipboard manipulation"
  | FILE_DOWNLOAD => "Recognize malicious downloads"
  end.

(** [generateTriggers]. *)
Definition generateTriggers (d : PlanDraws) : list TriggerCondition :=
  [{| tr_type := TrTime;
      tr_value := VNumber (JS.ofZ (triggerClock d) + 5000 + delayDraw d * 30000)%float;
      tr_operator := OpGt |};
   {| tr_type := TrAction;
      tr_value := VString "page_visible";
      tr_operator := OpEquals |}].

(** [generateId]. *)
Definition generateId (d : PlanDraws) : string :=
  "gen-" ++ Generator.decimal (idClock d) ++ "-" ++ String.substring 2 9 (idText d).

Section WithFill.

(** [template.replace(/\{(\w+)\}/g, (match, key) => data[key] || match)],
    a service of the language: [fill s data] puts, for every placeholder
    [{key}] of [s], the text [data key] in its place, and leaves the
    placeholder when [data key] is missing or empty. *)
Variable fill : string -> (string -> option string) -> string.

(** [generateContent]; [None] when it throws, as it does on reading
    [template.title] when no template was found. *)
Definition generateContent (d : PlanDraws) (t : PhishingType) (p : Platform)
    (context : UserContext) (analysis : ContextAnalysis)
    (options : GenerationOptions) : option SimulationContent :=
  let templates := getTemplates p t in
  let personalization := buildPersonalization d context analysis in
  match choose (templateDraw d) templates with
  | None => None
  | Some tpl =>
      match choose (senderDraw d) (senders p), choose (emailDraw d) (senderEmails p),
            match opt_urgency options with
            | Some u => Some u
            | None => selectUrgency (urgencyDraw d) (opt_difficulty options)
            end with
      | Some s, Some e, Some u =>
          Some {| title := fill (t_title tpl) personalization;
                  body := fill (t_body tpl) personalization;
                  sender := Some s;
                  senderEmail := Some e;
                  urgency := u;
                  actionText := t_actionText tpl;
                  actionUrl := Some (generateActionUrl p t);
                  styling := {| position := t_position tpl; theme := Light;
                                brandColors := Some (getBrandColors p);
                                logoUrl := None |} |}
      | _, _, _ => None
      end
  end.

(** [generate]; [None] when it throws. *)
Definition generate (d : PlanDraws) (p : Platform) (context : UserContext)
    (analysis : ContextAnalysis) (options : GenerationOptions)
    : option PhishingSimulation :=
  match selectAttackVector (vectorDraw d) p analysis options with
  | None => None
  | Some t =>
      match generateContent d t p context analysis options with
      | None => None
      | Some c =>
          Some {| sim_id := generateId d;
                  sim_type := t;
                  targetPlatform := p;
                  content := c;
                  triggerConditions := generateTriggers d;
                  metadata :=
                    {| createdAt := createdClock d;
                       campaignId := "generated";
                       difficulty := opt_difficulty options;
                       trainingObjective := getTrainingObjective t;
                       redTeamControlled :=
                         match redTeamMode options with
                         | Some b => b
                         | None => false
                         end |} |}
      end
  end.

End WithFill.

(** The text a trigger condition waits for, when its value is a text. *)
Definition tr_value_text (c : TriggerCondition) : option string :=
  match tr_value c with
  | VString v => Some v
  | _ => None
  end.

(** Whether a mapping holds a context of site [p]. *)
Definition hasSite (p : Platform) (m : UserContexts) : bool :=
  existsb (platform_eqb p) (map platform (values m)).

End GeneratorPlan.

(** ** ai/context-analyzer.ts: timing, anomalies and the relationship graph *)
Module ContextTools.
Import Types Context.
Local Open Scope string_scope.

(** [counts[k]++] on an array of counters, for an index inside the array. *)
Fixpoint bumpAt (k : nat) (counts : list nat) : list nat :=
  match counts, k with
  | [], _ => []
  | c :: r, O => S c :: r
  | c :: r, S k' => c :: bumpAt k' r
  end.

(** [Math.max(...counts)] for a non-empty array of counters. *)
Definition maxOf (counts : list nat) : nat := fold_right Nat.max 0%nat counts.

(** [counts.indexOf(v)]. *)
Fixpoint indexOf (v : nat) (counts : list nat) : Z :=
  match counts with
  | [] => (-1)%Z
  | c :: r =>
      if (c =? v)%nat then 0%Z
      else match indexOf v r with
           | Zneg _ => (-1)%Z
           | i => (i + 1)%Z
           end
  end.

(** All activity timestamps of the contexts, in order. *)
Definition timestampsOf (contexts : list UserContext) : list Z :=
  flat_map (fun c => match recentActivity c with
                     | Some acts => map act_timestamp acts
                     | None => []
                     end) contexts.

(** The activities of a context as [detectAnomalies] sorts them:
    [[...recentActivity].sort((a, b) => a.timestamp - b.timestamp)]. *)
Definition byTime (acts : list Activity) : list Activity :=
  JS.sort (fun a b => (act_timestamp b <? act_timestamp a)%Z) acts.

(** The loop of [detectAnomalies] over neighbours in the sorted array. *)
Fixpoint anyBurst (sorted : list Activity) : bool :=
  match sorted with
  | a :: ((b :: _) as rest) =>
      (act_timestamp b - act_timestamp a <? 1000)%Z || anyBurst rest
  | _ => false
  end.

Section WithClock.

(** [new Date(t).getHours()] and [new Date(t).getDay()] in the time zone of
    the browser: an hour from 0 to 23 and a day from 0 (Sunday) to 6. *)
Variable getHours : Z -> nat.
Variable getDay : Z -> nat.

(** The two histograms of [analyzeTimingPatterns]. *)
Definition tally (size : nat) (slot : Z -> nat) (timestamps : list Z) : list nat :=
  fold_left (fun counts t => bumpAt (slot t) counts) timestamps (repeat 0%nat size).

(** [analyzeTimingPatterns]: [bestTime] and [bestDay]. *)
Definition analyzeTimingPatterns (contexts : list UserContext) : Z * Z :=
  match timestampsOf contexts with
  | [] => (9%Z, 1%Z)
  | timestamps =>
      let hourCounts := tally 24 getHours timestamps in
      let dayCounts := tally 7 getDay timestamps in
      (indexOf (maxOf hourCounts) hourCounts, indexOf (maxOf dayCounts) dayCounts)
  end.

(** [detectAnomalies]. *)
Definition detectAnomalies (context : UserContext) : list string :=
  match recentActivity context with
  | None => []
  | Some acts =>
      let sorted := byTime acts in
      ((if anyBurst sorted then ["burst_activity"] else []) ++
       match last (map Some sorted) None with
       | Some lastActivity =>
           let hour := getHours (act_timestamp lastActivity) in
           if (hour <? 6)%nat || (23 <? hour)%nat then ["unusual_hours"] else []
       | None => []
       end)%list
  end.

End WithClock.

(** [graph.set(key, value)] on a [Map]: an old key keeps its place and
    takes the new value, a new key goes last. *)
Fixpoint mapSet (key : string) (value : list string)
    (graph : list (string * list string)) : list (string * list string) :=
  match graph with
  | [] => [(key, value)]
  | e :: r =>
      if String.eqb (fst e) key then (key, value) :: r
      else e :: mapSet key value r
  end.

(** [graph.get(key)]. *)
Fixpoint mapGet (key : string) (graph : list (string * list string))
    : option (list string) :=
  match graph with
  | [] => None
  | e :: r => if String.eqb (fst e) key then Some (snd e) else mapGet key r
  end.

(** [context.username || context.email || context.platform]. *)
Definition userIdOf (context : UserContext) : string :=
  JS.orStr (username context)
    (JS.orStr (email context) (platformName (platform context))).

(** [buildRelationshipGraph]: the entries of the map, in insertion order. *)
Definition buildRelationshipGraph (contexts : list UserContext)
    : list (string * list string) :=
  fold_left
    (fun graph c =>
       match connections c with
       | Some l => mapSet (userIdOf c) (map conn_name l) graph
       | None => graph
       end)
    contexts [].

(** Two of the timestamps, at different places of the list, are less than
    a second apart. *)
Definition closePair (timestamps : list Z) : Prop :=
  exists a b rest,
    Permutation timestamps (a :: b :: rest) /\ (Z.abs (a - b) < 1000)%Z.

(** The clock of a browser set to universal time. *)
Definition utcHours (t : Z) : nat := Z.to_nat ((t / 3600000) mod 24).
Definition utcDay (t : Z) : nat := Z.to_nat ((t / 86400000 + 4) mod 7).

Definition activityAt (t : Z) : Activity :=
  {| act_type := "push"; act_content := "code"; act_timestamp := t |}.

Definition contextWith (acts : list Activity) : UserContext :=
  {| platform := GITHUB; ctx_userId := None; username := Some "bob"; email := None;
     organization := None; recentActivity := Some acts; connections := None;
     ctx_timestamp := 0 |}.


(** How many of the timestamps fall into slot [k]. *)
Definition occurrences (slot : Z -> nat) (k : nat) (timestamps : list Z) : nat :=
  List.length (filter (fun t => (slot t =? k)%nat) timestamps).

(** Activities in ascending order of time, and in ascending order with at
    least a second between neighbours. *)
Fixpoint ascending (l : list Activity) : Prop :=
  match l with
  | a :: ((b :: _) as r) => (act_timestamp a <= act_timestamp b)%Z /\ ascending r
  | _ => True
  end.

Fixpoint gapped (l : list Activity) : Prop :=
  match l with
  | a :: ((b :: _) as r) => (act_timestamp a + 1000 <= act_timestamp b)%Z /\ gapped r
  | _ => True
  end.


(** One turn of the loop of [buildRelationshipGraph]. *)
Definition graphStep (graph : list (string * list string)) (c : UserContext)
    : list (string * list string) :=
  match connections c with
  | Some l => mapSet (userIdOf c) (map conn_name l) graph
  | None => graph
  end.

End ContextTools.

(* ================================================================== *)
(** * Part II: properties                                              *)
(* ================================================================== *)

(** ** The progression tracker *)
Module TrackerProofs.
Import Types Tracker.
Local Open Scope Z_scope.

(** Where the average is left alone, the handler is the counter switch
    followed by the time stamp. *)
Lemma handle_without_sample (now : Z) (s : UserStats) (e : SimulationEvent) :
  isDetected (ev_type e) && JS.truthyNum (ev_shownAt e) = false ->
  handleSimulationEvent now s e =
  withUpdated now (applyEventType (ev_type e) (withSeen (simulationsSeen s + 1) s)).
Proof.
  intros Hno. unfold handleSimulationEvent. rewrite Hno. reflexivity.
Qed.

(** A detection that carries a non-zero [shownAt] goes through
    [updateAverageDetectionTime]. *)
Lemma handle_with_sample (now : Z) (s : UserStats) (e : SimulationEvent) (shown : Z) :
  ev_type e = SIMULATION_DETECTED -> ev_shownAt e = Some shown -> shown <> 0 ->
  handleSimulationEvent now s e =
  withUpdated now
    (updateAverageDetectionTime (ev_timestamp e - shown)
       (applyEventType SIMULATION_DETECTED (withSeen (simulationsSeen s + 1) s))).
Proof.
  intros Ht Hs Hnz. unfold handleSimulationEvent. rewrite Ht, Hs. simpl.
  destruct (Z.eqb_spec shown 0) as [E | _]; [contradiction | reflexivity].
Qed.

(** The two ways an event can fail to bring a sample. *)
Lemma sample_cases (e : SimulationEvent) :
  isDetected (ev_type e) && JS.truthyNum (ev_shownAt e) = false \/
  exists shown, ev_type e = SIMULATION_DETECTED /\ ev_shownAt e = Some shown /\ shown <> 0.
Proof.
  destruct e as [i si t ts u sh]; simpl.
  destruct t; simpl; auto.
  destruct sh as [z |]; simpl; auto.
  destruct (Z.eqb_spec z 0) as [E | N]; simpl; auto.
  right. exists z. auto.
Qed.

(** The switch never takes the score below zero. *)
Lemma applyEventType_risk_nonneg (t : EventType) (s : UserStats) :
  0 <= riskScore s -> 0 <= riskScore (applyEventType t s).
Proof.
  intros H. destruct t; simpl; lia.
Qed.

Lemma handle_risk (now : Z) (s : UserStats) (e : SimulationEvent) :
  riskScore (handleSimulationEvent now s e) =
  riskScore (applyEventType (ev_type e) s).
Proof.
  destruct (sample_cases e) as [Hno | [shown [Ht [Hs Hnz]]]].
  - rewrite handle_without_sample by exact Hno. destruct (ev_type e); reflexivity.
  - rewrite (handle_with_sample now s e shown Ht Hs Hnz). rewrite Ht. reflexivity.
Qed.

(** The lower end of the scale is kept by every run of the tracker. *)
Lemma processEvents_risk_nonneg (events : list (Z * SimulationEvent)) (s : UserStats) :
  0 <= riskScore s -> 0 <= riskScore (processEvents s events).
Proof.
  revert s. induction events as [| [now e] rest IH]; intros s H; simpl.
  - exact H.
  - apply IH. rewrite handle_risk. apply applyEventType_risk_nonneg. exact H.
Qed.

(** C1 (the code at the failing input).  Two credential-entered events from
    the default record leave the risk score at 150, above the 0-100 scale:
    the two raising branches add without a ceiling, while the two lowering
    branches do floor the score at 0. *)
Theorem risk_score_overshoots_scale :
  riskScore (processEvents (createDefaultStats "u" 0)
               [(1, plainEvent CREDENTIAL_ENTERED); (2, plainEvent CREDENTIAL_ENTERED)])
  = 150
  /\ riskScore (processEvents (createDefaultStats "u" 0)
                  [(1, plainEvent LINK_CLICKED); (2, plainEvent LINK_CLICKED);
                   (3, plainEvent LINK_CLICKED)])
     = 125.
Proof.
  repeat split.
Qed.

(** C9 (the code at the failing input).  One simulation that is shown and
    then closed by the user reaches the tracker as two events,
    simulation-shown and simulation-detected, and one that is shown, focused
    and filled in as three.  [handleSimulationEvent] adds one to
    [simulationsSeen] for each of them, whatever its kind: the record then
    holds two simulations seen for the one that was detected, so that the
    detection rate of the popup is 50 and not 100, and three seen for the one
    that took the credentials.  In the same way a single link-clicked event
    moves [simulationsSeen] together with [simulationsClicked], a second
    counter besides the one of its kind. *)
Theorem one_simulation_is_seen_once_per_event :
  let closed :=
    processEvents (createDefaultStats "u" 0)
      [(1, plainEvent SIMULATION_SHOWN); (2, plainEvent SIMULATION_DETECTED)] in
  let filled :=
    processEvents (createDefaultStats "u" 0)
      [(1, plainEvent SIMULATION_SHOWN); (2, plainEvent FORM_FOCUSED);
       (3, plainEvent CREDENTIAL_ENTERED)] in
  let clicked :=
    handleSimulationEvent 1 (createDefaultStats "u" 0) (plainEvent LINK_CLICKED) in
  simulationsSeen closed = 2 /\
  simulationsDetected closed = 1 /\
  Popup.getDetectionRate closed = 50 /\
  simulationsSeen filled = 3 /\
  credentialsEntered filled = 1 /\
  simulationsSeen (createDefaultStats "u" 0) = 0 /\
  simulationsSeen clicked = 1 /\
  simulationsClicked clicked = 1.
Proof.
  vm_compute. repeat split.
Qed.

(** What the handler as written does with one event.  Every event
    increments [simulationsSeen]; besides that,
    exactly the counter of its kind is incremented (link-clicked:
    [simulationsClicked]; credential-entered: [credentialsEntered];
    simulation-detected and reported-as-phishing: [simulationsDetected]) and
    the other counters, the user id and the difficulty record are unchanged.
    From a non-negative score, the new score is never negative, and whenever
    the old score plus the delta of the kind (entered +50, clicked +25,
    detected -20, reported -30) does not pass 100, the new score is that sum
    clamped to the scale. *)
Lemma event_moves_its_counter_and_score
    (now : Z) (s : UserStats) (e : SimulationEvent) :
  0 <= riskScore s ->
  let s' := handleSimulationEvent now s e in
  let t := ev_type e in
  simulationsSeen s' = simulationsSeen s + 1 /\
  simulationsClicked s' = simulationsClicked s + bump (isClicked t) /\
  credentialsEntered s' = credentialsEntered s + bump (isEntered t) /\
  simulationsDetected s' = simulationsDetected s + bump (countsAsDetected t) /\
  userId s' = userId s /\
  difficultyProgression s' = difficultyProgression s /\
  0 <= riskScore s' /\
  (riskScore s + specDelta t <= 100 ->
   riskScore s' = clamp100 (riskScore s + specDelta t)).
Proof.
  intros Hpos s' t. subst s' t.
  destruct (sample_cases e) as [Hno | [shown [Ht [Hs Hnz]]]].
  - rewrite handle_without_sample by exact Hno.
    unfold clamp100. destruct (ev_type e); simpl; repeat split; lia.
  - rewrite (handle_with_sample now s e shown Ht Hs Hnz). rewrite Ht.
    unfold clamp100. simpl. repeat split; lia.
Qed.

Lemma event_moves_its_counter_and_score_witness :
  0 <= riskScore (createDefaultStats "u" 0) /\
  simulationsClicked
    (handleSimulationEvent 1 (createDefaultStats "u" 0) (plainEvent LINK_CLICKED))
  = simulationsClicked (createDefaultStats "u" 0) + 1.
Proof.
  assert (H : 0 <= riskScore (createDefaultStats "u" 0)) by (simpl; lia).
  split; [exact H |].
  exact (proj1 (proj2 (event_moves_its_counter_and_score
                         1 (createDefaultStats "u" 0) (plainEvent LINK_CLICKED) H))).
Defined.

(** C5 (as stated, refuted).  A detection event with [shownAt = 0] and
    [timestamp = 10000] carries an elapsed-time measurement of 10,000 ms and
    is counted as a detection, but the average stays at 0: the handler tests
    [shownAt] for truthiness, and 0 is falsy.  The formula of the claim gives
    10,000 for it. *)
Lemma zero_shown_at_drops_the_sample :
  let e := detectionEvent 0 10000 in
  let s' := handleSimulationEvent 1 (createDefaultStats "u" 0) e in
  ev_type e = SIMULATION_DETECTED /\
  ev_shownAt e = Some 0 /\
  ev_timestamp e - 0 = 10000 /\
  simulationsDetected s' = 1 /\
  averageDetectionTime s' = 0%float /\
  ((0 * (JS.ofZ 1 - 1) + JS.ofZ 10000) / JS.ofZ 1)%float = 10000%float.
Proof.
  vm_compute. repeat split.
Qed.

(** C5 (amended).  A simulation-detected event that carries a shown-at
    time other than 0 updates the average as
    [avg' = (avg * (n - 1) + sample) / n], where [sample] is the elapsed
    time [timestamp - shownAt] and [n] is the detected-count after the
    increment of the same event; every other event (any other kind, and a
    detection whose shown-at time is missing or 0) leaves the average as it
    was; and two detections of 10,000 ms and 20,000 ms from the default
    record give an average of 15,000 ms. *)
Theorem detection_time_running_mean :
  (forall (now : Z) (s : UserStats) (e : SimulationEvent) (shown : Z),
     ev_type e = SIMULATION_DETECTED -> ev_shownAt e = Some shown -> shown <> 0 ->
     let s' := handleSimulationEvent now s e in
     let n := JS.ofZ (simulationsDetected s') in
     simulationsDetected s' = simulationsDetected s + 1 /\
     averageDetectionTime s' =
       ((averageDetectionTime s * (n - 1) + JS.ofZ (ev_timestamp e - shown)) / n)%float)
  /\
  (forall (now : Z) (s : UserStats) (e : SimulationEvent),
     isDetected (ev_type e) && JS.truthyNum (ev_shownAt e) = false ->
     averageDetectionTime (handleSimulationEvent now s e) = averageDetectionTime s)
  /\
  averageDetectionTime
    (processEvents (createDefaultStats "u" 0)
       [(1, detectionEvent 5 10000); (2, detectionEvent 7 20000)]) = 15000%float.
Proof.
  split; [| split].
  - intros now s e shown Ht Hs Hnz s' n. subst n s'.
    rewrite (handle_with_sample now s e shown Ht Hs Hnz). split; reflexivity.
  - intros now s e Hno. rewrite handle_without_sample by exact Hno.
    destruct (ev_type e); reflexivity.
  - vm_compute. reflexivity.
Qed.

Lemma detection_time_running_mean_witness :
  averageDetectionTime
    (handleSimulationEvent 1 (createDefaultStats "u" 0) (detectionEvent 5 10000))
  = ((0 * (JS.ofZ 1 - 1) + JS.ofZ 10000) / JS.ofZ 1)%float.
Proof.
  exact (proj2 (proj1 detection_time_running_mean 1 (createDefaultStats "u" 0)
                  (detectionEvent 5 10000) 5 eq_refl eq_refl
                  (fun H : 5 = 0 => Z.neq_sym _ _ (Z.lt_neq 0 5 eq_refl) H))).
Defined.

End TrackerProofs.

(** ** The risk detector *)
Module DetectorProofs.
Import Types Detector DetectorSignals.
Local Open Scope string_scope.

(** *** Substring search under lower-casing and concatenation *)

Lemma startsWith_lower (k s : string) :
  JS.startsWith s k = true ->
  JS.startsWith (JS.toLowerCase s) (JS.toLowerCase k) = true.
Proof.
  revert s. induction k as [| a k IH]; intros s H.
  - destruct s; reflexivity.
  - destruct s as [| b s]; simpl in H; [discriminate |].
    apply andb_true_iff in H. destruct H as [Hc Hr].
    apply Ascii.eqb_eq in Hc. subst b. simpl.
    rewrite Ascii.eqb_refl. simpl. apply IH. exact Hr.
Qed.

Lemma includes_lower (k s : string) :
  JS.includes s k = true ->
  JS.includes (JS.toLowerCase s) (JS.toLowerCase k) = true.
Proof.
  induction s as [| c s IH]; intros H.
  - destruct k as [| a k]; [reflexivity | discriminate H].
  - change (JS.startsWith (String c s) k || JS.includes s k = true) in H.
    change (JS.startsWith (JS.toLowerCase (String c s)) (JS.toLowerCase k)
            || JS.includes (JS.toLowerCase s) (JS.toLowerCase k) = true).
    apply orb_true_iff in H. apply orb_true_iff. destruct H as [H | H].
    + left. apply startsWith_lower. exact H.
    + right. apply IH. exact H.
Qed.

Lemma includes_after (a s k : string) :
  JS.includes s k = true -> JS.includes (a ++ s) k = true.
Proof.
  intros H. induction a as [| c a IH].
  - exact H.
  - change (JS.startsWith (String c (a ++ s)) k || JS.includes (a ++ s) k = true).
    rewrite IH. apply orb_true_r.
Qed.

Lemma urgencyKeywords_lower :
  Forall (fun k => JS.toLowerCase k = k) urgencyKeywords.
Proof.
  repeat constructor.
Qed.

Lemma hits_positive (text k : string) (keywords : list string) :
  In k keywords -> JS.includes text k = true -> 1 <= hits text keywords.
Proof.
  intros Hin Hinc. unfold hits.
  assert (Hf : In k (filter (JS.includes text) keywords))
    by (apply filter_In; split; assumption).
  destruct (filter (JS.includes text) keywords); [destruct Hf | simpl; lia].
Qed.

Lemma hits_bounded (text : string) (keywords : list string) :
  hits text keywords <= List.length keywords.
Proof.
  unfold hits. induction keywords as [| k r IH]; simpl.
  - lia.
  - destruct (JS.includes text k); simpl; lia.
Qed.

(** An urgency keyword in the page text is found in the text the detector
    scans, the lower-cased title, blank and page text. *)
Lemma urgency_keyword_counts (ptitle ptext : string) :
  (exists k, In k urgencyKeywords /\ JS.includes ptext k = true) ->
  1 <= hits (JS.toLowerCase (ptitle ++ " " ++ ptext)) urgencyKeywords.
Proof.
  intros [k [Hin Hinc]].
  apply (hits_positive _ k); [exact Hin |].
  pose proof (proj1 (Forall_forall _ _) urgencyKeywords_lower k Hin) as Hlow.
  rewrite <- Hlow. apply includes_lower.
  apply includes_after. apply includes_after. exact Hinc.
Qed.

(** *** The detector factors through its signals *)

Section Factoring.
Variable parseURL : string -> option URL.

Lemma assess_signals (input : DetectionInput) :
  assess parseURL input = assessSignals (signalsOf parseURL input).
Proof.
  unfold assess, assessSignals, signalsOf, analyzeUrl, urlSignals,
    analyzeContent, analyzeBehavior, pageText; simpl.
  destruct (parseURL (url input)); reflexivity.
Qed.

Lemma analyze_predict (input : DetectionInput) :
  analyze parseURL input = predict (signalsOf parseURL input).
Proof.
  unfold analyze, predict. rewrite assess_signals. reflexivity.
Qed.

Lemma signals_in_range (input : DetectionInput) :
  sUrgency (signalsOf parseURL input) <= 9 /\ sSecurity (signalsOf parseURL input) <= 8.
Proof.
  split; simpl; apply hits_bounded.
Qed.

End Factoring.

(** *** Exhausting the signals *)

Lemma allBool_spec (P : bool -> bool) :
  allBool P = true -> forall b, P b = true.
Proof.
  unfold allBool. intros H b. apply andb_true_iff in H.
  destruct b; tauto.
Qed.

Lemma allUpTo_spec (n : nat) (P : nat -> bool) :
  allUpTo n P = true -> forall k, k <= n -> P k = true.
Proof.
  unfold allUpTo. intros H k Hk.
  apply (proj1 (forallb_forall P (seq 0 (S n))) H).
  apply in_seq. lia.
Qed.

Lemma allUrl_spec (P : option UrlSignals -> bool) :
  allUrl P = true -> forall u, P u = true.
Proof.
  unfold allUrl. intros H u. apply andb_true_iff in H. destruct H as [Hn Hs].
  destruct u as [[a b c d e] |]; [| exact Hn].
  pose proof (allBool_spec _ Hs a) as H1.
  pose proof (allBool_spec _ H1 b) as H2.
  pose proof (allBool_spec _ H2 c) as H3.
  pose proof (allBool_spec _ H3 d) as H4.
  exact (allBool_spec _ H4 e).
Qed.

Lemma allSignals_spec (P : Signals -> bool) :
  allSignals P = true ->
  forall s, sUrgency s <= 9 -> sSecurity s <= 8 -> P s = true.
Proof.
  unfold allSignals. intros H [pw us u ug sc ty ru lo] Hug Hsc. simpl in Hug, Hsc.
  pose proof (allBool_spec _ H pw) as H1.
  pose proof (allBool_spec _ H1 us) as H2.
  pose proof (allUrl_spec _ H2 u) as H3.
  pose proof (allUpTo_spec _ _ H3 ug Hug) as H4.
  pose proof (allUpTo_spec _ _ H4 sc Hsc) as H5.
  pose proof (allBool_spec _ H5 ty) as H6.
  pose proof (allBool_spec _ H6 ru) as H7.
  exact (allBool_spec _ H7 lo).
Qed.

(** *** Sorting and comparing factor lists *)

Lemma insert_perm {A : Type} (after : A -> A -> bool) (x : A) (l : list A) :
  Permutation (JS.insert after x l) (x :: l).
Proof.
  induction l as [| y r IH]; simpl.
  - apply Permutation_refl.
  - destruct (after x y).
    + apply perm_trans with (y :: x :: r).
      * apply perm_skip. exact IH.
      * apply perm_swap.
    + apply Permutation_refl.
Qed.

Lemma sort_perm {A : Type} (after : A -> A -> bool) (l : list A) :
  Permutation (JS.sort after l) l.
Proof.
  induction l as [| x r IH]; simpl.
  - apply perm_nil.
  - apply perm_trans with (x :: JS.sort after r).
    + apply insert_perm.
    + apply perm_skip. exact IH.
Qed.

Lemma factor_eqb_eq (a b : RiskFactor) : factor_eqb a b = true -> a = b.
Proof.
  destruct a as [ta sa da], b as [tb sb db]. unfold factor_eqb. simpl. intros H.
  apply andb_true_iff in H. destruct H as [H Hd].
  apply andb_true_iff in H. destruct H as [Ht Hs].
  apply String.eqb_eq in Ht. apply String.eqb_eq in Hd. subst tb db.
  destruct sa, sb; try discriminate Hs; reflexivity.
Qed.

Lemma factors_eqb_eq (a b : list RiskFactor) : factors_eqb a b = true -> a = b.
Proof.
  revert b. induction a as [| x a IH]; intros [| y b] H; simpl in H;
    try discriminate H; [reflexivity |].
  apply andb_true_iff in H. destruct H as [Hx Hr].
  apply factor_eqb_eq in Hx. apply IH in Hr. subst. reflexivity.
Qed.

(** *** The checks, run over every combination of signals *)

Lemma every_signal_bounded : allSignals checkBounded = true.
Proof. vm_compute. reflexivity. Qed.

Lemma every_signal_insecure : allSignals checkInsecure = true.
Proof. vm_compute. reflexivity. Qed.

Lemma every_signal_ranking : allSignals checkRanking = true.
Proof. vm_compute. reflexivity. Qed.

(** The confidence is a number between 0 and 1 on every input. *)
Lemma confidence_bounded (parseURL : string -> option URL) (input : DetectionInput) :
  JS.ge (confidence (analyze parseURL input)) 0 = true /\
  JS.ge 1 (confidence (analyze parseURL input)) = true.
Proof.
  rewrite analyze_predict.
  destruct (signals_in_range parseURL input) as [Hu Hs].
  pose proof (allSignals_spec _ every_signal_bounded _ Hu Hs) as H.
  unfold checkBounded in H. apply andb_true_iff in H. exact H.
Qed.

(** *** The claims *)

(** C2 (as stated, refuted).  On a page with a password box, served over
    plain HTTP from a host off the allow-list and with one urgency keyword,
    the verdict is true at a confidence of 0.65, which does not exceed
    0.75. *)
Lemma verdict_below_075 :
  isCredentialEntry (analyze plainURL (page "http://example.test/")) = true /\
  JS.gt (confidence (analyze plainURL (page "http://example.test/"))) 0.75 = false /\
  confidence (analyze plainURL (page "http://example.test/")) = 0.65%float.
Proof.
  vm_compute. repeat split.
Qed.

(** C2 (amended).  The verdict of [analyze] is true only if some form field
    is password-capable and the confidence exceeds 0.6, the threshold written
    into the rule-based detector; the confidence then is at most 1. *)
Theorem verdict_needs_password_and_06
    (parseURL : string -> option URL) (input : DetectionInput) :
  isCredentialEntry (analyze parseURL input) = true ->
  (exists f, In f (formFields input) /\ isPassword f = true) /\
  JS.gt (confidence (analyze parseURL input)) 0.6 = true /\
  JS.ge 1 (confidence (analyze parseURL input)) = true.
Proof.
  intros H. split; [| split].
  - unfold analyze in H. simpl in H. apply andb_true_iff in H.
    destruct H as [Hpw _]. apply existsb_exists. exact Hpw.
  - unfold analyze in *. simpl in *. apply andb_true_iff in H. tauto.
  - apply confidence_bounded.
Qed.

Lemma verdict_needs_password_and_06_witness :
  isCredentialEntry (analyze plainURL (page "http://example.test/")) = true /\
  JS.gt (confidence (analyze plainURL (page "http://example.test/"))) 0.6 = true.
Proof.
  split; [reflexivity |].
  exact (proj1 (proj2 (verdict_needs_password_and_06 plainURL
                         (page "http://example.test/") eq_refl))).
Defined.

(** C8 (as stated, refuted).  A password box, plain HTTP and an urgency
    keyword on an allow-listed host give a confidence of 0.5, which is not
    above 0.6. *)
Lemma allow_listed_http_scores_half :
  hasPasswordField (page "http://github.com/") = true /\
  plainURL "http://github.com/" = Some {| protocol := "http:"; hostname := "github.com" |} /\
  JS.includes (pageContent (page "http://github.com/")) "urgent" = true /\
  confidence (analyze plainURL (page "http://github.com/")) = 0.5%float /\
  JS.gt (confidence (analyze plainURL (page "http://github.com/"))) 0.6 = false.
Proof.
  vm_compute. repeat split.
Qed.

(** C8 (amended).  For an input with a password-capable field, a URL that
    parses and is not served over HTTPS, and an urgency keyword in its page
    text, the confidence is at least 0.5, it is strictly above 0.6 when the
    host is moreover off the allow-list, and the returned factors include
    both "password_field" and "insecure_protocol". *)
Theorem insecure_password_page_score
    (parseURL : string -> option URL) (input : DetectionInput) (u : URL) :
  (exists f, In f (formFields input) /\ isPassword f = true) ->
  parseURL (url input) = Some u ->
  String.eqb (protocol u) "https:" = false ->
  (exists k, In k urgencyKeywords /\ JS.includes (pageContent input) k = true) ->
  let r := analyze parseURL input in
  JS.ge (confidence r) 0.5 = true /\
  (isLegitimate (JS.toLowerCase (hostname u)) = false ->
   JS.gt (confidence r) 0.6 = true) /\
  hasFactor "password_field" (riskFactors r) = true /\
  hasFactor "insecure_protocol" (riskFactors r) = true.
Proof.
  intros Hpw Hurl Hproto Hkey r. subst r. rewrite analyze_predict.
  destruct (signals_in_range parseURL input) as [Hu Hs].
  pose proof (allSignals_spec _ every_signal_insecure _ Hu Hs) as H.
  unfold checkInsecure in H.
  assert (Hp : sPassword (signalsOf parseURL input) = true)
    by (apply existsb_exists; exact Hpw).
  assert (Hi : urlInsecure (signalsOf parseURL input) = true)
    by (unfold urlInsecure; simpl; unfold urlSignals; rewrite Hurl; simpl;
        rewrite Hproto; reflexivity).
  assert (Hg : (1 <=? sUrgency (signalsOf parseURL input))%nat = true)
    by (apply Nat.leb_le; apply urgency_keyword_counts; exact Hkey).
  rewrite Hp, Hi, Hg in H. simpl in H.
  apply andb_true_iff in H. destruct H as [H Hf2].
  apply andb_true_iff in H. destruct H as [H Hf1].
  apply andb_true_iff in H. destruct H as [Hge Himp].
  repeat split; try assumption.
  intros Hleg.
  assert (Hk : urlUnknown (signalsOf parseURL input) = true)
    by (unfold urlUnknown; simpl; unfold urlSignals; rewrite Hurl; simpl;
        rewrite Hleg; reflexivity).
  rewrite Hk in Himp. exact Himp.
Qed.

Lemma insecure_password_page_score_witness :
  JS.ge (confidence (analyze plainURL (page "http://github.com/"))) 0.5 = true.
Proof.
  exact (proj1 (insecure_password_page_score plainURL (page "http://github.com/")
                  {| protocol := "http:"; hostname := "github.com" |}
                  (ex_intro _ passwordBox (conj (or_introl eq_refl) eq_refl))
                  eq_refl eq_refl
                  (ex_intro _ "urgent" (conj (or_intror (or_introl eq_refl)) eq_refl)))).
Defined.

(** C4 (as stated, refuted).  With six contributors the returned list is the
    first five as discovered, [high, high, medium, medium, high]; the five
    highest by severity, ties in discovery order, would list the IP-address
    factor third. *)
Lemma factors_not_in_severity_order :
  List.length (snd (assess plainURL (page "http://192.168.0.1/secure-login"))) = 6 /\
  map rf_type (riskFactors (analyze plainURL (page "http://192.168.0.1/secure-login")))
  = ["password_field"; "insecure_protocol"; "unknown_domain";
     "suspicious_url_pattern"; "ip_address"] /\
  map rf_type
    (firstn 5 (sortBySeverity
                 (snd (assess plainURL (page "http://192.168.0.1/secure-login")))))
  = ["password_field"; "insecure_protocol"; "ip_address";
     "unknown_domain"; "suspicious_url_pattern"] /\
  factors_eqb
    (riskFactors (analyze plainURL (page "http://192.168.0.1/secure-login")))
    (firstn 5 (sortBySeverity
                 (snd (assess plainURL (page "http://192.168.0.1/secure-login")))))
  = false.
Proof.
  vm_compute. repeat split.
Qed.

(** C4 (amended).  The returned factor list is the first five contributors
    in discovery order.  These are always the five highest-severity
    contributors (high before medium before low, ties by discovery order) as
    a collection: the returned list is a permutation of that top five, and
    sorting it by severity gives exactly the top five; but it is listed in
    discovery order, not in severity order. *)
Theorem factors_are_first_five_discovered
    (parseURL : string -> option URL) (input : DetectionInput) :
  let found := snd (assess parseURL input) in
  let returned := riskFactors (analyze parseURL input) in
  returned = firstn 5 found /\
  sortBySeverity returned = firstn 5 (sortBySeverity found) /\
  Permutation returned (firstn 5 (sortBySeverity found)).
Proof.
  intros found returned.
  assert (Hsort : sortBySeverity returned = firstn 5 (sortBySeverity found)).
  { subst found returned. rewrite analyze_predict, assess_signals.
    destruct (signals_in_range parseURL input) as [Hu Hs].
    apply factors_eqb_eq.
    exact (allSignals_spec _ every_signal_ranking _ Hu Hs). }
  split; [reflexivity | split; [exact Hsort |]].
  rewrite <- Hsort. apply Permutation_sym. apply sort_perm.
Qed.

End DetectorProofs.

(** ** The context aggregator *)
Module ContextProofs.
Import Types Context.
Local Open Scope Z_scope.

(** A turn of the risk loop only ever adds. *)
Lemma riskStep_increases (riskScore : Z) (context : UserContext) :
  riskScore <= riskStep riskScore context.
Proof.
  unfold riskStep.
  destruct (longerThan 10 (recentActivity context));
    destruct (longerThan 50 (connections context));
    destruct (platform_eqb (platform context) LINKEDIN); lia.
Qed.

Lemma risk_loop_increases (contexts : list UserContext) (start : Z) :
  start <= fold_left riskStep contexts start.
Proof.
  revert start. induction contexts as [| c rest IH]; intros start; simpl.
  - lia.
  - apply Z.le_trans with (riskStep start c).
    + apply riskStep_increases.
    + apply IH.
Qed.

Lemma profile_from_40 (riskScore : Z) :
  40 <= riskScore -> profileOf riskScore = RiskMedium \/ profileOf riskScore = RiskHigh.
Proof.
  intros H. unfold profileOf.
  destruct (Z.leb_spec 70 riskScore); [right; reflexivity |].
  destruct (Z.leb_spec 40 riskScore); [left; reflexivity | lia].
Qed.

(** A mapping whose every site holds [undefined] has no contexts. *)
Lemma values_of_undefined (sites : list Platform) :
  values (map (fun p => (p, None)) sites) = [].
Proof.
  induction sites as [| p rest IH]; simpl; [reflexivity | exact IH].
Qed.

(** C6.  For the empty mapping the aggregator returns the default analysis:
    risk profile medium, primary site "unknown", no contacts, no topics,
    suggested vectors exactly ["credential_harvest"], personalization score
    0 (and no organizations).  The same holds for a mapping in which every
    site is present but undefined.  [analyze] is a total function: there is
    no input on which it fails. *)
Theorem empty_mapping_gives_default :
  analyze [] =
    {| riskProfile := RiskMedium;
       primaryPlatform := UNKNOWN;
       keyContacts := [];
       topics := [];
       organizations := [];
       suggestedAttackVectors := ["credential_harvest"%string];
       personalizationScore := 0 |}
  /\ platformName (primaryPlatform (analyze [])) = "unknown"%string
  /\ forall sites : list Platform,
       analyze (map (fun p => (p, None)) sites) = getDefaultAnalysis.
Proof.
  split; [reflexivity | split; [reflexivity |]].
  intros sites. unfold analyze. rewrite values_of_undefined. reflexivity.
Qed.

(** C10.  Whatever the mapping, the risk profile of the analysis is medium
    or high and never low: the score of [calculateRiskProfile] starts at 50
    and is only added to, so it stays at or above 50, beyond the 40 points
    that separate medium from low. *)
Theorem risk_profile_never_low (userContexts : UserContexts) :
  (riskProfile (analyze userContexts) = RiskMedium \/
   riskProfile (analyze userContexts) = RiskHigh) /\
  50 <= fold_left riskStep (values userContexts) 50.
Proof.
  split; [| apply risk_loop_increases].
  unfold analyze. destruct (values userContexts) as [| c rest] eqn:E.
  - left. reflexivity.
  - simpl riskProfile. unfold calculateRiskProfile.
    apply profile_from_40.
    pose proof (risk_loop_increases (c :: rest) 50). lia.
Qed.

End ContextProofs.

(** ** The simulation engine *)
Module EngineProofs.
Import Types Engine.
Local Open Scope Z_scope.

(** [generateSimulation] records its clock and counts the simulation. *)
Lemma generateSimulation_records (engine : SimulationEngine) (now : Z) :
  lastSimulationTime (generateSimulation engine now) = now /\
  simulationCount (generateSimulation engine now) = simulationCount engine + 1.
Proof.
  split; reflexivity.
Qed.

(** C3 (as stated, refuted).  Two calls one millisecond apart on a fresh
    engine: the first draws 0.9 and returns false, the second draws 0.1 and
    returns true.  [shouldTriggerSimulation] does not write the time it was
    called at, so nothing links the second call to the first. *)
Lemma second_call_one_ms_later_triggers :
  shouldTriggerSimulation newEngine 1700000000000 0.9 GITHUB (bareContext GITHUB) = false /\
  shouldTriggerSimulation newEngine 1700000000001 0.1 GITHUB (bareContext GITHUB) = true /\
  (1700000000001 - 1700000000000 <? MIN_INTERVAL_MS) = true.
Proof.
  vm_compute. repeat split.
Qed.

(** C3 (amended).  [shouldTriggerSimulation] returns false, whatever the
    context, the site and the random draw, whenever the call comes less than
    300,000 ms after the time recorded by the last [generateSimulation], or
    the count of simulations generated in the session has reached 5. *)
Theorem no_trigger_within_interval_or_at_cap
    (engine : SimulationEngine) (now : Z) (random : float)
    (p : Platform) (context : UserContext) :
  now - lastSimulationTime engine < MIN_INTERVAL_MS \/ 5 <= simulationCount engine ->
  shouldTriggerSimulation engine now random p context = false.
Proof.
  intros H. unfold shouldTriggerSimulation.
  destruct (Z.ltb_spec (now - lastSimulationTime engine) MIN_INTERVAL_MS) as [_ | Hge];
    [reflexivity |].
  destruct (Z.leb_spec 5 (simulationCount engine)) as [_ | Hlt];
    [reflexivity | lia].
Qed.

Lemma no_trigger_within_interval_or_at_cap_witness :
  shouldTriggerSimulation (generateSimulation newEngine 1700000000000) 1700000000001 0.1
    GITHUB (bareContext GITHUB) = false.
Proof.
  apply no_trigger_within_interval_or_at_cap.
  left. reflexivity.
Defined.

(** After a simulation is generated at time [t], every call before
    [t + 300000] is refused. *)
Corollary no_trigger_soon_after_generation
    (engine : SimulationEngine) (t now : Z) (random : float)
    (p : Platform) (context : UserContext) :
  now - t < MIN_INTERVAL_MS ->
  shouldTriggerSimulation (generateSimulation engine t) now random p context = false.
Proof.
  intros H. unfold shouldTriggerSimulation. simpl.
  destruct (Z.ltb_spec (now - t) MIN_INTERVAL_MS); [reflexivity | lia].
Qed.

End EngineProofs.

(** ** The red-team path of the generator *)
Module GeneratorProofs.
Import Types Generator.
Local Open Scope string_scope.

(** For any arguments, two calls differ at most in the generated id and the
    creation time. *)
Lemma red_team_same_up_to_id_and_time
    (a1 a2 : Ambient) (targetUser attackVector : string) (payload : option string) :
  anonymous (generateRedTeamScenario a1 targetUser attackVector payload) =
  anonymous (generateRedTeamScenario a2 targetUser attackVector payload).
Proof.
  reflexivity.
Qed.

Lemma starts_with_itself (k r : string) : JS.startsWith (k ++ r) k = true.
Proof.
  induction k as [| c k IH]; simpl.
  - destruct r; reflexivity.
  - rewrite Ascii.eqb_refl. exact IH.
Qed.

Lemma includes_from_start (s k : string) :
  JS.startsWith s k = true -> JS.includes s k = true.
Proof.
  intros H. destruct s as [| c s].
  - change (JS.startsWith "" k || false = true). rewrite H. reflexivity.
  - change (JS.startsWith (String c s) k || JS.includes s k = true).
    rewrite H. reflexivity.
Qed.

Lemma starts_with_self (k : string) : JS.startsWith k k = true.
Proof.
  induction k as [| c k IH]; simpl; [reflexivity |].
  rewrite Ascii.eqb_refl. exact IH.
Qed.

(** C7.  For every target, attack vector and payload, two calls of the
    red-team generator under any clock readings and random draws return the
    same content, and the same scenario once the generated id and the
    creation time are blanked; the difficulty is expert, the red-team flag is
    true and there are no trigger conditions.  With a non-empty payload the
    title is "Internal: " followed by the payload and the body is "Hi ", the
    target, a comma, a blank line and the payload, so that the body contains
    the payload and the target literally; without a payload, or with an empty
    one, the two fixed texts stand in its place.  For "alice", "Business
    Email Compromise" and "Pay this invoice" this gives the title "Internal:
    Pay this invoice" and the body "Hi alice," + blank line + "Pay this
    invoice". *)
Theorem red_team_plan_is_literal_and_repeatable :
  (forall (a1 a2 : Ambient) (targetUser attackVector : string)
          (payload : option string),
     let s1 := generateRedTeamScenario a1 targetUser attackVector payload in
     let s2 := generateRedTeamScenario a2 targetUser attackVector payload in
     content s1 = content s2 /\
     anonymous s1 = anonymous s2 /\
     difficulty (metadata s1) = Expert /\
     redTeamControlled (metadata s1) = true /\
     triggerConditions s1 = [])
  /\
  (forall (a : Ambient) (targetUser attackVector : string) (c : ascii) (rest : string),
     let payload := String c rest in
     let s := generateRedTeamScenario a targetUser attackVector (Some payload) in
     title (content s) = "Internal: " ++ payload /\
     body (content s) = "Hi " ++ targetUser ++ "," ++ newline ++ newline ++ payload /\
     JS.includes (body (content s)) payload = true /\
     JS.includes (body (content s)) targetUser = true)
  /\
  (forall (a : Ambient) (targetUser attackVector : string),
     let s := generateRedTeamScenario a targetUser attackVector None in
     let s' := generateRedTeamScenario a targetUser attackVector (Some "") in
     title (content s) = "Internal: Action Required" /\
     body (content s) =
       "Hi " ++ targetUser ++ "," ++ newline ++ newline ++
       "Please review the attached document and provide your feedback by EOD." /\
     content s' = content s)
  /\
  (forall a : Ambient,
     let s := generateRedTeamScenario a "alice" "Business Email Compromise"
                (Some "Pay this invoice") in
     title (content s) = "Internal: Pay this invoice" /\
     body (content s) = "Hi alice," ++ newline ++ newline ++ "Pay this invoice").
Proof.
  split; [| split; [| split]].
  - intros a1 a2 targetUser attackVector payload s1 s2. subst s1 s2.
    repeat split.
  - intros a targetUser attackVector c rest payload s. subst s payload.
    cbn [generateRedTeamScenario content title body JS.orStr].
    split; [reflexivity |]. split; [reflexivity |]. split.
    + do 5 apply DetectorProofs.includes_after.
      apply includes_from_start. apply starts_with_self.
    + apply DetectorProofs.includes_after.
      apply includes_from_start. apply starts_with_itself.
  - intros a targetUser attackVector s s'. subst s s'. repeat split.
  - intros a s. subst s. repeat split.
Qed.

End GeneratorProofs.

(** ** Runs of the progression tracker *)
Module TrackerRuns.
Import Types Tracker TrackerHandlers.
Local Open Scope Z_scope.

(** The integer fields after one event are those of the counter switch
    applied to the record with [simulationsSeen] incremented. *)
Lemma handle_counters (now : Z) (s : UserStats) (e : SimulationEvent) :
  let s1 := applyEventType (ev_type e) (withSeen (simulationsSeen s + 1) s) in
  let s' := handleSimulationEvent now s e in
  simulationsSeen s' = simulationsSeen s1 /\
  simulationsClicked s' = simulationsClicked s1 /\
  credentialsEntered s' = credentialsEntered s1 /\
  simulationsDetected s' = simulationsDetected s1 /\
  riskScore s' = riskScore s1.
Proof.
  intros s1 s'. subst s1 s'.
  destruct (TrackerProofs.sample_cases e) as [Hno | [shown [Ht [Hs Hnz]]]].
  - rewrite TrackerProofs.handle_without_sample by exact Hno.
    destruct (ev_type e); repeat split.
  - rewrite (TrackerProofs.handle_with_sample now s e shown Ht Hs Hnz).
    rewrite Ht. repeat split.
Qed.

(** What one event does to the four counters. *)
Lemma one_event_counters (now : Z) (s : UserStats) (e : SimulationEvent) :
  let s' := handleSimulationEvent now s e in
  simulationsSeen s' = simulationsSeen s + 1 /\
  simulationsClicked s <= simulationsClicked s' /\
  credentialsEntered s <= credentialsEntered s' /\
  simulationsDetected s <= simulationsDetected s' /\
  simulationsClicked s' + credentialsEntered s' + simulationsDetected s'
    <= simulationsClicked s + credentialsEntered s + simulationsDetected s + 1.
Proof.
  intros s'. subst s'.
  destruct (handle_counters now s e) as [H1 [H2 [H3 [H4 _]]]].
  rewrite H1, H2, H3, H4. destruct (ev_type e); simpl; repeat split; lia.
Qed.

(** What one event does to the score. *)
Lemma one_event_risk (now : Z) (s : UserStats) (e : SimulationEvent) :
  0 <= riskScore s ->
  let s' := handleSimulationEvent now s e in
  0 <= riskScore s' /\ riskScore s - 30 <= riskScore s' <= riskScore s + 50 /\
  (riskScore s mod 5 = 0 -> riskScore s' mod 5 = 0).
Proof.
  intros Hpos s'. subst s'.
  destruct (handle_counters now s e) as [_ [_ [_ [_ H]]]]. rewrite H.
  destruct (ev_type e); simpl; repeat split; try lia; intros Hm.
  - replace (riskScore s + 25) with (riskScore s + 5 * 5) by lia.
    rewrite Z.mod_add by lia. exact Hm.
  - replace (riskScore s + 50) with (riskScore s + 10 * 5) by lia.
    rewrite Z.mod_add by lia. exact Hm.
  - destruct (Z.max_spec 0 (riskScore s - 20)) as [[_ E] | [_ E]]; rewrite E.
    + replace (riskScore s - 20) with (riskScore s + (-4) * 5) by lia.
      rewrite Z.mod_add by lia. exact Hm.
    + reflexivity.
  - destruct (Z.max_spec 0 (riskScore s - 30)) as [[_ E] | [_ E]]; rewrite E.
    + replace (riskScore s - 30) with (riskScore s + (-6) * 5) by lia.
      rewrite Z.mod_add by lia. exact Hm.
    + reflexivity.
Qed.

Lemma processEvents_app (s : UserStats) (a b : list (Z * SimulationEvent)) :
  processEvents s (a ++ b) = processEvents (processEvents s a) b.
Proof.
  unfold processEvents. apply fold_left_app.
Qed.

(** X1.  Over any run of events, [simulationsSeen] grows by exactly the
    number of events, the other three counters never decrease, and together
    they grow by at most one per event.  Hence, on a run that starts from the
    default record, clicks, credential entries and detections together never
    outnumber the simulations seen. *)
Theorem run_counts_events :
  (forall (s : UserStats) (events : list (Z * SimulationEvent)),
     let s' := processEvents s events in
     let n := Z.of_nat (List.length events) in
     simulationsSeen s' = simulationsSeen s + n /\
     simulationsClicked s <= simulationsClicked s' /\
     credentialsEntered s <= credentialsEntered s' /\
     simulationsDetected s <= simulationsDetected s' /\
     simulationsClicked s' + credentialsEntered s' + simulationsDetected s'
       <= simulationsClicked s + credentialsEntered s + simulationsDetected s + n)
  /\
  (forall (id : string) (now : Z) (events : list (Z * SimulationEvent)),
     let s' := processEvents (createDefaultStats id now) events in
     simulationsClicked s' + credentialsEntered s' + simulationsDetected s'
       <= simulationsSeen s').
Proof.
  assert (G : forall (events : list (Z * SimulationEvent)) (s : UserStats),
     simulationsSeen (processEvents s events)
       = simulationsSeen s + Z.of_nat (List.length events) /\
     simulationsClicked s <= simulationsClicked (processEvents s events) /\
     credentialsEntered s <= credentialsEntered (processEvents s events) /\
     simulationsDetected s <= simulationsDetected (processEvents s events) /\
     simulationsClicked (processEvents s events)
       + credentialsEntered (processEvents s events)
       + simulationsDetected (processEvents s events)
       <= simulationsClicked s + credentialsEntered s + simulationsDetected s
          + Z.of_nat (List.length events)).
  { induction events as [| [now e] rest IH]; intros s.
    - simpl. repeat split; lia.
    - change (processEvents s ((now, e) :: rest))
        with (processEvents (handleSimulationEvent now s e) rest).
      destruct (IH (handleSimulationEvent now s e)) as [A [B [C [D E]]]].
      destruct (one_event_counters now s e) as [A1 [B1 [C1 [D1 E1]]]].
      simpl List.length. rewrite Nat2Z.inj_succ. repeat split; lia. }
  split.
  - intros s events s' n. apply G.
  - intros id now events s'. subst s'.
    destruct (G events (createDefaultStats id now)) as [A [_ [_ [_ E]]]].
    simpl in A, E. lia.
Qed.

(** X2.  From a record whose score is not negative, a run of [n] events
    leaves the score between 0 and the old score plus 50 per event, and not
    more than 30 per event below the old score. *)
Theorem run_risk_window (s : UserStats) (events : list (Z * SimulationEvent)) :
  0 <= riskScore s ->
  let s' := processEvents s events in
  let n := Z.of_nat (List.length events) in
  0 <= riskScore s' /\
  riskScore s - 30 * n <= riskScore s' <= riskScore s + 50 * n.
Proof.
  revert s. induction events as [| [now e] rest IH]; intros s Hpos.
  - simpl. lia.
  - change (processEvents s ((now, e) :: rest))
      with (processEvents (handleSimulationEvent now s e) rest).
    destruct (one_event_risk now s e Hpos) as [H0 [H1 _]].
    specialize (IH (handleSimulationEvent now s e) H0). cbv zeta in IH.
    cbv zeta. simpl List.length. rewrite Nat2Z.inj_succ. lia.
Qed.

Lemma run_risk_window_witness :
  0 <= riskScore
         (processEvents (createDefaultStats "u" 0)
            [(1, plainEvent CREDENTIAL_ENTERED); (2, plainEvent REPORTED_PHISHING)]).
Proof.
  exact (proj1 (run_risk_window (createDefaultStats "u" 0)
                  [(1, plainEvent CREDENTIAL_ENTERED); (2, plainEvent REPORTED_PHISHING)]
                  (Z.lt_le_incl 0 50 eq_refl))).
Defined.

(** X3.  On every run from the default record the score is a multiple of
    5; and the upper end of the window of X2 is reached: [n] credential
    entries in a row give exactly [50 + 50 n], [n] clicks exactly
    [50 + 25 n], so the score has no ceiling. *)
Theorem risk_steps_of_five_without_ceiling :
  (forall (id : string) (now : Z) (events : list (Z * SimulationEvent)),
     riskScore (processEvents (createDefaultStats id now) events) mod 5 = 0)
  /\
  (forall (id : string) (now : Z) (n : nat),
     riskScore (processEvents (createDefaultStats id now) (burst CREDENTIAL_ENTERED n))
       = 50 + 50 * Z.of_nat n /\
     riskScore (processEvents (createDefaultStats id now) (burst LINK_CLICKED n))
       = 50 + 25 * Z.of_nat n).
Proof.
  split.
  - intros id now events.
    assert (G : forall (l : list (Z * SimulationEvent)) (s : UserStats),
              0 <= riskScore s -> riskScore s mod 5 = 0 ->
              riskScore (processEvents s l) mod 5 = 0).
    { induction l as [| [t e] rest IH]; intros s Hpos Hm; [exact Hm |].
      change (processEvents s ((t, e) :: rest))
        with (processEvents (handleSimulationEvent t s e) rest).
      destruct (one_event_risk t s e Hpos) as [H0 [_ H5]].
      apply IH; [exact H0 | apply H5; exact Hm]. }
    apply G; simpl; [lia | reflexivity].
  - intros id now n. induction n as [| k [IHe IHc]].
    + split; reflexivity.
    + change (burst CREDENTIAL_ENTERED (S k))
        with (burst CREDENTIAL_ENTERED k ++ [(Z.of_nat (S k), plainEvent CREDENTIAL_ENTERED)])%list.
      change (burst LINK_CLICKED (S k))
        with (burst LINK_CLICKED k ++ [(Z.of_nat (S k), plainEvent LINK_CLICKED)])%list.
      rewrite !processEvents_app. rewrite Nat2Z.inj_succ.
      split.
      * change (riskScore (processEvents (createDefaultStats id now)
                             (burst CREDENTIAL_ENTERED k)) + 50
                = 50 + 50 * Z.succ (Z.of_nat k)). lia.
      * change (riskScore (processEvents (createDefaultStats id now)
                             (burst LINK_CLICKED k)) + 25
                = 50 + 25 * Z.succ (Z.of_nat k)). lia.
Qed.

(** X4.  A reported-as-phishing simulation event changes the record as
    [handleSuspiciousSiteReport] does, and a credential-entered simulation
    event as [handleCredentialEntry] does, except that the event path also
    counts the event as seen and stamps [lastUpdated]; the two direct
    handlers leave both of these fields as they were. *)
Theorem direct_handlers_match_events
    (now : Z) (s : UserStats) (id sim u : string) (ts : Z) (shown : option Z) :
  handleSimulationEvent now s
    {| ev_id := id; ev_simulationId := sim; ev_type := REPORTED_PHISHING;
       ev_timestamp := ts; ev_url := u; ev_shownAt := shown |}
  = withUpdated now (withSeen (simulationsSeen s + 1) (handleSuspiciousSiteReport s)) /\
  handleSimulationEvent now s
    {| ev_id := id; ev_simulationId := sim; ev_type := CREDENTIAL_ENTERED;
       ev_timestamp := ts; ev_url := u; ev_shownAt := shown |}
  = withUpdated now (withSeen (simulationsSeen s + 1) (handleCredentialEntry s)) /\
  simulationsSeen (handleSuspiciousSiteReport s) = simulationsSeen s /\
  lastUpdated (handleSuspiciousSiteReport s) = lastUpdated s /\
  simulationsSeen (handleCredentialEntry s) = simulationsSeen s /\
  lastUpdated (handleCredentialEntry s) = lastUpdated s.
Proof.
  repeat split.
Qed.

(** X5.  Once a credential entry has been handled on a record whose score
    was not negative, the popup words the score as Medium Risk or High Risk
    (class "warning" or "danger"), never as Low Risk; and the class always
    goes with the label. *)
Theorem credential_entry_is_never_low_risk
    (now : Z) (s : UserStats) (e : SimulationEvent) :
  0 <= riskScore s -> ev_type e = CREDENTIAL_ENTERED ->
  let r := riskScore (handleSimulationEvent now s e) in
  (Popup.getRiskLabel r = "Medium Risk"%string /\ Popup.getRiskClass r = "warning"%string) \/
  (Popup.getRiskLabel r = "High Risk"%string /\ Popup.getRiskClass r = "danger"%string).
Proof.
  intros Hpos Ht r. subst r.
  destruct (handle_counters now s e) as [_ [_ [_ [_ H]]]]. rewrite H, Ht. simpl.
  unfold Popup.getRiskLabel, Popup.getRiskClass.
  destruct (Z.ltb_spec (riskScore s + 50) 30) as [L | _]; [lia |].
  destruct (Z.ltb_spec (riskScore s + 50) 70); [left | right]; split; reflexivity.
Qed.

Lemma credential_entry_is_never_low_risk_witness :
  Popup.getRiskLabel
    (riskScore (handleSimulationEvent 1 (createDefaultStats "u" 0)
                  (plainEvent CREDENTIAL_ENTERED))) = "High Risk"%string.
Proof.
  destruct (credential_entry_is_never_low_risk 1 (createDefaultStats "u" 0)
              (plainEvent CREDENTIAL_ENTERED) (Z.lt_le_incl 0 50 eq_refl) eq_refl)
    as [[H _] | [H _]].
  - discriminate H.
  - exact H.
Defined.

End TrackerRuns.

(** ** More on the context aggregator *)
Module ContextFacts.
Import Types Context ContextMeasures.
Local Open Scope Z_scope.

(** *** [Array.from(new Set(...))] *)

Lemma seen_spec (x : string) (seen : list string) :
  existsb (String.eqb x) seen = true <-> In x seen.
Proof.
  rewrite existsb_exists. split.
  - intros [y [Hin Heq]]. apply String.eqb_eq in Heq. subst y. exact Hin.
  - intros Hin. exists x. split; [exact Hin | apply String.eqb_refl].
Qed.

Lemma uniqueInto_In (l seen : list string) (x : string) :
  In x (JS.uniqueInto seen l) <-> In x l /\ ~ In x seen.
Proof.
  revert seen. induction l as [| y r IH]; intros seen; simpl.
  - tauto.
  - destruct (existsb (String.eqb y) seen) eqn:E.
    + apply seen_spec in E. rewrite IH. split.
      * intros [Hr Hn]. split; [right; exact Hr | exact Hn].
      * intros [[Hy | Hr] Hn]; [subst y; contradiction | split; assumption].
    + assert (Hny : ~ In y seen).
      { intros Hin. apply seen_spec in Hin. rewrite Hin in E. discriminate E. }
      simpl. rewrite IH. simpl. split.
      * intros [Hy | [Hr Hn]].
        -- subst y. split; [left; reflexivity | exact Hny].
        -- split; [right; exact Hr | tauto].
      * intros [[Hy | Hr] Hn].
        -- left. exact Hy.
        -- destruct (string_dec y x) as [Heq | Hneq]; [left; exact Heq |].
           right. split; [exact Hr |]. intros [H | H]; [contradiction | contradiction].
Qed.

Lemma uniqueInto_NoDup (l seen : list string) : NoDup (JS.uniqueInto seen l).
Proof.
  revert seen. induction l as [| y r IH]; intros seen; simpl.
  - constructor.
  - destruct (existsb (String.eqb y) seen); [apply IH |].
    constructor; [| apply IH].
    intros Hin. apply uniqueInto_In in Hin. destruct Hin as [_ Hn].
    apply Hn. left. reflexivity.
Qed.

Lemma unique_In (l : list string) (x : string) : In x (JS.unique l) <-> In x l.
Proof.
  unfold JS.unique. rewrite uniqueInto_In. simpl. tauto.
Qed.

Lemma unique_NoDup (l : list string) : NoDup (JS.unique l).
Proof.
  apply uniqueInto_NoDup.
Qed.

(** *** Attack vectors *)

Lemma site_absent (p : Platform) (contexts : list UserContext) :
  existsb (platform_eqb p) (map platform contexts) = false <->
  forall c, In c contexts -> platform c <> p.
Proof.
  induction contexts as [| c r IH]; simpl.
  - split; [intros _ c [] | reflexivity].
  - rewrite orb_false_iff, IH. split.
    + intros [Hc Hr] d [Hd | Hd].
      * subst d. intros E. rewrite E in Hc. destruct p; discriminate Hc.
      * apply Hr. exact Hd.
    + intros H. split.
      * specialize (H c (or_introl eq_refl)).
        destruct p, (platform c); try reflexivity; exfalso; apply H; reflexivity.
      * intros d Hd. apply H. right. exact Hd.
Qed.

(** X6.  The suggested attack vectors hold no duplicates and come from five
    fixed names; the list is empty exactly when every context is of site
    "unknown", and otherwise it contains "credential_harvest".  So a mapping
    that holds contexts, all of site "unknown", gets an analysis with no
    suggested vector at all: the default ["credential_harvest"] is only used
    when the mapping holds no context. *)
Theorem attack_vectors_follow_sites :
  (forall contexts : list UserContext,
     let v := suggestAttackVectors contexts in
     NoDup v /\
     incl v ["oauth_grant"; "credential_harvest"; "session_hijack";
             "connection_impersonation"; "mfa_bypass"]%string /\
     (v = [] <-> forall c, In c contexts -> platform c = UNKNOWN) /\
     (v = [] \/ In "credential_harvest"%string v))
  /\
  (forall (p : Platform) (n : nat),
     suggestedAttackVectors
       (analyze (repeat (p, Some (siteOnly UNKNOWN)) (S n))) = []).
Proof.
  split.
  - intros contexts v. subst v. unfold suggestAttackVectors.
    destruct (existsb (platform_eqb GITHUB) (map platform contexts)) eqn:G;
    destruct (existsb (platform_eqb LINKEDIN) (map platform contexts)) eqn:L;
    destruct (existsb (platform_eqb GMAIL) (map platform contexts)) eqn:M;
    (split; [apply unique_NoDup |]);
    (split; [intros x Hx; apply unique_In in Hx; simpl in Hx; simpl; tauto |]);
    (split; [| vm_compute; tauto]).
    8: { split; [intros _ | reflexivity].
         intros c Hc.
         pose proof (proj1 (site_absent _ _) G c Hc).
         pose proof (proj1 (site_absent _ _) L c Hc).
         pose proof (proj1 (site_absent _ _) M c Hc).
         destruct (platform c); congruence. }
    all: split; [intros E; vm_compute in E; discriminate E |].
    all: intros H; exfalso.
    all: try (apply existsb_exists in G; destruct G as [q [Hq Eq]];
              apply in_map_iff in Hq; destruct Hq as [c [Hc Hin]];
              rewrite (H c Hin) in Hc; subst q; discriminate Eq).
    all: try (apply existsb_exists in L; destruct L as [q [Hq Eq]];
              apply in_map_iff in Hq; destruct Hq as [c [Hc Hin]];
              rewrite (H c Hin) in Hc; subst q; discriminate Eq).
    all: try (apply existsb_exists in M; destruct M as [q [Hq Eq]];
              apply in_map_iff in Hq; destruct Hq as [c [Hc Hin]];
              rewrite (H c Hin) in Hc; subst q; discriminate Eq).
  - intros p n. unfold analyze.
    assert (V : values (repeat (p, Some (siteOnly UNKNOWN)) (S n))
                = repeat (siteOnly UNKNOWN) (S n)).
    { induction n as [| k IH]; [reflexivity |].
      change (values (repeat (p, Some (siteOnly UNKNOWN)) (S (S k))))
        with (siteOnly UNKNOWN :: values (repeat (p, Some (siteOnly UNKNOWN)) (S k))).
      rewrite IH. reflexivity. }
    rewrite V. simpl repeat. cbv iota beta. simpl suggestedAttackVectors.
    unfold suggestAttackVectors.
    assert (A : forall q, q <> UNKNOWN ->
              existsb (platform_eqb q)
                (map platform (siteOnly UNKNOWN :: repeat (siteOnly UNKNOWN) n)) = false).
    { intros q Hq. apply site_absent. intros c Hc.
      assert (c = siteOnly UNKNOWN) as ->.
      { destruct Hc as [Hc | Hc]; [symmetry; exact Hc |].
        apply repeat_spec in Hc. exact Hc. }
      simpl. intros E. apply Hq. symmetry. exact E. }
    rewrite (A GITHUB), (A LINKEDIN), (A GMAIL) by discriminate. reflexivity.
Qed.

(** *** The risk profile *)

Lemma risk_loop_total (contexts : list UserContext) (start : Z) :
  fold_left riskStep contexts start = start + totalExposure contexts.
Proof.
  revert start. induction contexts as [| c r IH]; intros start; simpl.
  - lia.
  - rewrite IH. unfold riskStep, exposure.
    destruct (longerThan 10 (recentActivity c));
      destruct (longerThan 50 (connections c));
      destruct (platform_eqb (platform c) LINKEDIN); lia.
Qed.

Lemma exposure_range (c : UserContext) : 0 <= exposure c <= 25.
Proof.
  unfold exposure.
  destruct (longerThan 10 (recentActivity c));
    destruct (longerThan 50 (connections c));
    destruct (platform_eqb (platform c) LINKEDIN); lia.
Qed.

(** X7.  The risk profile is decided by the total of what the contexts add
    to the base score: it is high exactly when that total reaches 20, and
    medium otherwise.  For a single context this means: high exactly when
    the site shows more than 10 recent activities and more than 50
    connections; being a LinkedIn context never decides it. *)
Theorem risk_profile_by_exposure :
  (forall contexts : list UserContext,
     (20 <= totalExposure contexts -> calculateRiskProfile contexts = RiskHigh) /\
     (totalExposure contexts < 20 -> calculateRiskProfile contexts = RiskMedium))
  /\
  (forall c : UserContext,
     calculateRiskProfile [c] =
       if longerThan 10 (recentActivity c) && longerThan 50 (connections c)
       then RiskHigh else RiskMedium).
Proof.
  assert (G : forall contexts,
             (20 <= totalExposure contexts -> calculateRiskProfile contexts = RiskHigh) /\
             (totalExposure contexts < 20 -> calculateRiskProfile contexts = RiskMedium)).
  { intros contexts. unfold calculateRiskProfile. rewrite risk_loop_total.
    assert (P : 0 <= totalExposure contexts).
    { induction contexts as [| c r IH]; simpl; [lia |].
      pose proof (exposure_range c). lia. }
    unfold profileOf. split; intros H.
    - destruct (Z.leb_spec 70 (50 + totalExposure contexts)); [reflexivity | lia].
    - destruct (Z.leb_spec 70 (50 + totalExposure contexts)); [lia |].
      destruct (Z.leb_spec 40 (50 + totalExposure contexts)); [reflexivity | lia]. }
  split; [exact G |].
  intros c. destruct (G [c]) as [Hh Hm]. simpl in Hh, Hm. unfold exposure in Hh, Hm.
  destruct (longerThan 10 (recentActivity c));
    destruct (longerThan 50 (connections c));
    destruct (platform_eqb (platform c) LINKEDIN); simpl;
    first [apply Hh; lia | apply Hm; lia].
Qed.


(** *** The primary site *)

Lemma counts_after (contexts : list UserContext) (g l m u : Z) :
  fold_left (fun counts c => addCount (platform c) (activityCount c) counts)
    contexts [(GITHUB, g); (LINKEDIN, l); (GMAIL, m); (UNKNOWN, u)]
  = [(GITHUB, g + activityOn GITHUB contexts);
     (LINKEDIN, l + activityOn LINKEDIN contexts);
     (GMAIL, m + activityOn GMAIL contexts);
     (UNKNOWN, u + activityOn UNKNOWN contexts)].
Proof.
  revert g l m u. induction contexts as [| c r IH]; intros g l m u.
  - simpl. rewrite !Z.add_0_r. reflexivity.
  - simpl fold_left. unfold activityOn; simpl fold_right; fold (activityOn GITHUB r);
      fold (activityOn LINKEDIN r); fold (activityOn GMAIL r); fold (activityOn UNKNOWN r).
    destruct (platform c); simpl; rewrite IH;
      repeat match goal with
             | |- (?a :: _) = (?b :: _) => f_equal
             | |- (?p, _) = (?p, _) => f_equal
             end; lia.
Qed.

Lemma activityOn_nonneg (p : Platform) (contexts : list UserContext) :
  0 <= activityOn p contexts.
Proof.
  induction contexts as [| c r IH]; simpl; [lia |].
  unfold activityCount.
  destruct (platform_eqb (platform c) p); destruct (recentActivity c); lia.
Qed.

(** X8.  The primary site is one with the most recorded activity, and
    among equally busy sites the first in the order github, linkedin, gmail,
    unknown.  In particular, when no context records any activity, the
    primary site is github, whatever the sites of the contexts are. *)
Theorem primary_site_is_busiest (contexts : list UserContext) (p : Platform) :
  let w := determinePrimaryPlatform contexts in
  activityOn p contexts <= activityOn w contexts /\
  (activityOn p contexts = activityOn w contexts -> declared w <= declared p) /\
  ((forall q, activityOn q contexts = 0) -> w = GITHUB).
Proof.
  intros w. subst w. unfold determinePrimaryPlatform. rewrite counts_after.
  rewrite !Z.add_0_l.
  set (g := activityOn GITHUB contexts). set (l := activityOn LINKEDIN contexts).
  set (m := activityOn GMAIL contexts). set (u := activityOn UNKNOWN contexts).
  assert (Hp : activityOn p contexts =
               match p with GITHUB => g | LINKEDIN => l | GMAIL => m | UNKNOWN => u end)
    by (destruct p; reflexivity).
  rewrite Hp. clear Hp.
  assert (Hz : (forall q, activityOn q contexts = 0) -> g = 0 /\ l = 0 /\ m = 0 /\ u = 0).
  { intros H. repeat split; apply H. }
  unfold JS.sort. simpl.
  repeat match goal with
         | |- context [Z.ltb ?x ?y] => destruct (Z.ltb_spec x y); simpl
         end;
    (split; [| split];
     [ destruct p; subst g l m u; simpl; lia
     | destruct p; subst g l m u; simpl; intros; lia
     | intros Hall; destruct (Hz Hall) as [? [? [? ?]]];
       first [reflexivity | exfalso; lia] ]).
Qed.

(** *** Topics *)

Lemma bumpTopic_keys (t : string) (scores : list (string * Z)) (x : string) :
  In x (map fst (bumpTopic t scores)) -> In x (map fst scores) \/ x = t.
Proof.
  induction scores as [| e r IH]; simpl.
  - intros [H | []]. right. symmetry. exact H.
  - destruct (String.eqb (fst e) t); simpl.
    + intros [H | H]; [left; left; exact H | left; right; exact H].
    + intros [H | H]; [left; left; exact H |].
      destruct (IH H) as [H' | H']; [left; right; exact H' | right; exact H'].
Qed.

Lemma bumpTopic_tidy (t : string) (scores : list (string * Z)) :
  In t topicNames -> tidy scores -> tidy (bumpTopic t scores).
Proof.
  intros Ht [Hnd Hin]. split.
  - clear Hin. induction scores as [| e r IH]; simpl.
    + constructor; [intros [] | constructor].
    + inversion Hnd as [| k ks Hk Hks]; subst.
      destruct (String.eqb_spec (fst e) t) as [E | N]; simpl.
      * constructor; assumption.
      * constructor; [| apply IH; exact Hks].
        intros H. apply bumpTopic_keys in H. destruct H as [H | H]; [contradiction |].
        apply N. exact H.
  - intros x Hx. apply bumpTopic_keys in Hx. destruct Hx as [Hx | Hx].
    + apply Hin. exact Hx.
    + subst x. exact Ht.
Qed.

Lemma fold_left_keeps {A B : Type} (P : A -> Prop) (Q : B -> Prop)
    (f : A -> B -> A) (l : list B) (a : A) :
  (forall a b, P a -> Q b -> P (f a b)) -> Forall Q l -> P a -> P (fold_left f l a).
Proof.
  intros Hf Hl. revert a. induction Hl as [| b r Hb Hr IH]; intros a Ha; simpl.
  - exact Ha.
  - apply IH. apply Hf; assumption.
Qed.

Lemma scoreActivity_tidy (scores : list (string * Z)) (activity : Activity) :
  tidy scores -> tidy (scoreActivity scores activity).
Proof.
  intros H. unfold scoreActivity.
  apply (fold_left_keeps tidy (fun tk => In (fst tk) topicNames)); [| | exact H].
  - intros sc tk Hsc Htk.
    apply (fold_left_keeps tidy (fun _ => True)); [| | exact Hsc].
    + intros sc' kw Hsc' _.
      destruct (JS.includes (JS.toLowerCase (act_content activity)) kw);
        [apply bumpTopic_tidy; assumption | exact Hsc'].
    + apply Forall_forall. intros; exact I.
  - apply Forall_forall. intros tk Htk. unfold topicNames. apply in_map. exact Htk.
Qed.

Lemma firstn_In {A : Type} (n : nat) (l : list A) (x : A) :
  In x (firstn n l) -> In x l.
Proof.
  revert n. induction l as [| y r IH]; intros n H.
  - rewrite firstn_nil in H. exact H.
  - destruct n as [| k]; simpl in H; [destruct H |].
    destruct H as [H | H]; [left; exact H | right; apply (IH k); exact H].
Qed.

Lemma NoDup_firstn {A : Type} (n : nat) (l : list A) : NoDup l -> NoDup (firstn n l).
Proof.
  revert n. induction l as [| x r IH]; intros n H.
  - rewrite firstn_nil. constructor.
  - destruct n as [| k]; simpl; [constructor |].
    inversion H as [| y ys Hx Hr]; subst. constructor; [| apply IH; exact Hr].
    intros Hin. apply Hx. apply (firstn_In k r x Hin).
Qed.

(** X9.  The topics of an analysis are at most three, pairwise different,
    and each is one of the five category names security, development,
    business, cloud, data. *)
Theorem topics_are_three_categories (contexts : list UserContext) :
  (List.length (extractTopics contexts) <= 3)%nat /\
  NoDup (extractTopics contexts) /\
  incl (extractTopics contexts)
       ["security"; "development"; "business"; "cloud"; "data"]%string.
Proof.
  unfold extractTopics.
  set (scores := fold_left _ contexts []).
  assert (T : tidy scores).
  { subst scores.
    apply (fold_left_keeps tidy (fun _ => True)).
    - intros sc c Hsc _. destruct (recentActivity c) as [acts |]; [| exact Hsc].
      apply (fold_left_keeps tidy (fun _ => True)); [| | exact Hsc].
      + intros sc' a Hsc' _. apply scoreActivity_tidy. exact Hsc'.
      + apply Forall_forall. intros; exact I.
    - apply Forall_forall. intros; exact I.
    - split; [constructor | intros x []]. }
  set (sorted := JS.sort _ scores).
  assert (P : Permutation (map fst sorted) (map fst scores))
    by (apply Permutation_map; apply DetectorProofs.sort_perm).
  destruct T as [Tn Ti].
  rewrite <- firstn_map. split; [| split].
  - apply firstn_le_length.
  - apply NoDup_firstn. apply (Permutation_NoDup (Permutation_sym P)). exact Tn.
  - intros x Hx. apply firstn_In in Hx.
    apply (Ti x). apply (Permutation_in x P). exact Hx.
Qed.

(** *** Key contacts *)

Lemma unique_length (l seen : list string) :
  (List.length (JS.uniqueInto seen l) <= List.length l)%nat.
Proof.
  revert seen. induction l as [| x r IH]; intros seen; simpl; [lia |].
  destruct (existsb (String.eqb x) seen); simpl.
  - specialize (IH seen). lia.
  - specialize (IH (x :: seen)). lia.
Qed.

Lemma leadingNames_length (c : UserContext) : (List.length (leadingNames c) <= 5)%nat.
Proof.
  unfold leadingNames. destruct (connections c) as [l |]; [| simpl; lia].
  rewrite length_map. apply firstn_le_length.
Qed.

(** X10.  The key contacts hold no duplicates; a name is a key contact
    exactly when it is the name of one of the first five connections of some
    context; so there are at most five per context, and not five in all. *)
Theorem key_contacts_are_leading_connections (contexts : list UserContext) :
  NoDup (extractKeyContacts contexts) /\
  (forall x, In x (extractKeyContacts contexts) <->
             exists c, In c contexts /\ In x (leadingNames c)) /\
  (List.length (extractKeyContacts contexts) <= 5 * List.length contexts)%nat.
Proof.
  change (extractKeyContacts contexts) with (JS.unique (flat_map leadingNames contexts)).
  split; [apply unique_NoDup | split].
  - intros x. rewrite unique_In, in_flat_map. tauto.
  - apply Nat.le_trans with (List.length (flat_map leadingNames contexts)).
    + apply unique_length.
    + induction contexts as [| c r IH]; simpl; [lia |].
      rewrite length_app. pose proof (leadingNames_length c). lia.
Qed.

End ContextFacts.

(** ** More on the risk detector *)
Module DetectorFacts.
Import Types Detector DetectorSignals Guidance DetectorChecks.
Import DetectorProofs.
Local Open Scope string_scope.

Lemma every_signal_shape : allSignals checkShape = true.
Proof. vm_compute. reflexivity. Qed.

Lemma every_signal_invalid : allSignals checkInvalid = true.
Proof. vm_compute. reflexivity. Qed.

Lemma every_signal_more_fields : allSignals checkMoreFields = true.
Proof. vm_compute. reflexivity. Qed.

Lemma every_signal_login : allSignals checkLogin = true.
Proof. vm_compute. reflexivity. Qed.

Lemma every_signal_advice : allSignals checkAdvice = true.
Proof. vm_compute. reflexivity. Qed.

Lemma distinct_NoDup (l : list string) : distinct l = true -> NoDup l.
Proof.
  induction l as [| x r IH]; simpl; intros H.
  - constructor.
  - apply andb_true_iff in H. destruct H as [Hx Hr].
    constructor; [| apply IH; exact Hr].
    intros Hin. apply negb_true_iff in Hx.
    assert (E : existsb (String.eqb x) r = true).
    { apply existsb_exists. exists x. split; [exact Hin | apply String.eqb_refl]. }
    rewrite E in Hx. discriminate Hx.
Qed.

Lemma checked (P : Signals -> bool) (parseURL : string -> option URL)
    (input : DetectionInput) :
  allSignals P = true -> P (signalsOf parseURL input) = true.
Proof.
  intros H. destruct (signals_in_range parseURL input) as [Hu Hs].
  exact (allSignals_spec P H _ Hu Hs).
Qed.

(** X11.  Every assessment is well formed: the confidence lies between 0
    and 1, there are at most five factors and no two of them are of the same
    kind; when a password-capable field is present the first factor is
    "password_field", and otherwise no factor of that kind is returned. *)
Theorem assessment_is_well_formed
    (parseURL : string -> option URL) (input : DetectionInput) :
  let r := analyze parseURL input in
  JS.ge (confidence r) 0 = true /\
  JS.ge 1 (confidence r) = true /\
  List.length (riskFactors r) <= 5 /\
  NoDup (map rf_type (riskFactors r)) /\
  (if hasPasswordField input
   then headIs "password_field" (riskFactors r) = true
   else hasFactor "password_field" (riskFactors r) = false).
Proof.
  intros r. subst r. rewrite analyze_predict.
  pose proof (checked _ parseURL input every_signal_shape) as H.
  unfold checkShape in H. cbv zeta in H.
  apply andb_true_iff in H. destruct H as [H H5].
  apply andb_true_iff in H. destruct H as [H H4].
  apply andb_true_iff in H. destruct H as [H H3].
  apply andb_true_iff in H. destruct H as [H1 H2].
  repeat split; try assumption.
  - apply Nat.leb_le. exact H3.
  - apply distinct_NoDup. exact H4.
  - change (sPassword (signalsOf parseURL input)) with (hasPasswordField input) in H5.
    destruct (hasPasswordField input); [exact H5 | apply negb_true_iff; exact H5].
Qed.

(** X12.  An address that the browser cannot parse is a signal, not a
    failure: the assessment then carries a high-severity "invalid_url"
    factor and a confidence of at least 0.3, and none of the factors that
    need a parsed address (insecure protocol, unknown domain, suspicious
    pattern, IP address, shortener). *)
Theorem unparsable_address_is_a_factor
    (parseURL : string -> option URL) (input : DetectionInput) :
  parseURL (url input) = None ->
  let r := analyze parseURL input in
  highFactor "invalid_url" (riskFactors r) = true /\
  JS.ge (confidence r) 0.3 = true /\
  hasFactor "insecure_protocol" (riskFactors r) = false /\
  hasFactor "unknown_domain" (riskFactors r) = false /\
  hasFactor "suspicious_url_pattern" (riskFactors r) = false /\
  hasFactor "ip_address" (riskFactors r) = false /\
  hasFactor "url_shortener" (riskFactors r) = false.
Proof.
  intros Hnone r. subst r. rewrite analyze_predict.
  pose proof (checked _ parseURL input every_signal_invalid) as H.
  unfold checkInvalid in H. cbv zeta in H.
  assert (F : urlFailed (signalsOf parseURL input) = true)
    by (unfold urlFailed; simpl; unfold urlSignals; rewrite Hnone; reflexivity).
  rewrite F in H. simpl implb in H.
  repeat (apply andb_true_iff in H; destruct H as [H ?]).
  repeat split; try assumption; apply negb_true_iff; assumption.
Qed.

Lemma unparsable_address_is_a_factor_witness :
  JS.ge (confidence (analyze plainURL (page "not an address"))) 0.3 = true.
Proof.
  exact (proj1 (proj2 (unparsable_address_is_a_factor plainURL
                         (page "not an address") eq_refl))).
Defined.

(** X13.  Adding a form field to an input never lowers the confidence and
    never turns a positive verdict into a negative one. *)
Theorem more_fields_never_lower_the_risk
    (parseURL : string -> option URL) (input : DetectionInput) (f : FormField) :
  JS.ge (confidence (analyze parseURL (withField f input)))
        (confidence (analyze parseURL input)) = true /\
  (isCredentialEntry (analyze parseURL input) = true ->
   isCredentialEntry (analyze parseURL (withField f input)) = true).
Proof.
  rewrite !analyze_predict.
  pose proof (checked _ parseURL input every_signal_more_fields) as H.
  unfold checkMoreFields in H.
  pose proof (allBool_spec _ H (isPassword f)) as H1. cbv beta in H1.
  pose proof (allBool_spec _ H1
                (String.eqb (ff_type f) "email" ||
                 existsb (JS.testI (ff_name f)) usernamePatterns)) as H2.
  cbv beta zeta in H2.
  assert (E : signalsOf parseURL (withField f input)
              = withFieldTests
                  (isPassword f || sPassword (signalsOf parseURL input))
                  (String.eqb (ff_type f) "email" ||
                   existsb (JS.testI (ff_name f)) usernamePatterns ||
                   sUsername (signalsOf parseURL input))
                  (signalsOf parseURL input)) by reflexivity.
  rewrite E. apply andb_true_iff in H2. destruct H2 as [Hc Hv].
  split; [exact Hc |].
  intros Hold. rewrite Hold in Hv. exact Hv.
Qed.

(** X14.  A form that [isLoginForm] accepts has both a password and a
    username signal for [analyze]: its assessment has a confidence of at
    least 0.35 and "password_field" as its first factor. *)
Theorem login_form_scores_at_least_035
    (parseURL : string -> option URL) (input : DetectionInput) :
  isLoginForm (formFields input) = true ->
  JS.ge (confidence (analyze parseURL input)) 0.35 = true /\
  headIs "password_field" (riskFactors (analyze parseURL input)) = true.
Proof.
  intros Hlogin. rewrite analyze_predict.
  pose proof (checked _ parseURL input every_signal_login) as H.
  unfold checkLogin in H.
  unfold isLoginForm in Hlogin. cbv zeta in Hlogin.
  apply andb_true_iff in Hlogin. destruct Hlogin as [Hpw Hus].
  assert (Hp : sPassword (signalsOf parseURL input) = true) by exact Hpw.
  assert (Hu : sUsername (signalsOf parseURL input) = true).
  { simpl. unfold hasUsernameField.
    apply existsb_exists in Hus. destruct Hus as [f [Hin Hf]].
    apply existsb_exists. exists f. split; [exact Hin |].
    apply orb_true_iff in Hf. apply orb_true_iff. destruct Hf as [Hf | Hf].
    - left. exact Hf.
    - right. apply andb_true_iff in Hf. tauto. }
  rewrite Hp, Hu in H. simpl implb in H.
  apply andb_true_iff in H. exact H.
Qed.

Lemma login_form_scores_at_least_035_witness :
  JS.ge (confidence (analyze plainURL
                       (withField emailBox (page "https://github.com/login")))) 0.35
  = true.
Proof.
  exact (proj1 (login_form_scores_at_least_035 plainURL
                  (withField emailBox (page "https://github.com/login")) eq_refl)).
Defined.

(** *** Recommendations *)

Lemma advice_from_factor (text kind : string) (factors : list RiskFactor) :
  (forall f, In text (adviceFor f) <-> rf_type f = kind) ->
  In text (flat_map adviceFor factors) <-> hasFactor kind factors = true.
Proof.
  intros Hk. rewrite in_flat_map. unfold hasFactor. rewrite existsb_exists.
  split; intros [f [Hin Hf]]; exists f; split; try exact Hin.
  - apply String.eqb_eq. apply Hk. exact Hf.
  - apply Hk. apply String.eqb_eq. exact Hf.
Qed.

Lemma adviceFor_cases (f : RiskFactor) :
  (In "Never enter passwords on non-HTTPS sites." (adviceFor f)
     <-> rf_type f = "insecure_protocol") /\
  (In "Double-check you are on the legitimate website." (adviceFor f)
     <-> rf_type f = "unknown_domain") /\
  (In "Be suspicious of urgent requests." (adviceFor f)
     <-> rf_type f = "urgency_language").
Proof.
  unfold adviceFor.
  destruct (String.eqb_spec (rf_type f) "insecure_protocol") as [E1 | N1].
  - rewrite E1. simpl. repeat split; intros H;
      try (destruct H as [H | []]); try discriminate H; auto.
  - destruct (String.eqb_spec (rf_type f) "unknown_domain") as [E2 | N2].
    + rewrite E2. simpl. repeat split; intros H;
        try (destruct H as [H | []]); try discriminate H; auto.
    + destruct (String.eqb_spec (rf_type f) "urgency_language") as [E3 | N3].
      * rewrite E3. simpl. repeat split; intros H;
          try (destruct H as [H | []]); try discriminate H; auto.
      * simpl. repeat split; intros H; try destruct H; contradiction.
Qed.

(** X15.  For any prediction, each piece of factor advice is given exactly
    when its factor is in the list: "Never enter passwords on non-HTTPS
    sites." for "insecure_protocol", "Double-check you are on the legitimate
    website." for "unknown_domain", "Be suspicious of urgent requests." for
    "urgency_language". *)
Theorem advice_matches_factors (prediction : MLPrediction) :
  (In "Never enter passwords on non-HTTPS sites." (getRecommendations prediction)
     <-> hasFactor "insecure_protocol" (riskFactors prediction) = true) /\
  (In "Double-check you are on the legitimate website." (getRecommendations prediction)
     <-> hasFactor "unknown_domain" (riskFactors prediction) = true) /\
  (In "Be suspicious of urgent requests." (getRecommendations prediction)
     <-> hasFactor "urgency_language" (riskFactors prediction) = true).
Proof.
  unfold getRecommendations.
  repeat split; intros H.
  all: try (apply in_app_or in H; destruct H as [H | H];
            [ destruct (JS.gt (confidence prediction) 0.8);
              [| destruct (JS.gt (confidence prediction) 0.5)];
              simpl in H; repeat (destruct H as [H | H]; try discriminate H);
              contradiction
            | revert H ]).
  all: try (apply in_or_app; right; revert H).
  all: apply advice_from_factor; intros f; apply adviceFor_cases.
Qed.

(** X16.  The recommendations for an assessment of [analyze] are at most
    five; and whenever the verdict is positive they open with one of the two
    general warnings (the strong pair or the cautious pair). *)
Theorem positive_verdict_comes_with_a_warning
    (parseURL : string -> option URL) (input : DetectionInput) :
  let recs := getRecommendations (analyze parseURL input) in
  List.length recs <= 5 /\
  (isCredentialEntry (analyze parseURL input) = true ->
   exists rest,
     recs = "This page shows strong signs of a phishing attempt."
            :: "Do not enter any credentials." :: rest \/
     recs = "Exercise caution on this page."
            :: "Verify the URL is correct before entering credentials." :: rest).
Proof.
  intros recs. subst recs. rewrite analyze_predict.
  pose proof (checked _ parseURL input every_signal_advice) as H.
  unfold checkAdvice in H. cbv zeta in H.
  apply andb_true_iff in H. destruct H as [Hlen Hv].
  split; [apply Nat.leb_le; exact Hlen |].
  intros Hpos. rewrite Hpos in Hv. simpl implb in Hv.
  destruct (getRecommendations (predict (signalsOf parseURL input)))
    as [| a [| b rest]]; try discriminate Hv.
  exists rest. apply orb_true_iff in Hv.
  destruct Hv as [Hv | Hv]; apply andb_true_iff in Hv; destruct Hv as [Ha Hb];
    apply String.eqb_eq in Ha; apply String.eqb_eq in Hb; subst a b; auto.
Qed.

(** *** The allow-list *)

Lemma endsWith_spec (s p : string) :
  JS.endsWith s p = true <-> exists a, s = a ++ p.
Proof.
  split.
  - induction s as [| c r IH]; intros H.
    + destruct p as [| c p]; [exists ""; reflexivity | discriminate H].
    + change (String.eqb (String c r) p || JS.endsWith r p = true) in H.
      apply orb_true_iff in H. destruct H as [H | H].
      * apply String.eqb_eq in H. exists "". exact H.
      * destruct (IH H) as [a Ha]. exists (String c a). simpl. rewrite Ha. reflexivity.
  - intros [a Ha]. subst s. induction a as [| c a IH].
    + destruct p as [| c p]; [reflexivity |].
      change (String.eqb (String c p) (String c p) || JS.endsWith p (String c p) = true).
      rewrite String.eqb_refl. reflexivity.
    + change (String.eqb (String c (a ++ p)) p || JS.endsWith (a ++ p) p = true).
      rewrite IH. apply orb_true_r.
Qed.

(** X17.  A host is on the allow-list exactly when it is one of the seven
    known domains or ends with a dot followed by one of them; so a
    look-alike such as a known domain with letters put in front of it is not
    on the list. *)
Theorem allow_list_is_exact_or_subdomain (domain : string) :
  isLegitimate domain = true <->
  exists d, In d knownLegitimateDomains /\
            (domain = d \/ exists sub, domain = sub ++ "." ++ d).
Proof.
  unfold isLegitimate. rewrite existsb_exists. split.
  - intros [d [Hin H]]. exists d. split; [exact Hin |].
    apply orb_true_iff in H. destruct H as [H | H].
    + left. apply String.eqb_eq. exact H.
    + right. apply endsWith_spec. exact H.
  - intros [d [Hin H]]. exists d. split; [exact Hin |].
    apply orb_true_iff. destruct H as [H | H].
    + left. apply String.eqb_eq. exact H.
    + right. apply endsWith_spec. exact H.
Qed.

End DetectorFacts.

(** ** Generating simulations *)
Module EngineFacts.
Import Types Engine EngineGeneration.
Local Open Scope string_scope.

(** A choice from a non-empty array is one of its elements. *)
Lemma choose_some {A : Type} (i : nat) (l : list A) :
  l <> [] -> exists y, choose i l = Some y /\ In y l.
Proof.
  intros Hne. unfold choose.
  assert (Hlen : List.length l <> 0%nat) by (destruct l; [contradiction | discriminate]).
  pose proof (Nat.mod_upper_bound i (List.length l) Hlen) as Hlt.
  destruct (nth_error l (i mod List.length l)) as [y |] eqn:E.
  - exists y. split; [reflexivity | apply (nth_error_In _ _ E)].
  - apply nth_error_None in E. lia.
Qed.

Section AnyReplace.
Variable replaceAll : string -> string -> string -> string.
Variable replaceFirst : string -> string -> string -> string.

(** On a known site every step of the generation finds what it looks for. *)
Lemma generation_on_known_site
    (engine : SimulationEngine) (d : Draws) (p : Platform) (context : UserContext) :
  p <> UNKNOWN ->
  exists t c level,
    In t (platformTypes p) /\
    In level [Easy; Medium; Hard] /\
    In (urgency c) [UrgMedium; UrgHigh; UrgCritical] /\
    In (position (styling c)) (positions t) /\
    actionUrl c = Some (getActionUrl t p) /\
    generateSimulation replaceAll replaceFirst engine d p context =
      Some ({| sim_id := generateId d;
               sim_type := t;
               targetPlatform := p;
               content := c;
               triggerConditions := generateTriggerConditions d;
               metadata :=
                 {| createdAt := createdClock d;
                    campaignId := "default-campaign";
                    difficulty := level;
                    trainingObjective := getTrainingObjective t;
                    redTeamControlled := false |} |},
            Engine.generateSimulation engine (doneClock d)).
Proof.
  intros Hp. unfold generateSimulation, selectPhishingType.
  destruct (choose_some (typeDraw d) (platformTypes p)) as [t [Ht Htin]];
    [destruct p; discriminate |].
  rewrite Ht.
  assert (T : exists subjects senders,
             PHISHING_TEMPLATES p = Some (subjects, senders) /\
             subjects <> [] /\ senders <> []).
  { destruct p; [| | | contradiction];
      (eexists; eexists; split; [reflexivity | split; discriminate]). }
  destruct T as [subjects [senders [HT [Hsub Hsen]]]]. rewrite HT.
  unfold generateContent, generateBody, selectUrgency, selectPosition,
    calculateDifficulty.
  destruct (choose_some (subjectDraw d) subjects Hsub) as [subject [Hs _]].
  destruct (choose_some (senderDraw d) senders Hsen) as [s [Hse _]].
  destruct (choose_some (bodyDraw d) (bodies t p)) as [b [Hb _]];
    [destruct t; discriminate |].
  destruct (choose_some (urgencyDraw d)
              [UrgMedium; UrgMedium; UrgHigh; UrgHigh; UrgCritical])
    as [u [Hu Huin]]; [discriminate |].
  destruct (choose_some (positionDraw d) (positions t)) as [pos [Hpos Hposin]];
    [destruct t; discriminate |].
  destruct (choose_some (difficultyDraw d) [Easy; Easy; Medium; Medium; Hard])
    as [level [Hl Hlin]]; [discriminate |].
  rewrite Hs, Hse, Hb, Hu, Hpos, Hl.
  eexists. eexists. eexists.
  split; [exact Htin |].
  split; [| split; [| split; [| split; [| reflexivity]]]].
  - simpl in Hlin. simpl. tauto.
  - simpl in Huin. simpl. tauto.
  - exact Hposin.
  - reflexivity.
Qed.

Lemma generation_on_unknown_site
    (engine : SimulationEngine) (d : Draws) (context : UserContext) :
  generateSimulation replaceAll replaceFirst engine d UNKNOWN context = None.
Proof.
  unfold generateSimulation. destruct (selectPhishingType (typeDraw d) UNKNOWN);
    reflexivity.
Qed.


(** X19.  A generated simulation is of one of the kinds listed for its
    site, hence never a clipboard or file-download lure, and a session
    hijack only on gmail; its difficulty is easy, medium or hard, never
    expert; its urgency is never low; it is never placed inline; and its
    action address is an https address. *)
Theorem generated_simulation_stays_in_its_tables
    (engine : SimulationEngine) (d : Draws) (p : Platform) (context : UserContext) :
  match generateSimulation replaceAll replaceFirst engine d p context with
  | None => True
  | Some (sim, _) =>
      In (sim_type sim) (platformTypes p) /\
      In (sim_type sim) [CREDENTIAL_HARVEST; OAUTH_GRANT; MFA_BYPASS; SESSION_HIJACK] /\
      (sim_type sim = SESSION_HIJACK -> p = GMAIL) /\
      In (difficulty (metadata sim)) [Easy; Medium; Hard] /\
      In (urgency (content sim)) [UrgMedium; UrgHigh; UrgCritical] /\
      In (position (styling (content sim))) [Modal; Banner; Notification] /\
      JS.startsWith (JS.orStr (actionUrl (content sim)) "") "https://" = true
  end.
Proof.
  destruct p.
  4: rewrite generation_on_unknown_site; exact I.
  all: match goal with
       | |- context [generateSimulation _ _ _ _ ?q _] =>
           destruct (generation_on_known_site engine d q context)
             as [t [c [level [Ht [Hl [Hu [Hpos [Hurl E]]]]]]]]; [discriminate |]
       end;
       rewrite E; cbn [sim_type metadata difficulty content];
       rewrite Hurl;
       (split; [exact Ht |]);
       (split; [simpl in Ht; simpl; tauto |]);
       (split; [intros Hs; subst t; simpl in Ht;
                 repeat (destruct Ht as [Ht | Ht]; try discriminate Ht);
                 first [reflexivity | contradiction] |]);
       (split; [exact Hl |]);
       (split; [exact Hu |]);
       (split; [| reflexivity]);
       simpl in Ht;
       repeat (destruct Ht as [Ht | Ht]; [subst t; simpl in Hpos; simpl; tauto |]);
       contradiction.
Qed.

End AnyReplace.

(** X22.  When neither gate is closed, [shouldTriggerSimulation] is a draw
    against a probability between 0.2 and 0.6: 0.2 for a context with
    nothing filled in, 0.6 once every field is filled in. *)
Theorem trigger_is_a_draw_between_02_and_06
    (engine : SimulationEngine) (now : Z) (r : float)
    (p : Platform) (context : UserContext) :
  (MIN_INTERVAL_MS <= now - lastSimulationTime engine)%Z ->
  (simulationCount engine < 5)%Z ->
  shouldTriggerSimulation engine now r p context
    = PrimFloat.ltb r (triggerProbability context) /\
  JS.ge (triggerProbability context) 0.2 = true /\
  JS.ge 0.6 (triggerProbability context) = true /\
  triggerProbability (bareContext p) = 0.2%float /\
  triggerProbability (fullContext p) = 0.6%float.
Proof.
  intros Hi Hc. split; [| split; [| split; [| split]]].
  - unfold shouldTriggerSimulation.
    destruct (Z.ltb_spec (now - lastSimulationTime engine) MIN_INTERVAL_MS); [lia |].
    destruct (Z.leb_spec 5 (simulationCount engine)); [lia |]. reflexivity.
  - unfold triggerProbability, calculateContextFactor.
    destruct (JS.truthyStr (username context)), (JS.truthyStr (email context)),
      (JS.truthyStr (organization context)),
      (Context.longerThan 0 (connections context)),
      (Context.longerThan 0 (recentActivity context)); vm_compute; reflexivity.
  - unfold triggerProbability, calculateContextFactor.
    destruct (JS.truthyStr (username context)), (JS.truthyStr (email context)),
      (JS.truthyStr (organization context)),
      (Context.longerThan 0 (connections context)),
      (Context.longerThan 0 (recentActivity context)); vm_compute; reflexivity.
  - destruct p; vm_compute; reflexivity.
  - destruct p; vm_compute; reflexivity.
Qed.

Lemma trigger_is_a_draw_between_02_and_06_witness :
  shouldTriggerSimulation newEngine 1700000000000 0.1 GITHUB (bareContext GITHUB)
  = PrimFloat.ltb 0.1 (triggerProbability (bareContext GITHUB)).
Proof.
  exact (proj1 (trigger_is_a_draw_between_02_and_06 newEngine 1700000000000 0.1
                  GITHUB (bareContext GITHUB)
                  (proj1 (Z.leb_le MIN_INTERVAL_MS
                                   (1700000000000 - lastSimulationTime newEngine))
                         eq_refl)
                  eq_refl)).
Defined.

End EngineFacts.

(** ** background/service-worker.ts: context updates that overlap *)
Module ServiceFacts.
Import Types Engine EngineGeneration.
Local Open Scope string_scope.

Lemma platform_eqb_refl (p : Platform) : platform_eqb p p = true.
Proof.
  destruct p; reflexivity.
Qed.

(** A yes of [shouldTriggerSimulation] means the two gates were open. *)
Lemma trigger_means_open (engine : SimulationEngine) (now : Z) (r : float)
    (p : Platform) (context : UserContext) :
  shouldTriggerSimulation engine now r p context = true ->
  (MIN_INTERVAL_MS <= now - lastSimulationTime engine)%Z /\
  (simulationCount engine < 5)%Z.
Proof.
  unfold shouldTriggerSimulation.
  destruct (Z.ltb_spec (now - lastSimulationTime engine) MIN_INTERVAL_MS);
    [discriminate |].
  destruct (Z.leb_spec 5 (simulationCount engine)); [discriminate |].
  intros _. split; assumption.
Qed.

Section AnyReplace.
Variable replaceAll : string -> string -> string -> string.
Variable replaceFirst : string -> string -> string -> string.


(** A generation that returns leaves the engine with the clock of the call
    and one simulation more. *)
Lemma generation_effect (engine engine' : SimulationEngine) (d : Draws)
    (p : Platform) (context : UserContext) (sim : PhishingSimulation) :
  generateSimulation replaceAll replaceFirst engine d p context = Some (sim, engine') ->
  engine' = Engine.generateSimulation engine (doneClock d).
Proof.
  unfold generateSimulation.
  destruct (selectPhishingType (typeDraw d) p); [| discriminate].
  destruct (generateContent replaceAll replaceFirst d p0 p context (PHISHING_TEMPLATES p));
    [| discriminate].
  destruct (calculateDifficulty (difficultyDraw d)); [| discriminate].
  intros E. inversion E. reflexivity.
Qed.

Lemma generation_succeeds (engine : SimulationEngine) (d : Draws)
    (p : Platform) (context : UserContext) :
  p <> UNKNOWN ->
  exists sim,
    generateSimulation replaceAll replaceFirst engine d p context
    = Some (sim, Engine.generateSimulation engine (doneClock d)).
Proof.
  intros Hp.
  destruct (EngineFacts.generation_on_known_site replaceAll replaceFirst
              engine d p context Hp) as [t [c [level [_ [_ [_ [_ [_ E]]]]]]]].
  eexists. exact E.
Qed.

Lemma run_app (s : Service) (a b : list Step) :
  run replaceAll replaceFirst s (a ++ b) = run replaceAll replaceFirst (run replaceAll replaceFirst s a) b.
Proof.
  unfold run. apply fold_left_app.
Qed.

(** What a step can do to the engine and to the list of simulations. *)
Lemma step_effect (s : Service) (st : Step) :
  (simulationEngine (step replaceAll replaceFirst s st) = simulationEngine s /\
   generated (step replaceAll replaceFirst s st) = generated s) \/
  exists k hasTab d sim,
    st = ResumeInject k hasTab d /\
    simulationEngine (step replaceAll replaceFirst s st)
      = Engine.generateSimulation (simulationEngine s) (doneClock d) /\
    generated (step replaceAll replaceFirst s st) = (generated s ++ [sim])%list.
Proof.
  destruct st as [p c now | k en camp now r | k tab d]; simpl.
  - left. split; reflexivity.
  - left. unfold resumeCheck.
    destruct (suspended s k) as [[p [|]] |]; try (split; reflexivity).
    destruct (en && camp); [| split; reflexivity].
    destruct (userContext s p) as [c |]; [| split; reflexivity].
    destruct (shouldTriggerSimulation (simulationEngine s) now r p c);
      split; reflexivity.
  - unfold resumeInject.
    destruct (suspended s k) as [[p [|]] |]; try (left; split; reflexivity).
    destruct tab; [| left; split; reflexivity].
    destruct (userContext s p) as [c |]; [| left; split; reflexivity].
    destruct (generateSimulation replaceAll replaceFirst (simulationEngine s) d p c) as [[sim engine'] |] eqn:G;
      [| left; split; reflexivity].
    right. exists k, true, d, sim. split; [reflexivity |].
    rewrite (generation_effect _ _ _ _ _ _ G). split; reflexivity.
Qed.

Lemma run_count (steps : list Step) (s : Service) :
  exists more,
    generated (run replaceAll replaceFirst s steps) = (generated s ++ more)%list /\
    simulationCount (simulationEngine (run replaceAll replaceFirst s steps))
    = (simulationCount (simulationEngine s) + Z.of_nat (List.length more))%Z.
Proof.
  revert s. induction steps as [| st rest IH]; intros s.
  - exists []. simpl. rewrite app_nil_r. split; [reflexivity | lia].
  - change (run replaceAll replaceFirst s (st :: rest)) with (run replaceAll replaceFirst (step replaceAll replaceFirst s st) rest).
    destruct (IH (step replaceAll replaceFirst s st)) as [more [Hg Hc]].
    destruct (step_effect s st) as [[He Hs] | [k [tab [d [sim [_ [He Hs]]]]]]].
    + exists more. rewrite Hg, Hc, He, Hs. split; reflexivity.
    + exists (sim :: more). rewrite Hg, Hc, He, Hs. split.
      * rewrite <- app_assoc. reflexivity.
      * simpl List.length. simpl simulationCount. lia.
Qed.

(** A call that runs from its arrival to its end without another call in
    between: nothing happens, or the check passed on the engine as it was
    and one simulation was generated on that same engine. *)
Lemma check_after_arrival (s : Service) (u : Update) :
  resumeCheck (started s) (enabled u) (hasCampaign u) (checkClock u) (random u)
    (arrive (site u) (incoming u) (storeClock u) s)
  = setStage (started s)
      (if enabled u && hasCampaign u &&
          shouldTriggerSimulation (simulationEngine s) (checkClock u) (random u)
            (site u) (storedContext (site u) (incoming u) (storeClock u))
       then Some (site u, AwaitTab) else None)
      (arrive (site u) (incoming u) (storeClock u) s).
Proof.
  unfold resumeCheck. cbn [suspended arrive userContext simulationEngine].
  rewrite Nat.eqb_refl, platform_eqb_refl.
  destruct (enabled u && hasCampaign u); [| reflexivity].
  destruct (shouldTriggerSimulation (simulationEngine s) (checkClock u) (random u)
              (site u) (storedContext (site u) (incoming u) (storeClock u)));
    reflexivity.
Qed.

Lemma inject_finished (k : nat) (tab : bool) (d : Draws) (s : Service) :
  resumeInject replaceAll replaceFirst k tab d (setStage k None s) = setStage k None s.
Proof.
  unfold resumeInject. cbn [suspended setStage]. rewrite Nat.eqb_refl. reflexivity.
Qed.

(** A call that runs from its arrival to its end without another call in
    between: nothing happens, or the check passed on the engine as it was
    and one simulation was generated on that same engine. *)
Lemma undisturbed_outcome (s : Service) (u : Update) :
  let s' := handleContextUpdate replaceAll replaceFirst s u in
  (simulationEngine s' = simulationEngine s /\ generated s' = generated s) \/
  (exists sim,
     shouldTriggerSimulation (simulationEngine s) (checkClock u) (random u) (site u)
       (storedContext (site u) (incoming u) (storeClock u)) = true /\
     simulationEngine s'
       = Engine.generateSimulation (simulationEngine s) (doneClock (draws u)) /\
     generated s' = (generated s ++ [sim])%list).
Proof.
  intros s'. subst s'. unfold handleContextUpdate, run.
  cbn [fold_left step arrival check injection].
  rewrite check_after_arrival.
  destruct (enabled u && hasCampaign u);
    [| cbn [andb]; rewrite inject_finished; left; split; reflexivity].
  cbn [andb].
  destruct (shouldTriggerSimulation (simulationEngine s) (checkClock u) (random u)
              (site u) (storedContext (site u) (incoming u) (storeClock u))) eqn:T;
    [| rewrite inject_finished; left; split; reflexivity].
  unfold resumeInject.
  cbn [suspended setStage arrive userContext simulationEngine generated started].
  rewrite Nat.eqb_refl, platform_eqb_refl.
  destruct (hasTab u); [| left; split; reflexivity].
  destruct (generateSimulation replaceAll replaceFirst (simulationEngine s) (draws u)
              (site u) (storedContext (site u) (incoming u) (storeClock u)))
    as [[sim engine'] |] eqn:G; [| left; split; reflexivity].
  right. exists sim. split; [reflexivity |].
  rewrite (generation_effect _ _ _ _ _ _ G). split; reflexivity.
Qed.

Lemma session_cap (updates : list Update) (s : Service) :
  (simulationCount (simulationEngine s) <= 5)%Z ->
  (simulationCount (simulationEngine (session replaceAll replaceFirst s updates)) <= 5)%Z.
Proof.
  revert s. induction updates as [| u rest IH]; intros s H; [exact H |].
  change (session replaceAll replaceFirst s (u :: rest))
    with (session replaceAll replaceFirst
            (handleContextUpdate replaceAll replaceFirst s u) rest).
  apply IH.
  destruct (undisturbed_outcome s u) as [[He _] | [sim [T [He _]]]]; rewrite He.
  - exact H.
  - destruct (trigger_means_open _ _ _ _ _ T) as [_ Hc]. simpl. lia.
Qed.

Lemma session_is_a_run (updates : list Update) (s : Service) :
  exists steps, session replaceAll replaceFirst s updates = run replaceAll replaceFirst s steps.
Proof.
  revert s. induction updates as [| u rest IH]; intros s.
  - exists []. reflexivity.
  - change (session replaceAll replaceFirst s (u :: rest))
      with (session replaceAll replaceFirst
              (handleContextUpdate replaceAll replaceFirst s u) rest).
    destruct (IH (handleContextUpdate replaceAll replaceFirst s u)) as [steps E].
    exists ([arrival u; check (started s) u; injection (started s) (hasTab u) (draws u)]
            ++ steps)%list.
    rewrite E, run_app. reflexivity.
Qed.

(** *** The three phases of overlapping calls *)

Lemma last_any (l : list Z) (a b : Z) : l <> [] -> last l a = last l b.
Proof.
  induction l as [| x r IH]; intros H; [contradiction |].
  destruct r as [| y r']; [reflexivity |].
  change (last (y :: r') a = last (y :: r') b). apply IH. discriminate.
Qed.

Lemma arrivals (u : Update) (n : nat) (s : Service) :
  let s' := run replaceAll replaceFirst s (repeat (arrival u) n) in
  simulationEngine s' = simulationEngine s /\
  generated s' = generated s /\
  started s' = started s + n /\
  (n <> 0 -> userContext s' (site u)
             = Some (storedContext (site u) (incoming u) (storeClock u))) /\
  (forall j, started s <= j < started s + n ->
             suspended s' j = Some (site u, AwaitStorage)) /\
  (forall j, j < started s -> suspended s' j = suspended s j).
Proof.
  revert s. induction n as [| n IH]; intros s s'; subst s'.
  - simpl. repeat split; try reflexivity; try lia; intros; try lia; reflexivity.
  - change (run replaceAll replaceFirst s (repeat (arrival u) (S n)))
      with (run replaceAll replaceFirst (arrive (site u) (incoming u) (storeClock u) s) (repeat (arrival u) n)).
    destruct (IH (arrive (site u) (incoming u) (storeClock u) s))
      as [He [Hg [Hs [Hu [Hin Hout]]]]].
    simpl in He, Hg, Hs, Hin, Hout.
    split; [exact He |]. split; [exact Hg |]. split; [lia |].
    split; [| split].
    + intros _. destruct n as [| n'].
      * simpl. rewrite platform_eqb_refl. reflexivity.
      * apply Hu. discriminate.
    + intros j Hj. destruct (Nat.eq_dec j (started s)) as [E | N].
      * rewrite Hout by lia. subst j. rewrite Nat.eqb_refl. reflexivity.
      * apply Hin. lia.
    + intros j Hj. rewrite Hout by lia.
      destruct (Nat.eqb_spec j (started s)); [lia | reflexivity].
Qed.

Lemma checks (u : Update) (c : UserContext) (n : nat) (first : nat) (s : Service) :
  enabled u = true -> hasCampaign u = true ->
  userContext s (site u) = Some c ->
  shouldTriggerSimulation (simulationEngine s) (checkClock u) (random u) (site u) c
    = true ->
  (forall j, first <= j < first + n -> suspended s j = Some (site u, AwaitStorage)) ->
  let s' := run replaceAll replaceFirst s (map (fun k => check k u) (seq first n)) in
  simulationEngine s' = simulationEngine s /\
  generated s' = generated s /\
  userContext s' = userContext s /\
  (forall j, first <= j < first + n -> suspended s' j = Some (site u, AwaitTab)) /\
  (forall j, j < first \/ first + n <= j -> suspended s' j = suspended s j).
Proof.
  intros Hen Hcamp. revert first s.
  induction n as [| n IH]; intros first s Hctx Hpass Hwait s'; subst s'.
  - simpl. repeat split; try reflexivity; intros; try lia; reflexivity.
  - change (run replaceAll replaceFirst s (map (fun k => check k u) (seq first (S n))))
      with (run replaceAll replaceFirst (resumeCheck first (enabled u) (hasCampaign u) (checkClock u)
                    (random u) s)
                 (map (fun k => check k u) (seq (S first) n))).
    assert (E : resumeCheck first (enabled u) (hasCampaign u) (checkClock u)
                  (random u) s
                = setStage first (Some (site u, AwaitTab)) s).
    { unfold resumeCheck. rewrite (Hwait first) by lia.
      rewrite Hen, Hcamp, Hctx, Hpass. reflexivity. }
    rewrite E.
    destruct (IH (S first) (setStage first (Some (site u, AwaitTab)) s))
      as [He [Hg [Hu [Hin Hout]]]].
    + exact Hctx.
    + exact Hpass.
    + intros j Hj. simpl. destruct (Nat.eqb_spec j first); [lia |].
      apply Hwait. lia.
    + simpl in He, Hg, Hu, Hout.
      split; [exact He |]. split; [exact Hg |]. split; [exact Hu |]. split.
      * intros j Hj. destruct (Nat.eq_dec j first) as [Ej | Nj].
        -- rewrite Hout by lia. subst j. rewrite Nat.eqb_refl. reflexivity.
        -- apply Hin. lia.
      * intros j Hj. rewrite Hout by lia.
        destruct (Nat.eqb_spec j first); [lia | reflexivity].
Qed.

Lemma injections (p : Platform) (c : UserContext) (ds : list Draws) (first : nat)
    (s : Service) :
  p <> UNKNOWN ->
  userContext s p = Some c ->
  (forall j, first <= j < first + List.length ds -> suspended s j = Some (p, AwaitTab)) ->
  let s' := run replaceAll replaceFirst s (map (fun kd => injection (fst kd) true (snd kd))
                        (combine (seq first (List.length ds)) ds)) in
  List.length (generated s') = List.length (generated s) + List.length ds /\
  simulationCount (simulationEngine s')
    = (simulationCount (simulationEngine s) + Z.of_nat (List.length ds))%Z /\
  lastSimulationTime (simulationEngine s')
    = last (map doneClock ds) (lastSimulationTime (simulationEngine s)).
Proof.
  intros Hp. revert first s.
  induction ds as [| d rest IH]; intros first s Hctx Hwait s'; subst s'.
  - simpl. repeat split; lia.
  - change (run replaceAll replaceFirst s (map (fun kd => injection (fst kd) true (snd kd))
                      (combine (seq first (List.length (d :: rest))) (d :: rest))))
      with (run replaceAll replaceFirst (resumeInject replaceAll replaceFirst first true d s)
                 (map (fun kd => injection (fst kd) true (snd kd))
                      (combine (seq (S first) (List.length rest)) rest))).
    destruct (generation_succeeds (simulationEngine s) d p c Hp) as [sim G].
    assert (E : resumeInject replaceAll replaceFirst first true d s
                = {| simulationEngine :=
                       Engine.generateSimulation (simulationEngine s) (doneClock d);
                     userContext := userContext s;
                     started := started s;
                     suspended := fun j => if (j =? first)%nat then None
                                           else suspended s j;
                     generated := (generated s ++ [sim])%list |}).
    { unfold resumeInject. rewrite (Hwait first) by (simpl; lia).
      rewrite Hctx, G. reflexivity. }
    rewrite E.
    match goal with
    | |- context [run replaceAll replaceFirst ?t _] => destruct (IH (S first) t) as [Hg [Hc Hl]]
    end.
    + exact Hctx.
    + intros j Hj. simpl. destruct (Nat.eqb_spec j first); [lia |].
      apply Hwait. simpl. lia.
    + simpl in Hg, Hc, Hl. rewrite Hg, Hc, Hl.
      rewrite length_app. simpl List.length.
      split; [lia |]. split; [lia |].
      destruct rest as [| d' rest']; [reflexivity |].
      change (last (map doneClock (d :: d' :: rest'))
                (lastSimulationTime (simulationEngine s)))
        with (last (map doneClock (d' :: rest'))
                (lastSimulationTime (simulationEngine s))).
      apply last_any. discriminate.
Qed.

(** All overlapping calls generate. *)
Lemma overlap_outcome (s : Service) (u : Update) (ds : list Draws) :
  site u <> UNKNOWN ->
  enabled u = true -> hasCampaign u = true -> hasTab u = true ->
  shouldTriggerSimulation (simulationEngine s) (checkClock u) (random u) (site u)
    (storedContext (site u) (incoming u) (storeClock u)) = true ->
  let s' := run replaceAll replaceFirst s (overlapping (started s) u ds) in
  List.length (generated s') = List.length (generated s) + List.length ds /\
  simulationCount (simulationEngine s')
    = (simulationCount (simulationEngine s) + Z.of_nat (List.length ds))%Z /\
  lastSimulationTime (simulationEngine s')
    = last (map doneClock ds) (lastSimulationTime (simulationEngine s)).
Proof.
  intros Hp Hen Hcamp Htab Hpass s'. subst s'.
  destruct ds as [| d0 rest] eqn:D.
  { simpl. repeat split; lia. }
  rewrite <- D. assert (Hn : List.length ds <> 0) by (rewrite D; discriminate).
  unfold overlapping. rewrite !run_app.
  destruct (arrivals u (List.length ds) s) as [He1 [Hg1 [_ [Hu1 [Hin1 _]]]]].
  set (s1 := run replaceAll replaceFirst s (repeat (arrival u) (List.length ds))) in *.
  destruct (checks u (storedContext (site u) (incoming u) (storeClock u))
              (List.length ds) (started s) s1 Hen Hcamp (Hu1 Hn))
    as [He2 [Hg2 [Hu2 [Hin2 _]]]].
  { rewrite He1. exact Hpass. }
  { exact Hin1. }
  set (s2 := run replaceAll replaceFirst s1 (map (fun k => check k u) (seq (started s) (List.length ds)))) in *.
  rewrite Htab.
  destruct (injections (site u) (storedContext (site u) (incoming u) (storeClock u))
              ds (started s) s2 Hp) as [Hg3 [Hc3 Hl3]].
  { rewrite Hu2. exact (Hu1 Hn). }
  { exact Hin2. }
  rewrite Hg3, Hc3, Hl3, Hg2, Hg1, He2, He1. repeat split.
Qed.

(** X20.  The engine's count always grows by the number of simulations
    generated, however the calls of [handleContextUpdate] interleave.  When
    the updates are handled one after the other, each call ending before
    the next message arrives, a fresh service worker generates at most five
    simulations.  The cap does not hold for calls that overlap: when the
    same update arrives [n] times and every call passes the check before the
    first one generates, which it does once the check passes on the engine
    as it stands, all [n] calls generate a simulation. *)
Theorem cap_of_five_holds_without_overlap :
  (forall (s : Service) (steps : list Step),
     exists more,
       generated (run replaceAll replaceFirst s steps) = (generated s ++ more)%list /\
       simulationCount (simulationEngine (run replaceAll replaceFirst s steps))
       = (simulationCount (simulationEngine s) + Z.of_nat (List.length more))%Z)
  /\
  (forall updates : list Update,
     List.length (generated (session replaceAll replaceFirst newService updates)) <= 5)
  /\
  (forall (s : Service) (u : Update) (ds : list Draws),
     site u <> UNKNOWN ->
     enabled u = true -> hasCampaign u = true -> hasTab u = true ->
     shouldTriggerSimulation (simulationEngine s) (checkClock u) (random u) (site u)
       (storedContext (site u) (incoming u) (storeClock u)) = true ->
     let s' := run replaceAll replaceFirst s (overlapping (started s) u ds) in
     List.length (generated s') = List.length (generated s) + List.length ds /\
     simulationCount (simulationEngine s')
       = (simulationCount (simulationEngine s) + Z.of_nat (List.length ds))%Z).
Proof.
  split; [| split].
  - intros s steps. apply run_count.
  - intros updates.
    destruct (session_is_a_run updates newService) as [steps E].
    pose proof (session_cap updates newService) as Hcap.
    rewrite E in *.
    destruct (run_count steps newService) as [more [Hg Hc]].
    rewrite Hg. rewrite Hc in Hcap. simpl in Hcap. simpl.
    assert (Z.of_nat (List.length more) <= 5)%Z by (apply Hcap; lia). lia.
  - intros s u ds Hp Hen Hcamp Htab Hpass s'. subst s'.
    destruct (overlap_outcome s u ds Hp Hen Hcamp Htab Hpass) as [H1 [H2 _]].
    split; assumption.
Qed.

(** X21.  A call of [handleContextUpdate] that runs from its arrival to
    its end with no step of another call in between either leaves the engine
    and the simulations as they were or generates one simulation; in that
    case, if the clock did not run backwards between its check and its
    generation, the time the engine records is at least 300,000 ms after the
    time it held before.  Calls that overlap are not kept apart: when two
    calls have passed the check before either generates, the engine records
    the clock of the first generation and then the clock of the second,
    however close the two are. *)
Theorem interval_holds_for_an_undisturbed_call :
  (forall (s : Service) (u : Update),
     (checkClock u <= doneClock (draws u))%Z ->
     let s' := handleContextUpdate replaceAll replaceFirst s u in
     (simulationEngine s' = simulationEngine s /\ generated s' = generated s) \/
     (exists sim,
        generated s' = (generated s ++ [sim])%list /\
        (MIN_INTERVAL_MS <= lastSimulationTime (simulationEngine s')
                            - lastSimulationTime (simulationEngine s))%Z))
  /\
  (forall (s : Service) (u : Update) (d1 d2 : Draws),
     site u <> UNKNOWN ->
     enabled u = true -> hasCampaign u = true -> hasTab u = true ->
     shouldTriggerSimulation (simulationEngine s) (checkClock u) (random u) (site u)
       (storedContext (site u) (incoming u) (storeClock u)) = true ->
     let k := started s in
     let before := [arrival u; arrival u; check k u; check (S k) u] in
     let s1 := run replaceAll replaceFirst s (before ++ [injection k true d1]) in
     let s2 := run replaceAll replaceFirst s (before ++ [injection k true d1; injection (S k) true d2]) in
     List.length (generated s1) = List.length (generated s) + 1 /\
     lastSimulationTime (simulationEngine s1) = doneClock d1 /\
     List.length (generated s2) = List.length (generated s) + 2 /\
     lastSimulationTime (simulationEngine s2) = doneClock d2).
Proof.
  split.
  - intros s u Hclock s'. subst s'.
    destruct (undisturbed_outcome s u) as [H | [sim [T [He Hg]]]]; [left; exact H |].
    right. exists sim. split; [exact Hg |].
    destruct (trigger_means_open _ _ _ _ _ T) as [Hi _].
    rewrite He. simpl. lia.
  - intros s u d1 d2 Hp Hen Hcamp Htab Hpass k before s1 s2.
    subst s1 s2 before k.
    change [arrival u; arrival u; check (started s) u; check (S (started s)) u]
      with (repeat (arrival u) 2 ++ map (fun k => check k u) (seq (started s) 2))%list.
    rewrite <- !app_assoc. rewrite !run_app.
    destruct (arrivals u 2 s) as [He1 [Hg1 [_ [Hu1 [Hin1 _]]]]].
    set (s1 := run replaceAll replaceFirst s (repeat (arrival u) 2)) in *.
    assert (Hctx : userContext s1 (site u)
                   = Some (storedContext (site u) (incoming u) (storeClock u)))
      by (apply Hu1; discriminate).
    destruct (checks u (storedContext (site u) (incoming u) (storeClock u))
                2 (started s) s1 Hen Hcamp Hctx)
      as [He2 [Hg2 [Hu2 [Hin2 _]]]].
    { rewrite He1. exact Hpass. }
    { exact Hin1. }
    set (s2 := run replaceAll replaceFirst s1 (map (fun k => check k u) (seq (started s) 2))) in *.
    destruct (injections (site u) (storedContext (site u) (incoming u) (storeClock u))
                [d1] (started s) s2 Hp) as [Hg3 [_ Hl3]].
    { rewrite Hu2. exact Hctx. }
    { intros j Hj. apply Hin2. simpl in Hj. lia. }
    destruct (injections (site u) (storedContext (site u) (incoming u) (storeClock u))
                [d1; d2] (started s) s2 Hp) as [Hg4 [_ Hl4]].
    { rewrite Hu2. exact Hctx. }
    { intros j Hj. apply Hin2. simpl in Hj. lia. }
    simpl in Hg3, Hl3, Hg4, Hl4.
    unfold run in *. simpl fold_left in *.
    rewrite Hg3, Hl3, Hg4, Hl4, Hg2, Hg1. repeat split.
Qed.

End AnyReplace.

Lemma sample_passes :
  shouldTriggerSimulation (simulationEngine newService) (checkClock sampleUpdate)
    (random sampleUpdate) (site sampleUpdate)
    (storedContext (site sampleUpdate) (incoming sampleUpdate) (storeClock sampleUpdate))
  = true.
Proof.
  vm_compute. reflexivity.
Qed.

Lemma github_is_known : site sampleUpdate <> UNKNOWN.
Proof.
  discriminate.
Qed.

Lemma cap_of_five_holds_without_overlap_witness :
  List.length
    (generated (run plainReplaceAll plainReplaceFirst newService
                  (overlapping 0 sampleUpdate (repeat someDraws 6))))
  = 6.
Proof.
  exact (proj1 (proj2 (proj2 (cap_of_five_holds_without_overlap
                                plainReplaceAll plainReplaceFirst))
                  newService sampleUpdate (repeat someDraws 6)
                  github_is_known eq_refl eq_refl eq_refl sample_passes)).
Defined.

Lemma interval_holds_for_an_undisturbed_call_witness :
  lastSimulationTime
    (simulationEngine
       (run plainReplaceAll plainReplaceFirst newService
          [arrival sampleUpdate; arrival sampleUpdate;
           check 0 sampleUpdate; check 1 sampleUpdate;
           injection 0 true someDraws]))
  = 1700000000001%Z /\
  lastSimulationTime
    (simulationEngine
       (run plainReplaceAll plainReplaceFirst newService
          [arrival sampleUpdate; arrival sampleUpdate;
           check 0 sampleUpdate; check 1 sampleUpdate;
           injection 0 true someDraws; injection 1 true laterDraws]))
  = 1700000000002%Z.
Proof.
  pose proof (proj2 (interval_holds_for_an_undisturbed_call
                       plainReplaceAll plainReplaceFirst)
                newService sampleUpdate someDraws laterDraws
                github_is_known eq_refl eq_refl eq_refl sample_passes) as H.
  split; [exact (proj1 (proj2 H)) | exact (proj2 (proj2 (proj2 H)))].
Defined.

End ServiceFacts.


(** ** The randomized path of the generator *)
Module GeneratorFacts.
Import Types Context EngineGeneration GeneratorPlan.
Local Open Scope string_scope.

Ltac settle_choice :=
  match goal with
  | |- context [choose ?i ?l] =>
      let y := fresh "y" in
      let Hy := fresh "Hy" in
      let Hin := fresh "Hin" in
      destruct (EngineFacts.choose_some i l) as [y [Hy Hin]];
      [discriminate | rewrite Hy; exists y; simpl in Hin]
  end.

Lemma choose_nil {A : Type} (i : nat) : choose i (@nil A) = None.
Proof.
  unfold choose. simpl. destruct i; reflexivity.
Qed.

(** The vector selected for the analysis of a mapping. *)
Lemma selection_cases (draw : nat) (p : Platform) (m : UserContexts)
    (options : GenerationOptions) :
  exists t,
    selectAttackVector draw p (analyze m) options = Some t /\
    In t [CREDENTIAL_HARVEST; OAUTH_GRANT; MFA_BYPASS; SESSION_HIJACK] /\
    (t = MFA_BYPASS -> hasSite GMAIL m = true) /\
    (t = SESSION_HIJACK -> hasSite GITHUB m = true) /\
    (t = OAUTH_GRANT -> hasSite GITHUB m || hasSite GMAIL m = true) /\
    (opt_difficulty options = Expert ->
     t = if hasSite GITHUB m || hasSite GMAIL m then OAUTH_GRANT
         else CREDENTIAL_HARVEST).
Proof.
  unfold selectAttackVector, hasSite, analyze.
  destruct (values m) as [| c r] eqn:V.
  - simpl. destruct (isExpert (opt_difficulty options)) eqn:E.
    + exists CREDENTIAL_HARVEST. repeat split; try (intros; discriminate); auto.
    + settle_choice. destruct Hin as [<- | []].
      repeat split; try (intros; discriminate); auto.
  - remember (c :: r) as contexts eqn:C. clear C V.
    cbn [suggestedAttackVectors]. unfold suggestAttackVectors.
    destruct (existsb (platform_eqb GITHUB) (map platform contexts)),
             (existsb (platform_eqb LINKEDIN) (map platform contexts)),
             (existsb (platform_eqb GMAIL) (map platform contexts));
      simpl;
      (destruct (isExpert (opt_difficulty options)) eqn:E;
       [ eexists; split; [reflexivity |];
         repeat split; try (intros; discriminate); simpl; auto 10
       | first
           [ settle_choice;
             repeat (destruct Hin as [Hin | Hin];
                     [subst y; repeat split; try (intros; discriminate);
                      simpl; auto 10;
                      intros H; rewrite H in E; discriminate E |]);
             contradiction
           | exists CREDENTIAL_HARVEST;
             repeat split; try (intros; discriminate); simpl; auto 10;
             intros H; rewrite H in E; discriminate E ] ]).
Qed.

(** X23.  At expert difficulty the attack vector planned for the analysis
    of a mapping does not depend on any random draw: it is
    authorization-grant abuse when the mapping holds a github or a gmail
    context, and credential harvest otherwise. *)
Theorem expert_plan_prefers_oauth (draw : nat) (p : Platform) (m : UserContexts)
    (options : GenerationOptions) :
  opt_difficulty options = Expert ->
  selectAttackVector draw p (analyze m) options =
    Some (if hasSite GITHUB m || hasSite GMAIL m then OAUTH_GRANT
          else CREDENTIAL_HARVEST).
Proof.
  intros H. destruct (selection_cases draw p m options) as [t [E [_ [_ [_ [_ X]]]]]].
  rewrite E, (X H). reflexivity.
Qed.

Lemma expert_plan_prefers_oauth_witness :
  selectAttackVector 3 LINKEDIN
    (analyze [(GITHUB, Some (ContextMeasures.siteOnly GITHUB))])
    {| opt_difficulty := Expert; opt_urgency := None; customPayload := None;
       redTeamMode := None |}
  = Some OAUTH_GRANT.
Proof.
  exact (expert_plan_prefers_oauth 3 LINKEDIN
           [(GITHUB, Some (ContextMeasures.siteOnly GITHUB))]
           {| opt_difficulty := Expert; opt_urgency := None; customPayload := None;
              redTeamMode := None |} eq_refl).
Defined.

(** X24.  For the analysis of any mapping, at any difficulty and whatever
    the draw, a vector is selected, and it is credential harvest,
    authorization-grant abuse, second-factor bypass or session hijack, never
    a clipboard or file-download lure; second-factor bypass needs a gmail
    context, session hijack a github context, authorization-grant abuse one
    of the two.  The site the simulation is planned for plays no part. *)
Theorem planned_vector_follows_the_contexts (draw : nat) (p : Platform)
    (m : UserContexts) (options : GenerationOptions) :
  exists t,
    selectAttackVector draw p (analyze m) options = Some t /\
    In t [CREDENTIAL_HARVEST; OAUTH_GRANT; MFA_BYPASS; SESSION_HIJACK] /\
    (t = MFA_BYPASS -> hasSite GMAIL m = true) /\
    (t = SESSION_HIJACK -> hasSite GITHUB m = true) /\
    (t = OAUTH_GRANT -> hasSite GITHUB m || hasSite GMAIL m = true) /\
    (forall q, selectAttackVector draw q (analyze m) options = Some t).
Proof.
  destruct (selection_cases draw p m options) as [t [E [H1 [H2 [H3 [H4 _]]]]]].
  exists t. repeat split; try assumption. intros q. exact E.
Qed.

Section AnyFill.
Variable fill : string -> (string -> option string) -> string.

(** X25.  Planning a simulation for the analysis of a mapping throws when
    the target site is "unknown", whose template families are all empty and
    are not replaced by any default; for every other site it returns a
    simulation for that site with the requested difficulty, campaign
    "generated", the red-team flag of the options (false when absent), a time
    gate and a page-visible gate, and the requested urgency or, without one,
    an urgency from the list of the difficulty. *)
Theorem plan_fails_only_for_unknown_site (d : PlanDraws) (p : Platform)
    (context : UserContext) (m : UserContexts) (options : GenerationOptions) :
  match generate fill d p context (analyze m) options with
  | None => p = UNKNOWN
  | Some sim =>
      p <> UNKNOWN /\
      targetPlatform sim = p /\
      difficulty (metadata sim) = opt_difficulty options /\
      campaignId (metadata sim) = "generated" /\
      redTeamControlled (metadata sim)
        = match redTeamMode options with Some b => b | None => false end /\
      map (fun c => (tr_type c, tr_value_text c, tr_operator c)) (triggerConditions sim)
        = [(TrTime, None, OpGt); (TrAction, Some "page_visible", OpEquals)] /\
      match opt_urgency options with
      | Some u => urgency (content sim) = u
      | None => In (urgency (content sim)) (urgencyLevels (opt_difficulty options))
      end
  end.
Proof.
  unfold generate.
  destruct (selection_cases (vectorDraw d) p m options) as [t [E [Ht _]]].
  rewrite E. unfold generateContent, getTemplates.
  destruct p.
  4: { assert (T : templateSets UNKNOWN t = []) by (destruct t; reflexivity).
       rewrite T, choose_nil. reflexivity. }
  all: match goal with
       | |- context [choose (templateDraw ?x) ?l] =>
           destruct (EngineFacts.choose_some (templateDraw x) l) as [tpl [Htpl _]];
           [simpl in Ht; repeat (destruct Ht as [Ht | Ht]; [subst t; discriminate |]);
            contradiction |]
       end;
       rewrite Htpl;
       match goal with
       | |- context [choose (senderDraw ?x) ?l] =>
           destruct (EngineFacts.choose_some (senderDraw x) l) as [s [Hs _]];
           [discriminate | rewrite Hs]
       end;
       match goal with
       | |- context [choose (emailDraw ?x) ?l] =>
           destruct (EngineFacts.choose_some (emailDraw x) l) as [e [He _]];
           [discriminate | rewrite He]
       end;
       destruct (opt_urgency options) as [u |];
       [ repeat split; discriminate
       | unfold selectUrgency;
         destruct (EngineFacts.choose_some (urgencyDraw d)
                     (urgencyLevels (opt_difficulty options))) as [u [Hu Huin]];
         [destruct (opt_difficulty options); discriminate |];
         rewrite Hu; repeat split; try discriminate; exact Huin ].
Qed.

End AnyFill.

End GeneratorFacts.

(** ** Timing patterns, anomalies and the relationship graph *)
Module ContextToolsFacts.
Import Types Context ContextTools.
Local Open Scope string_scope.

(** *** Histograms and their mode *)

Lemma bumpAt_length (k : nat) (l : list nat) : List.length (bumpAt k l) = List.length l.
Proof.
  revert k. induction l as [| c r IH]; intros k; destruct k; simpl;
    try reflexivity.
  rewrite IH. reflexivity.
Qed.

Lemma bumpAt_nth (k h : nat) (l : list nat) :
  h < List.length l ->
  nth h (bumpAt k l) 0 = nth h l 0 + (if (k =? h)%nat then 1 else 0).
Proof.
  revert k h. induction l as [| c r IH]; intros k h Hh; simpl in Hh; [lia |].
  destruct k as [| k'], h as [| h']; simpl; try lia.
  rewrite IH by lia. reflexivity.
Qed.

Lemma tally_from (slot : Z -> nat) (timestamps : list Z) (init : list nat) (h : nat) :
  h < List.length init ->
  nth h (fold_left (fun counts t => bumpAt (slot t) counts) timestamps init) 0
  = nth h init 0 + occurrences slot h timestamps.
Proof.
  revert init. induction timestamps as [| t r IH]; intros init Hh; simpl.
  - unfold occurrences. simpl. lia.
  - rewrite IH by (rewrite bumpAt_length; exact Hh).
    rewrite bumpAt_nth by exact Hh. unfold occurrences. simpl.
    destruct (slot t =? h)%nat; simpl; lia.
Qed.

Lemma tally_length (size : nat) (slot : Z -> nat) (timestamps : list Z) :
  List.length (tally size slot timestamps) = size.
Proof.
  unfold tally.
  assert (G : forall init,
             List.length (fold_left (fun counts t => bumpAt (slot t) counts)
                            timestamps init) = List.length init).
  { induction timestamps as [| t r IH]; intros init; simpl; [reflexivity |].
    rewrite IH. apply bumpAt_length. }
  rewrite G. apply repeat_length.
Qed.

Lemma tally_nth (size : nat) (slot : Z -> nat) (timestamps : list Z) (h : nat) :
  h < size -> nth h (tally size slot timestamps) 0 = occurrences slot h timestamps.
Proof.
  intros Hh. unfold tally. rewrite tally_from by (rewrite repeat_length; exact Hh).
  rewrite nth_repeat. reflexivity.
Qed.

Lemma maxOf_bound (l : list nat) (j : nat) : nth j l 0 <= maxOf l.
Proof.
  revert j. induction l as [| c r IH]; intros j.
  - destruct j; simpl; lia.
  - change (maxOf (c :: r)) with (Nat.max c (maxOf r)).
    destruct j as [| j']; simpl; [apply Nat.le_max_l |].
    apply Nat.le_trans with (maxOf r); [apply IH | apply Nat.le_max_r].
Qed.

Lemma maxOf_reached (l : list nat) : l <> [] -> In (maxOf l) l.
Proof.
  induction l as [| c r IH]; intros H; [contradiction |].
  destruct r as [| d r'].
  - left. unfold maxOf. simpl. symmetry. apply Nat.max_0_r.
  - change (maxOf (c :: d :: r')) with (Nat.max c (maxOf (d :: r'))).
    destruct (Nat.max_spec c (maxOf (d :: r'))) as [[_ E] | [_ E]]; rewrite E.
    + right. apply IH. discriminate.
    + left. reflexivity.
Qed.

Lemma indexOf_found (v : nat) (l : list nat) :
  In v l ->
  exists i, indexOf v l = Z.of_nat i /\ i < List.length l /\ nth i l 0 = v /\
            forall j, j < i -> nth j l 0 <> v.
Proof.
  induction l as [| c r IH]; intros Hin; [destruct Hin |].
  simpl. destruct (Nat.eqb_spec c v) as [E | N].
  - exists 0. repeat split; [lia | exact E | intros j Hj; lia].
  - destruct Hin as [Hc | Hr]; [contradiction |].
    destruct (IH Hr) as [i [Hi [Hlt [Hn Hfirst]]]].
    exists (S i). rewrite Hi. repeat split.
    + destruct i; simpl; lia.
    + lia.
    + exact Hn.
    + intros j Hj. destruct j as [| j']; [exact N | apply Hfirst; lia].
Qed.

(** The index of the maximum of a histogram is its first mode. *)
Lemma mode_of_tally (size : nat) (slot : Z -> nat) (timestamps : list Z) :
  size <> 0 ->
  exists h,
    indexOf (maxOf (tally size slot timestamps)) (tally size slot timestamps)
      = Z.of_nat h /\
    h < size /\
    forall k, k < size ->
      occurrences slot k timestamps <= occurrences slot h timestamps /\
      (occurrences slot k timestamps = occurrences slot h timestamps -> h <= k).
Proof.
  intros Hsize. set (counts := tally size slot timestamps).
  assert (Hlen : List.length counts = size) by apply tally_length.
  assert (Hne : counts <> []) by (intros E; rewrite E in Hlen; simpl in Hlen; lia).
  destruct (indexOf_found _ _ (maxOf_reached counts Hne)) as [h [Hi [Hlt [Hn Hfirst]]]].
  exists h. rewrite Hlen in Hlt. repeat split; [exact Hi | exact Hlt | |].
  - rewrite <- (tally_nth size slot timestamps k) by assumption.
    rewrite <- (tally_nth size slot timestamps h) by assumption.
    fold counts. rewrite Hn. apply maxOf_bound.
  - intros E. destruct (Nat.le_gt_cases h k) as [L | G]; [exact L |].
    exfalso. apply (Hfirst k G).
    rewrite <- Hn. unfold counts. rewrite !tally_nth by assumption. exact E.
Qed.

(** X26.  Without any activity timestamp the best time is 9 and the best
    day 1 (Monday).  Otherwise the best time is an hour from 0 to 23 and the
    best day a day from 0 to 6 into which the most timestamps fall, and the
    earliest such hour or day when several are equally frequent. *)
Theorem best_time_is_the_first_mode
    (getHours getDay : Z -> nat) (contexts : list UserContext) :
  let timestamps := timestampsOf contexts in
  let best := analyzeTimingPatterns getHours getDay contexts in
  (timestamps = [] -> best = (9%Z, 1%Z)) /\
  (timestamps <> [] ->
   exists h d,
     best = (Z.of_nat h, Z.of_nat d) /\ h < 24 /\ d < 7 /\
     (forall k, k < 24 ->
        occurrences getHours k timestamps <= occurrences getHours h timestamps /\
        (occurrences getHours k timestamps = occurrences getHours h timestamps
         -> h <= k)) /\
     (forall k, k < 7 ->
        occurrences getDay k timestamps <= occurrences getDay d timestamps /\
        (occurrences getDay k timestamps = occurrences getDay d timestamps
         -> d <= k))).
Proof.
  intros timestamps best. subst best. unfold analyzeTimingPatterns.
  fold timestamps. split.
  - intros E. rewrite E. reflexivity.
  - intros Hne. destruct timestamps as [| t r] eqn:T; [contradiction |].
    rewrite <- T.
    destruct (mode_of_tally 24 getHours timestamps) as [h [Hh [Hlt Hmode]]];
      [discriminate |].
    destruct (mode_of_tally 7 getDay timestamps) as [d [Hd [Hltd Hmoded]]];
      [discriminate |].
    exists h, d. subst timestamps. rewrite Hh, Hd.
    repeat split; try assumption; try apply Hmode; try apply Hmoded; assumption.
Qed.

(** *** Sorting by time *)

Lemma insert_ascending (x : Activity) (l : list Activity) :
  ascending l ->
  ascending (JS.insert (fun a b => (act_timestamp b <? act_timestamp a)%Z) x l).
Proof.
  induction l as [| y r IH]; intros H; simpl; [exact I |].
  destruct (Z.ltb_spec (act_timestamp y) (act_timestamp x)) as [Hlt | Hge].
  - destruct r as [| z r'].
    + simpl. split; [lia | exact I].
    + simpl in H. destruct H as [Hyz Hr]. specialize (IH Hr). simpl in IH. simpl.
      destruct (Z.ltb_spec (act_timestamp z) (act_timestamp x)).
      * split; [exact Hyz | exact IH].
      * split; [lia | exact IH].
  - simpl. split; [exact Hge | exact H].
Qed.

Lemma byTime_ascending (acts : list Activity) : ascending (byTime acts).
Proof.
  unfold byTime, JS.sort. induction acts as [| a r IH]; simpl; [exact I |].
  apply insert_ascending. exact IH.
Qed.

Lemma byTime_timestamps (acts : list Activity) :
  Permutation (map act_timestamp (byTime acts)) (map act_timestamp acts).
Proof.
  apply Permutation_map. apply DetectorProofs.sort_perm.
Qed.

Lemma burst_found (l : list Activity) :
  ascending l -> anyBurst l = true -> closePair (map act_timestamp l).
Proof.
  induction l as [| a r IH]; intros Hasc Hb; [discriminate Hb |].
  destruct r as [| b r']; [discriminate Hb |].
  destruct Hasc as [Hab Hr].
  change (((act_timestamp b - act_timestamp a <? 1000)%Z || anyBurst (b :: r')) = true)
    in Hb.
  apply orb_true_iff in Hb. destruct Hb as [Hb | Hb].
  - exists (act_timestamp a), (act_timestamp b), (map act_timestamp r').
    split; [apply Permutation_refl |]. apply Z.ltb_lt in Hb. lia.
  - destruct (IH Hr Hb) as [x [y [rest [P D]]]].
    exists x, y, (act_timestamp a :: rest). split; [| exact D].
    change (map act_timestamp (a :: b :: r'))
      with (act_timestamp a :: map act_timestamp (b :: r')).
    apply perm_trans with (act_timestamp a :: x :: y :: rest).
    + apply perm_skip. exact P.
    + apply perm_trans with (x :: act_timestamp a :: y :: rest).
      * apply perm_swap.
      * apply perm_skip. apply perm_swap.
Qed.

Lemma no_burst_gapped (l : list Activity) :
  ascending l -> anyBurst l = false -> gapped l.
Proof.
  induction l as [| a r IH]; intros Hasc Hb; [exact I |].
  destruct r as [| b r']; [exact I |].
  destruct Hasc as [Hab Hr].
  change (((act_timestamp b - act_timestamp a <? 1000)%Z || anyBurst (b :: r')) = false)
    in Hb.
  apply orb_false_iff in Hb. destruct Hb as [Hb1 Hb2].
  apply Z.ltb_ge in Hb1. split; [lia | apply IH; assumption].
Qed.

Lemma gapped_tail (a : Activity) (r : list Activity) : gapped (a :: r) -> gapped r.
Proof.
  destruct r as [| b r']; [intros; exact I | intros [_ H]; exact H].
Qed.

Lemma gapped_head (a : Activity) (r : list Activity) :
  gapped (a :: r) ->
  forall t, In t (map act_timestamp r) -> (act_timestamp a + 1000 <= t)%Z.
Proof.
  revert a. induction r as [| b r' IH]; intros a H t Hin; [destruct Hin |].
  destruct H as [Hab Hr]. destruct Hin as [E | Hin].
  - subst t. exact Hab.
  - specialize (IH b Hr t Hin). lia.
Qed.

Lemma gapped_far (l : list Activity) :
  gapped l ->
  NoDup (map act_timestamp l) /\
  forall x y, In x (map act_timestamp l) -> In y (map act_timestamp l) ->
              x <> y -> (1000 <= Z.abs (x - y))%Z.
Proof.
  induction l as [| a r IH]; intros H.
  - split; [constructor | intros x y []].
  - pose proof (gapped_head a r H) as Hh.
    destruct (IH (gapped_tail a r H)) as [Hnd Hfar]. split.
    + simpl. constructor; [| exact Hnd].
      intros Hin. specialize (Hh _ Hin). lia.
    + intros x y [Ex | Hx] [Ey | Hy] Hne.
      * congruence.
      * subst x. specialize (Hh y Hy). lia.
      * subst y. specialize (Hh x Hx). lia.
      * apply Hfar; assumption.
Qed.

Lemma gapped_no_pair (l : list Activity) :
  gapped l -> ~ closePair (map act_timestamp l).
Proof.
  intros H [a [b [rest [P D]]]].
  destruct (gapped_far l H) as [Hnd Hfar].
  pose proof (Permutation_NoDup P Hnd) as Hnd'.
  assert (Hne : a <> b).
  { inversion Hnd' as [| x xs Hx _]; subst. intros E. apply Hx. left. symmetry. exact E. }
  assert (Ha : In a (map act_timestamp l))
    by (apply (Permutation_in a (Permutation_sym P)); left; reflexivity).
  assert (Hb : In b (map act_timestamp l))
    by (apply (Permutation_in b (Permutation_sym P)); right; left; reflexivity).
  specialize (Hfar a b Ha Hb Hne). lia.
Qed.

Lemma closePair_perm (l l' : list Z) : Permutation l l' -> closePair l -> closePair l'.
Proof.
  intros P [a [b [rest [Q D]]]]. exists a, b, rest.
  split; [| exact D]. apply perm_trans with l; [apply Permutation_sym; exact P | exact Q].
Qed.

Section AnyClock.
Variable getHours : Z -> nat.

(** X27.  For a context with recorded activity, "burst_activity" is
    reported exactly when two of its activities are less than a second
    apart, wherever they stand in the list; a context without recorded
    activity has no anomaly. *)
Theorem burst_means_two_close_activities (context : UserContext) :
  match recentActivity context with
  | Some acts =>
      In "burst_activity" (detectAnomalies getHours context)
      <-> closePair (map act_timestamp acts)
  | None => detectAnomalies getHours context = []
  end.
Proof.
  unfold detectAnomalies. destruct (recentActivity context) as [acts |]; [| reflexivity].
  cbv zeta.
  set (tailPart := match last (map Some (byTime acts)) None with
                   | Some la =>
                       if (getHours (act_timestamp la) <? 6)%nat
                          || (23 <? getHours (act_timestamp la))%nat
                       then ["unusual_hours"] else []
                   | None => []
                   end).
  assert (Ht : ~ In "burst_activity" tailPart).
  { subst tailPart. destruct (last (map Some (byTime acts)) None) as [la |];
      [| intros []].
    destruct ((getHours (act_timestamp la) <? 6)%nat
              || (23 <? getHours (act_timestamp la))%nat);
      [intros [E | []]; discriminate E | intros []]. }
  destruct (anyBurst (byTime acts)) eqn:B.
  - split; [intros _ | intros _; left; reflexivity].
    apply (closePair_perm _ _ (byTime_timestamps acts)).
    apply burst_found; [apply byTime_ascending | exact B].
  - split.
    + intros Hin. simpl in Hin. contradiction.
    + intros Hc. exfalso.
      apply (gapped_no_pair (byTime acts)).
      * apply no_burst_gapped; [apply byTime_ascending | exact B].
      * apply (closePair_perm _ _ (Permutation_sym (byTime_timestamps acts))).
        exact Hc.
Qed.

Lemma last_of_ascending (l : list Activity) :
  ascending l -> l <> [] ->
  exists la, last (map Some l) None = Some la /\ In la l /\
             forall a, In a l -> (act_timestamp a <= act_timestamp la)%Z.
Proof.
  induction l as [| a r IH]; intros Hasc Hne; [contradiction |].
  destruct r as [| b r'].
  - exists a. simpl. repeat split; [left; reflexivity |].
    intros x [E | []]. subst x. lia.
  - destruct Hasc as [Hab Hr].
    destruct (IH Hr) as [la [Hl [Hin Hmax]]]; [discriminate |].
    exists la. split; [| split].
    + change (last (map Some (a :: b :: r')) None)
        with (last (map Some (b :: r')) None). exact Hl.
    + right. exact Hin.
    + intros x [E | Hx].
      * subst x. specialize (Hmax b (or_introl eq_refl)). lia.
      * apply Hmax. exact Hx.
Qed.

(** X28.  With hours running from 0 to 23, "unusual_hours" is reported
    exactly when the context has recorded activity and the latest of it
    falls before 6 o'clock; activity late in the evening, up to 23:59, is
    never reported, since no hour is greater than 23. *)
Theorem unusual_hours_means_before_six (context : UserContext) :
  (forall t, getHours t < 24) ->
  In "unusual_hours" (detectAnomalies getHours context) <->
  exists acts latest,
    recentActivity context = Some acts /\
    In latest acts /\
    (forall a, In a acts -> (act_timestamp a <= act_timestamp latest)%Z) /\
    getHours (act_timestamp latest) < 6.
Proof.
  intros Hrange. unfold detectAnomalies.
  destruct (recentActivity context) as [acts |].
  2: { split; [intros [] | intros [a [l [E _]]]; discriminate E]. }
  cbv zeta.
  set (front := if anyBurst (byTime acts) then ["burst_activity"] else []).
  assert (Hf : ~ In "unusual_hours" front).
  { subst front. destruct (anyBurst (byTime acts));
      [intros [E | []]; discriminate E | intros []]. }
  pose proof (DetectorProofs.sort_perm
                (fun a b => (act_timestamp b <? act_timestamp a)%Z) acts) as P.
  fold (byTime acts) in P.
  destruct acts as [| a0 r0] eqn:A.
  - simpl. split; [intros Hin; simpl in Hin; tauto |].
    intros [acts' [l [E [Hin _]]]]. inversion E; subst. destruct Hin.
  - rewrite <- A in *.
    assert (Hne : byTime acts <> []).
    { intros E. rewrite E in P. apply Permutation_nil in P. rewrite A in P.
      discriminate P. }
    destruct (last_of_ascending (byTime acts) (byTime_ascending acts) Hne)
      as [la [Hl [Hin Hmax]]].
    rewrite Hl.
    assert (H23 : (23 <? getHours (act_timestamp la))%nat = false).
    { apply Nat.ltb_ge. specialize (Hrange (act_timestamp la)). lia. }
    rewrite H23, orb_false_r.
    assert (Hmax' : forall x, In x acts -> (act_timestamp x <= act_timestamp la)%Z).
    { intros x Hx. apply Hmax. apply (Permutation_in x (Permutation_sym P)). exact Hx. }
    split.
    + intros H. apply in_app_or in H. destruct H as [H | H]; [contradiction |].
      destruct (Nat.ltb_spec (getHours (act_timestamp la)) 6) as [L | G];
        [| destruct H].
      exists acts, la. repeat split; try assumption.
      apply (Permutation_in la P). exact Hin.
    + intros [acts' [latest [E [Hlin [Hlmax Hh]]]]]. inversion E; subst acts'.
      apply in_or_app. right.
      assert (Et : act_timestamp latest = act_timestamp la).
      { apply Z.le_antisymm.
        - apply Hmax'. exact Hlin.
        - apply Hlmax. apply (Permutation_in la P). exact Hin. }
      rewrite <- Et.
      destruct (Nat.ltb_spec (getHours (act_timestamp latest)) 6) as [L | G];
        [left; reflexivity | lia].
Qed.

End AnyClock.

Lemma utcHours_range (t : Z) : utcHours t < 24.
Proof.
  unfold utcHours.
  pose proof (Z.mod_pos_bound (t / 3600000) 24 eq_refl) as H.
  apply Nat2Z.inj_lt. rewrite Z2Nat.id by lia. simpl. lia.
Qed.

Lemma unusual_hours_means_before_six_witness :
  In "unusual_hours"
     (detectAnomalies utcHours (contextWith [activityAt 1700014400000])).
Proof.
  apply (proj2 (unusual_hours_means_before_six utcHours
                  (contextWith [activityAt 1700014400000]) utcHours_range)).
  exists [activityAt 1700014400000], (activityAt 1700014400000).
  split; [reflexivity |]. split; [left; reflexivity |].
  split.
  - intros a [E | []]. subst a. apply Z.le_refl.
  - vm_compute. lia.
Defined.

(** *** The relationship graph *)

Lemma mapSet_keys (k : string) (v : list string) (g : list (string * list string))
    (x : string) :
  In x (map fst (mapSet k v g)) <-> x = k \/ In x (map fst g).
Proof.
  induction g as [| e r IH]; simpl.
  - split; [intros [H | []]; left; symmetry; exact H | intros [H | []]; left; symmetry; exact H].
  - destruct (String.eqb_spec (fst e) k) as [E | N]; simpl.
    + rewrite E. split; [intros [H | H]; auto | intros [H | [H | H]]; auto].
    + rewrite IH. tauto.
Qed.

Lemma mapSet_NoDup (k : string) (v : list string) (g : list (string * list string)) :
  NoDup (map fst g) -> NoDup (map fst (mapSet k v g)).
Proof.
  induction g as [| e r IH]; intros H; simpl.
  - constructor; [intros [] | constructor].
  - inversion H as [| x xs Hx Hr]; subst.
    destruct (String.eqb_spec (fst e) k) as [E | N]; simpl.
    + constructor; [rewrite <- E; exact Hx | exact Hr].
    + constructor; [| apply IH; exact Hr].
      intros Hin. apply mapSet_keys in Hin. destruct Hin as [Hin | Hin];
        [apply N; exact Hin | contradiction].
Qed.

Lemma mapGet_set (k k' : string) (v : list string) (g : list (string * list string)) :
  mapGet k' (mapSet k v g) = if String.eqb k' k then Some v else mapGet k' g.
Proof.
  induction g as [| e r IH]; simpl.
  - rewrite (String.eqb_sym k k'). reflexivity.
  - destruct (String.eqb_spec (fst e) k) as [E | N]; simpl.
    + rewrite (String.eqb_sym k k').
      destruct (String.eqb_spec k' k) as [E' | N']; [reflexivity |].
      destruct (String.eqb_spec (fst e) k') as [E2 | _]; [congruence | reflexivity].
    + destruct (String.eqb_spec (fst e) k') as [E2 | N2].
      * destruct (String.eqb_spec k' k) as [E' | _]; [congruence | reflexivity].
      * exact IH.
Qed.

Lemma graph_from (contexts : list UserContext) (g : list (string * list string)) :
  NoDup (map fst g) ->
  NoDup (map fst (fold_left graphStep contexts g)) /\
  forall k, In k (map fst (fold_left graphStep contexts g)) <->
            In k (map fst g) \/
            exists c l, In c contexts /\ connections c = Some l /\ userIdOf c = k.
Proof.
  revert g. induction contexts as [| c r IH]; intros g Hg; simpl.
  - split; [exact Hg |]. intros k. split; [auto | intros [H | [c [l [[] _]]]]; exact H].
  - assert (Hs : NoDup (map fst (graphStep g c))).
    { unfold graphStep. destruct (connections c); [apply mapSet_NoDup |]; exact Hg. }
    destruct (IH _ Hs) as [Hnd Hk]. split; [exact Hnd |].
    intros k. rewrite Hk. unfold graphStep.
    destruct (connections c) as [l |] eqn:C.
    + rewrite mapSet_keys. split.
      * intros [[E | H] | [c' [l' [Hin [Hc Hu]]]]].
        -- right. exists c, l. repeat split; auto.
        -- left. exact H.
        -- right. exists c', l'. repeat split; auto.
      * intros [H | [c' [l' [[E | Hin] [Hc Hu]]]]].
        -- left. right. exact H.
        -- subst c'. left. left. symmetry. exact Hu.
        -- right. exists c', l'. repeat split; auto.
    + split.
      * intros [H | [c' [l' [Hin [Hc Hu]]]]]; [left; exact H |].
        right. exists c', l'. repeat split; auto.
      * intros [H | [c' [l' [[E | Hin] [Hc Hu]]]]]; [left; exact H | |].
        -- subst c'. rewrite C in Hc. discriminate Hc.
        -- right. exists c', l'. repeat split; auto.
Qed.

Lemma graph_keeps (contexts : list UserContext) (g : list (string * list string))
    (k : string) :
  (forall c, In c contexts -> connections c = None \/ userIdOf c <> k) ->
  mapGet k (fold_left graphStep contexts g) = mapGet k g.
Proof.
  revert g. induction contexts as [| c r IH]; intros g H; simpl; [reflexivity |].
  rewrite IH by (intros c' Hc'; apply H; right; exact Hc').
  unfold graphStep. destruct (H c (or_introl eq_refl)) as [E | N].
  - rewrite E. reflexivity.
  - destruct (connections c); [| reflexivity]. rewrite mapGet_set.
    destruct (String.eqb_spec k (userIdOf c)) as [E | _]; [| reflexivity].
    exfalso. apply N. symmetry. exact E.
Qed.

(** X29.  The relationship graph has one entry per user id (the handle,
    else the e-mail address, else the site name) and an id is in it exactly
    when some context with a connection list has it; the entry of an id holds
    the connection names of the last such context, so a later context with
    the same id replaces what an earlier one put there. *)
Theorem graph_has_one_entry_per_user_id :
  (forall contexts : list UserContext,
     NoDup (map fst (buildRelationshipGraph contexts)) /\
     forall k, In k (map fst (buildRelationshipGraph contexts)) <->
               exists c l, In c contexts /\ connections c = Some l /\ userIdOf c = k)
  /\
  (forall (before after : list UserContext) (c : UserContext) (l : list Connection),
     connections c = Some l ->
     (forall c', In c' after -> connections c' = None \/ userIdOf c' <> userIdOf c) ->
     mapGet (userIdOf c) (buildRelationshipGraph (before ++ c :: after))
       = Some (map conn_name l)).
Proof.
  split.
  - intros contexts.
    change (buildRelationshipGraph contexts) with (fold_left graphStep contexts []).
    destruct (graph_from contexts []) as [Hnd Hk]; [constructor |].
    split; [exact Hnd |]. intros k. rewrite Hk. simpl. tauto.
  - intros before after c l Hc Hafter.
    change (buildRelationshipGraph (before ++ c :: after))
      with (fold_left graphStep (before ++ c :: after) []).
    rewrite fold_left_app. simpl.
    rewrite graph_keeps by exact Hafter.
    unfold graphStep at 1. rewrite Hc. rewrite mapGet_set.
    rewrite String.eqb_refl. reflexivity.
Qed.

End ContextToolsFacts.
